(** * The DryIce RTC driver (i.MX25 secure real-time clock)

    A shallow embedding of the DryIce part of
    [src/drivers/input/imx_keypad.c]: the synchronous register-write
    protocol, the recovery of the unit from its four persistent states,
    the time accessor, the one-word NVRAM adapter and the probe routine.

    The driver talks to hardware and to the surrounding framework.  Both
    are kept abstract in a [Platform]: every register read, register
    write, delay, clock query and framework call is an operation of the
    platform on its own state.  Driver code is written in a small monad
    that threads the platform state and records, in program order, the
    events the driver produced.  Loops that the C code bounds only by the
    wall clock take a fuel argument; running out of fuel is [None]. *)

From Stdlib Require Import ZArith List String Bool Lia.
Import ListNotations.
Local Open Scope Z_scope.

(** ** Register map and bit definitions (the [#define]s of the source) *)

Definition DTCMR : Z := 0x00.
Definition DTCLR : Z := 0x04.

Definition DCAMR : Z := 0x08.
Definition DCALR : Z := 0x0c.
Definition DCAMR_UNSET : Z := 0xFFFFFFFF.

Definition DCR : Z := 0x10.
Definition DCR_TDCHL : Z := Z.shiftl 1 30.
Definition DCR_TDCSL : Z := Z.shiftl 1 29.
Definition DCR_KSSL : Z := Z.shiftl 1 27.
Definition DCR_MCHL : Z := Z.shiftl 1 20.
Definition DCR_MCSL : Z := Z.shiftl 1 19.
Definition DCR_TCHL : Z := Z.shiftl 1 18.
Definition DCR_TCSL : Z := Z.shiftl 1 17.
Definition DCR_FSHL : Z := Z.shiftl 1 16.
Definition DCR_TCE : Z := Z.shiftl 1 3.
Definition DCR_MCE : Z := Z.shiftl 1 2.

Definition DSR : Z := 0x14.
Definition DSR_WTD : Z := Z.shiftl 1 23.
Definition DSR_ETBD : Z := Z.shiftl 1 22.
Definition DSR_ETAD : Z := Z.shiftl 1 21.
Definition DSR_EBD : Z := Z.shiftl 1 20.
Definition DSR_SAD : Z := Z.shiftl 1 19.
Definition DSR_TTD : Z := Z.shiftl 1 18.
Definition DSR_CTD : Z := Z.shiftl 1 17.
Definition DSR_VTD : Z := Z.shiftl 1 16.
Definition DSR_WBF : Z := Z.shiftl 1 10.
Definition DSR_WNF : Z := Z.shiftl 1 9.
Definition DSR_WCF : Z := Z.shiftl 1 8.
Definition DSR_WEF : Z := Z.shiftl 1 7.
Definition DSR_CAF : Z := Z.shiftl 1 4.
Definition DSR_MCO : Z := Z.shiftl 1 3.
Definition DSR_TCO : Z := Z.shiftl 1 2.
Definition DSR_NVF : Z := Z.shiftl 1 1.
Definition DSR_SVF : Z := Z.shiftl 1 0.

Definition DIER : Z := 0x18.
Definition DMCR : Z := 0x1c.
Definition DTCR : Z := 0x28.
Definition DGPR : Z := 0x3c.

(** Modelled from the spec: the error numbers and [MSECOND] are macros
    of headers that are not among the sources.  The error kinds of the
    specification are the usual errno values the driver returns negated
    (PermissionDenied [EPERM], IoTimeout and IoWriteError [EIO], the two
    unrecoverable kinds [ENODEV], InvalidArgument [EINVAL]); [MSECOND]
    is the 1 ms confirmation window in nanoseconds, the unit of
    [get_time_ns]. *)
Definition EPERM : Z := 1.
Definition EIO : Z := 5.
Definition ENODEV : Z := 19.
Definition EINVAL : Z := 22.
Definition MSECOND : Z := 1000000.

(** [u32] and [u64] are the truncations C applies when a value is stored
    in a variable of that type. *)
Definition u32 (x : Z) : Z := x mod 2 ^ 32.
Definition u64 (x : Z) : Z := x mod 2 ^ 64.

(** The tamper-class status bits tested and cleared by the
    invalid-and-failure recovery. *)
Definition DSR_TAMPER_BITS : Z :=
  Z.lor DSR_WTD (Z.lor DSR_ETBD (Z.lor DSR_ETAD (Z.lor DSR_EBD
  (Z.lor DSR_SAD (Z.lor DSR_TTD (Z.lor DSR_CTD (Z.lor DSR_VTD
  (Z.lor DSR_MCO DSR_TCO)))))))).

(** The status bits that may legitimately remain after the tamper
    cleanup. *)
Definition DSR_EXPECTED_BITS : Z :=
  Z.lor DSR_NVF (Z.lor DSR_SVF (Z.lor DSR_WBF (Z.lor DSR_WNF
  (Z.lor DSR_WCF DSR_WEF)))).

(** [x & mask] is non-zero: the C truth value of a bit test. *)
Definition tst (x mask : Z) : bool := negb (Z.land x mask =? 0).

(** ** Events and the platform *)

Inductive loglevel : Type :=
  | LEmerg | LCrit | LErr | LWarn | LNotice | LDbg.

Inductive logarg : Type :=
  | ArgU (u : Z)
  | ArgS (s : string).

(** A pointer returned by the framework: either valid or an encoded
    error ([IS_ERR] / [PTR_ERR]). *)
Inductive errptr : Type :=
  | Ptr
  | ErrPtr (err : Z).

Inductive event : Type :=
  | EvReadl (reg val : Z)
  | EvWritel (val reg : Z)
  | EvUdelay (us : Z)
  | EvGetTimeNs (t : Z)
  | EvIsTimeout (start offset : Z) (expired : bool)
  | EvLog (lvl : loglevel) (fmt : string) (args : list logarg)
  | EvRequestMem (r : errptr)
  | EvClkGet (r : errptr)
  | EvClkEnable (rc : Z)
  | EvClkDisable
  | EvNvmemRegister (r : errptr)
  | EvRtcRegister (rc : Z).

(** Everything outside the driver file: the unit behind its register
    window, the monotonic clock of the system, and the framework
    services the driver calls.  [is_timeout], [rtc_tm_to_time] and the
    registration calls are functions of the surrounding code base that
    are not among the sources; they are taken as operations of the
    platform, each free to answer as it likes and to change the platform
    state.  [p_rtc_tm_to_time] yields the result code and the seconds. *)
Record Platform : Type := {
  pstate : Type;
  p_readl : Z -> pstate -> Z * pstate;
  p_writel : Z -> Z -> pstate -> pstate;
  p_udelay : Z -> pstate -> pstate;
  p_get_time_ns : pstate -> Z * pstate;
  p_is_timeout : Z -> Z -> pstate -> bool * pstate;
  rtc_time : Type;
  p_rtc_tm_to_time : rtc_time -> Z * Z;
  p_dev_request_mem_resource : pstate -> errptr * pstate;
  p_clk_get : pstate -> errptr * pstate;
  p_clk_enable : pstate -> Z * pstate;
  p_clk_disable : pstate -> pstate;
  p_nvmem_register : pstate -> errptr * pstate;
  p_rtc_register : pstate -> Z * pstate;
  CONFIG_NVMEM : bool
}.

Definition IS_ERR (p : errptr) : bool :=
  match p with Ptr => false | ErrPtr _ => true end.

Definition PTR_ERR (p : errptr) : Z :=
  match p with Ptr => 0 | ErrPtr e => e end.

(** The message of [di_what_is_to_be_done]. *)
Definition EMERG_FMT : string :=
  "Please cycle the %s power supply in order to get the DryIce/RTC unit working again".

(** How a [while (1)] body was left: by [break] with the last status
    snapshot, or by [return] with a result. *)
Inductive loop_exit : Type :=
  | Break (dsr : Z)
  | Return (rc : Z).

Section Driver.

Variable P : Platform.

(** ** The driver monad: platform state, event trace, fuel exhaustion *)

Definition M (A : Type) : Type :=
  pstate P -> option (A * pstate P * list event).

Definition ret {A : Type} (a : A) : M A :=
  fun s => Some (a, s, []).

Definition bind {A B : Type} (m : M A) (f : A -> M B) : M B :=
  fun s =>
    match m s with
    | None => None
    | Some (a, s1, t1) =>
        match f a s1 with
        | None => None
        | Some (b, s2, t2) => Some (b, s2, t1 ++ t2)
        end
    end.

Definition out_of_fuel {A : Type} : M A :=
  fun _ => None.

Notation "x <- m ;; k" := (bind m (fun x => k))
  (at level 61, m at next level, right associativity).
Notation "m ;;; k" := (bind m (fun _ => k))
  (at level 61, right associativity).

(** ** Primitive operations

    [readl] stands for both [readl] and [__raw_readl]: a 32-bit register
    read.  [writel] stores a [u32].  The diagnostic sink is write-only:
    a message is an event and leaves the platform state alone. *)

Definition readl (reg : Z) : M Z :=
  fun s => let (v, s') := p_readl P reg s in
           Some (u32 v, s', [EvReadl reg (u32 v)]).

Definition writel (val reg : Z) : M unit :=
  fun s => Some (tt, p_writel P (u32 val) reg s, [EvWritel (u32 val) reg]).

Definition udelay (us : Z) : M unit :=
  fun s => Some (tt, p_udelay P us s, [EvUdelay us]).

Definition get_time_ns : M Z :=
  fun s => let (t, s') := p_get_time_ns P s in
           Some (u64 t, s', [EvGetTimeNs (u64 t)]).

Definition is_timeout (start offset : Z) : M bool :=
  fun s => let (b, s') := p_is_timeout P start offset s in
           Some (b, s', [EvIsTimeout start offset b]).

Definition dev_log (lvl : loglevel) (fmt : string) (args : list logarg)
  : M unit :=
  fun s => Some (tt, s, [EvLog lvl fmt args]).

Definition dev_request_mem_resource : M errptr :=
  fun s => let (r, s') := p_dev_request_mem_resource P s in
           Some (r, s', [EvRequestMem r]).

Definition clk_get : M errptr :=
  fun s => let (r, s') := p_clk_get P s in Some (r, s', [EvClkGet r]).

Definition clk_enable : M Z :=
  fun s => let (r, s') := p_clk_enable P s in Some (r, s', [EvClkEnable r]).

Definition clk_disable : M unit :=
  fun s => Some (tt, p_clk_disable P s, [EvClkDisable]).

Definition nvmem_register : M errptr :=
  fun s => let (r, s') := p_nvmem_register P s in
           Some (r, s', [EvNvmemRegister r]).

Definition rtc_register : M Z :=
  fun s => let (r, s') := p_rtc_register P s in
           Some (r, s', [EvRtcRegister r]).

(** ** The driver *)

(** Write without confirmation, then wait four 32 kHz cycles. *)
Definition di_write_busy_wait (val reg : Z) : M unit :=
  writel val reg ;;;
  udelay 130.

Definition di_what_is_to_be_done (power_supply : string) : M unit :=
  dev_log LEmerg EMERG_FMT [ArgS power_supply].

Definition di_handle_failure_state (dsr : Z) : M Z :=
  dev_log LDbg "DSR register reports: %08X" [ArgU dsr] ;;;
  dcr <- readl DCR ;;
  if tst dcr DCR_FSHL then
    di_what_is_to_be_done "battery" ;;;
    ret (- ENODEV)
  else
    di_what_is_to_be_done "main" ;;;
    ret (- ENODEV).

Definition di_handle_valid_state (dsr : Z) : M Z :=
  di_write_busy_wait DCAMR_UNSET DCAMR ;;;
  di_write_busy_wait 0 DCALR ;;;
  (if tst dsr DSR_CAF then di_write_busy_wait DSR_CAF DSR else ret tt) ;;;
  ret 0.

Definition di_handle_invalid_state (dsr : Z) : M Z :=
  di_write_busy_wait 0 DTCR ;;;
  di_write_busy_wait DCR_TDCSL DCR ;;;
  sec <- readl DTCMR ;;
  (if negb (sec =? 0) then
     dev_log LWarn "The security violation has happened at %u seconds"
       [ArgU sec]
   else ret tt) ;;;
  dcr <- readl DCR ;;
  stop <-
    (if negb (tst dcr DCR_TCE) then
       if tst dcr DCR_TCHL then
         di_what_is_to_be_done "battery" ;;;
         ret (Some (- ENODEV))
       else if tst dcr DCR_TCSL then
         di_what_is_to_be_done "main" ;;;
         ret (Some (- ENODEV))
       else ret None
     else ret None) ;;
  match stop with
  | Some rc => ret rc
  | None =>
      di_write_busy_wait DSR_NVF DSR ;;;
      di_write_busy_wait DSR_TCO DSR ;;;
      di_write_busy_wait (Z.lor dcr DCR_TCE) DCR ;;;
      di_write_busy_wait sec DTCMR ;;;
      dsr' <- readl DSR ;;
      di_handle_valid_state dsr'
  end.

Definition di_handle_invalid_and_failure_state (dsr : Z) : M Z :=
  stop <-
    (if tst dsr DSR_TAMPER_BITS then
       dcr <- readl DCR ;;
       if tst dcr DCR_TDCHL then
         di_what_is_to_be_done "battery" ;;;
         ret (Some (- ENODEV))
       else if tst dcr DCR_TDCSL then
         di_what_is_to_be_done "main" ;;;
         ret (Some (- ENODEV))
       else ret None
     else ret None) ;;
  match stop with
  | Some rc => ret rc
  | None =>
      di_write_busy_wait 0 DTCR ;;;
      di_write_busy_wait (Z.land dsr DSR_TAMPER_BITS) DSR ;;;
      dsr1 <- readl DSR ;;
      (if negb (Z.land dsr1 (Z.lnot DSR_EXPECTED_BITS) =? 0) then
         dev_log LWarn "There are still some sources of pain in DSR: %08x!"
           [ArgU (Z.land dsr1 (Z.lnot DSR_EXPECTED_BITS))]
       else ret tt) ;;;
      di_write_busy_wait DSR_SVF DSR ;;;
      dsr2 <- readl DSR ;;
      if tst dsr2 DSR_SVF then
        dev_log LCrit
          "Cannot clear the security violation flag. We are ending up in an endless loop!"
          [] ;;;
        di_what_is_to_be_done "battery" ;;;
        ret (- ENODEV)
      else
        di_handle_invalid_state dsr2
  end.

Definition di_handle_state : M Z :=
  dsr <- readl DSR ;;
  let sw := Z.land dsr (Z.lor DSR_NVF DSR_SVF) in
  if sw =? DSR_NVF then
    dev_log LWarn "Invalid stated unit detected" [] ;;;
    di_handle_invalid_state dsr
  else if sw =? DSR_SVF then
    dev_log LWarn "Failure stated unit detected" [] ;;;
    di_handle_failure_state dsr
  else if sw =? Z.lor DSR_NVF DSR_SVF then
    dev_log LWarn "Failure+Invalid stated unit detected" [] ;;;
    di_handle_invalid_and_failure_state dsr
  else
    dev_log LNotice "Unlocked unit detected" [] ;;;
    di_handle_valid_state dsr.

(** The [for (cnt = 0; cnt < 1000; cnt++)] loop of [clear_write_error];
    the result tells whether the flag was seen clear. *)
Fixpoint clear_write_error_wait (cnt : nat) : M bool :=
  match cnt with
  | O => ret false
  | S cnt' =>
      dsr <- readl DSR ;;
      if Z.land dsr DSR_WEF =? 0 then ret true
      else udelay 10 ;;; clear_write_error_wait cnt'
  end.

Definition clear_write_error : M unit :=
  dev_log LWarn "WARNING: Register write error!" [] ;;;
  writel DSR_WEF DSR ;;;
  cleared <- clear_write_error_wait 1000%nat ;;
  if cleared then ret tt
  else dev_log LErr "ERROR: Cannot clear write-error flag!" [].

(** The [while (1)] loop of [di_write_wait]. *)
Fixpoint di_write_wait_poll (start : Z) (fuel : nat) : M loop_exit :=
  match fuel with
  | O => out_of_fuel
  | S fuel' =>
      dsr <- readl DSR ;;
      if tst dsr (Z.lor DSR_WCF DSR_WEF) then ret (Break dsr)
      else
        expired <- is_timeout start MSECOND ;;
        if expired then ret (Return (- EIO))
        else di_write_wait_poll start fuel'
  end.

Definition di_write_wait (fuel : nat) (val reg : Z) : M Z :=
  writel val reg ;;;
  start <- get_time_ns ;;
  e <- di_write_wait_poll start fuel ;;
  match e with
  | Return rc => ret rc
  | Break dsr =>
      if tst dsr DSR_WEF then
        clear_write_error ;;;
        ret (- EIO)
      else ret 0
  end.

Definition dryice_rtc_set_time (fuel : nat) (tm : rtc_time P) : M Z :=
  let (ret0, secs) := p_rtc_tm_to_time P tm in
  if negb (ret0 =? 0) then ret ret0
  else
    dcr <- readl DCR ;;
    dsr <- readl DSR ;;
    stop <-
      (if negb (tst dcr DCR_TCE) || tst dsr DSR_SVF then
         if tst dcr DCR_TCHL then
           di_what_is_to_be_done "battery" ;;;
           ret (Some (- EPERM))
         else if tst dcr DCR_TCSL || tst dsr DSR_SVF then
           di_what_is_to_be_done "main" ;;;
           ret (Some (- EPERM))
         else ret None
       else ret None) ;;
    match stop with
    | Some rc => ret rc
    | None =>
        r1 <- di_write_wait fuel 0 DTCLR ;;
        if negb (r1 =? 0) then ret r1
        else
          r2 <- di_write_wait fuel secs DTCMR ;;
          if negb (r2 =? 0) then ret r2
          else
            dcr' <- readl DCR ;;
            di_write_wait fuel (Z.lor dcr' DCR_TCE) DCR
    end.

(** The buffer behind [val] is its first 32-bit word; [bytes] is the
    length the caller announces. *)
Definition nvstore_write (reg val32 bytes : Z) : M Z :=
  if negb (bytes =? 4) then ret 0
  else
    writel val32 DGPR ;;;
    ret 0.

(** Returns the result code and the word left in the caller's buffer. *)
Definition nvstore_read (reg val32 bytes : Z) : M (Z * Z) :=
  if negb (bytes =? 4) then ret (0, val32)
  else
    v <- readl DGPR ;;
    ret (0, v).

Definition dryice_rtc_probe : M Z :=
  res <- dev_request_mem_resource ;;
  if IS_ERR res then ret (PTR_ERR res)
  else
    clk <- clk_get ;;
    if IS_ERR clk then ret (PTR_ERR clk)
    else
      rc <- clk_enable ;;
      if negb (rc =? 0) then ret rc
      else
        writel 0 DIER ;;;
        rc <- di_handle_state ;;
        if negb (rc =? 0) then clk_disable ;;; ret rc
        else
          nvmem <- nvmem_register ;;
          if CONFIG_NVMEM P && IS_ERR nvmem then
            clk_disable ;;; ret (PTR_ERR nvmem)
          else
            rc <- rtc_register ;;
            if negb (rc =? 0) then clk_disable ;;; ret rc
            else ret 0.

End Driver.

Arguments ret {P A} a.
Arguments bind {P A B} m f.
Arguments readl {P} reg.
Arguments writel {P} val reg.
Arguments udelay {P} us.
Arguments get_time_ns {P}.
Arguments is_timeout {P} start offset.
Arguments dev_log {P} lvl fmt args.
Arguments clk_disable {P}.
Arguments di_write_busy_wait {P} val reg.
Arguments di_what_is_to_be_done {P} power_supply.
Arguments di_handle_failure_state {P} dsr.
Arguments di_handle_valid_state {P} dsr.
Arguments di_handle_invalid_state {P} dsr.
Arguments di_handle_invalid_and_failure_state {P} dsr.
Arguments di_handle_state {P}.
Arguments clear_write_error_wait {P} cnt.
Arguments clear_write_error {P}.
Arguments di_write_wait_poll {P} start fuel.
Arguments di_write_wait {P} fuel val reg.
Arguments dryice_rtc_set_time {P} fuel tm.
Arguments nvstore_write {P} reg val32 bytes.
Arguments nvstore_read {P} reg val32 bytes.
Arguments dryice_rtc_probe {P}.

Notation "x <- m ;; k" := (bind m (fun x => k))
  (at level 61, m at next level, right associativity).
Notation "m ;;; k" := (bind m (fun _ => k))
  (at level 61, right associativity).

(** ** Reading traces *)

(** The register writes of a trace, in program order, as
    (value, register) pairs. *)
Fixpoint writes (t : list event) : list (Z * Z) :=
  match t with
  | [] => []
  | EvWritel v r :: t' => (v, r) :: writes t'
  | _ :: t' => writes t'
  end.

(** The register accesses (reads and writes) of a trace. *)
Fixpoint accesses (t : list event) : list event :=
  match t with
  | [] => []
  | EvReadl r v :: t' => EvReadl r v :: accesses t'
  | EvWritel v r :: t' => EvWritel v r :: accesses t'
  | _ :: t' => accesses t'
  end.

(** The interface registrations of a trace: the NVRAM word
    ([nvmem_register]) and the calendar time ([rtc_register]). *)
Definition is_registration (e : event) : bool :=
  match e with
  | EvNvmemRegister _ | EvRtcRegister _ => true
  | _ => false
  end.

Definition registrations (t : list event) : list event :=
  filter is_registration t.

(** The events the recovery procedures may produce: register accesses,
    delays and log messages. *)
Definition unit_event (e : event) : bool :=
  match e with
  | EvReadl _ _ | EvWritel _ _ | EvUdelay _ | EvLog _ _ _ => true
  | _ => false
  end.


(** The result of a run together with its register accesses. *)
Definition run_accesses {P : Platform} {A : Type}
    (r : option (A * pstate P * list event)) : option (A * list event) :=
  match r with
  | Some (a, _, t) => Some (a, accesses t)
  | None => None
  end.

(** The supply named by the emergency message of
    [di_what_is_to_be_done], if the trace holds one. *)
Fixpoint supply_to_cycle (t : list event) : option string :=
  match t with
  | [] => None
  | EvLog LEmerg _ [ArgS supply] :: _ => Some supply
  | _ :: t' => supply_to_cycle t'
  end.

(** ** The error kinds of the specification

    The C code reports an unrecoverable unit as [-ENODEV] and names the
    physical action in the emergency message: the battery supply for a
    hard lock, the main supply for a soft lock. *)
Inductive unrecoverable : Type :=
  | UntilBatteryCycle
  | UntilReset.

Definition unrecoverable_kind (rc : Z) (t : list event)
  : option unrecoverable :=
  if rc =? - ENODEV then
    match supply_to_cycle t with
    | Some "battery"%string => Some UntilBatteryCycle
    | Some "main"%string => Some UntilReset
    | _ => None
    end
  else None.

(** ** The state classifier of the specification

    The persistent state as the specification words it: a function of
    the non-valid flag (bit 1) and the security-violation flag (bit 0)
    of the status register. *)
Inductive unit_state : Type :=
  | Valid
  | Invalid
  | Failure
  | InvalidAndFailure.

Definition classify (status : Z) : unit_state :=
  match Z.testbit status 1, Z.testbit status 0 with
  | false, false => Valid
  | true, false => Invalid
  | false, true => Failure
  | true, true => InvalidAndFailure
  end.

(** The recovery procedure of each state, preceded by the message
    [di_handle_state] logs for it. *)
Definition procedure {P : Platform} (st : unit_state) (dsr : Z) : M P Z :=
  match st with
  | Valid =>
      dev_log LNotice "Unlocked unit detected" [] ;;;
      di_handle_valid_state dsr
  | Invalid =>
      dev_log LWarn "Invalid stated unit detected" [] ;;;
      di_handle_invalid_state dsr
  | Failure =>
      dev_log LWarn "Failure stated unit detected" [] ;;;
      di_handle_failure_state dsr
  | InvalidAndFailure =>
      dev_log LWarn "Failure+Invalid stated unit detected" [] ;;;
      di_handle_invalid_and_failure_state dsr
  end.

(** A computation is tame when it returns from every platform state,
    without fuel, and produces only events of the unit. *)
Definition tame {P : Platform} {A : Type} (m : M P A) : Prop :=
  forall s, exists a s' t,
    m s = Some (a, s', t) /\ forallb unit_event t = true.

(** The tail of [dryice_rtc_set_time] once the permission checks have
    passed: the three confirmed writes. *)
Definition set_time_writes {P : Platform} (fuel : nat) (secs : Z) : M P Z :=
  r1 <- di_write_wait fuel 0 DTCLR ;;
  if negb (r1 =? 0) then ret r1
  else
    r2 <- di_write_wait fuel secs DTCMR ;;
    if negb (r2 =? 0) then ret r2
    else
      dcr' <- readl DCR ;;
      di_write_wait fuel (Z.lor dcr' DCR_TCE) DCR.

(** ** A scripted platform

    The answers of the platform are read off a list, one per query, in
    the order the driver asks; writes and delays are accepted and
    ignored.  An exhausted script answers 0.  It stands for a unit under
    test and drives the driver through chosen register values. *)
Module Script.

Definition pop (s : list Z) : Z * list Z :=
  match s with
  | [] => (0, [])
  | v :: s' => (v, s')
  end.

Definition pop_bool (s : list Z) : bool * list Z :=
  let (v, s') := pop s in (negb (v =? 0), s').

Definition pop_ptr (s : list Z) : errptr * list Z :=
  let (v, s') := pop s in ((if v =? 0 then Ptr else ErrPtr v), s').

Definition platform : Platform := {|
  pstate := list Z;
  p_readl := fun _ s => pop s;
  p_writel := fun _ _ s => s;
  p_udelay := fun _ s => s;
  p_get_time_ns := pop;
  p_is_timeout := fun _ _ s => pop_bool s;
  rtc_time := Z;
  p_rtc_tm_to_time := fun tm => (0, tm);
  p_dev_request_mem_resource := pop_ptr;
  p_clk_get := pop_ptr;
  p_clk_enable := pop;
  p_clk_disable := fun s => s;
  p_nvmem_register := pop_ptr;
  p_rtc_register := pop;
  CONFIG_NVMEM := true
|}.

End Script.

(** ** A simulated register bank

    A model of the unit as the comments of the driver describe it.  A
    register keeps the value written to it, with these exceptions.  The
    status register is write-one-to-clear.  The lock bits of the control
    register, once set, survive every software write (only a power-on
    reset clears them), and while set they protect what they name: a
    tamper-configuration lock the tamper configuration register, a
    time-counter lock the two time counter registers and the
    time-counter-enable bit, a monotonic-counter lock the monotonic
    counter register and the monotonic-counter-enable bit; a write
    leaves what is protected as it was.  Every write except one to the
    interrupt-enable register raises the write-complete flag, which a
    read of the status register clears again.  The clock advances with
    every bus access and with every delay. *)
Module SimBank.

Record bank : Type := {
  regs : Z -> Z;
  now_ns : Z
}.

Definition BUS_NS : Z := 100.

Definition DCR_LOCKS : Z :=
  Z.lor DCR_TDCHL (Z.lor DCR_TDCSL (Z.lor DCR_KSSL (Z.lor DCR_MCHL
  (Z.lor DCR_MCSL (Z.lor DCR_TCHL (Z.lor DCR_TCSL DCR_FSHL)))))).

Definition store (r v : Z) (f : Z -> Z) : Z -> Z :=
  fun x => if x =? r then v else f x.

(** The locks that a control value [dcr] holds, hard or soft. *)
Definition tamper_locked (dcr : Z) : bool :=
  Z.testbit dcr 30 || Z.testbit dcr 29.

Definition time_locked (dcr : Z) : bool :=
  Z.testbit dcr 18 || Z.testbit dcr 17.

Definition counter_locked (dcr : Z) : bool :=
  Z.testbit dcr 20 || Z.testbit dcr 19.

(** Is register [r] protected from writes while the control register
    holds [dcr]? *)
Definition write_protected (r dcr : Z) : bool :=
  ((r =? DTCR) && tamper_locked dcr)
  || (((r =? DTCMR) || (r =? DTCLR)) && time_locked dcr)
  || ((r =? DMCR) && counter_locked dcr).

(** The enable bits of the control register that its locks protect. *)
Definition frozen_enables (dcr : Z) : Z :=
  Z.lor (if time_locked dcr then DCR_TCE else 0)
        (if counter_locked dcr then DCR_MCE else 0).

(** The control register after [v] is written over [old]: the bits of
    [v] outside the protected enable bits, together with the lock bits
    and the protected enable bits of [old]. *)
Definition control_write (v old : Z) : Z :=
  Z.lor (Z.land v (Z.lnot (frozen_enables old)))
        (Z.land old (Z.lor DCR_LOCKS (frozen_enables old))).

Definition sim_readl (r : Z) (b : bank) : Z * bank :=
  (regs b r,
   {| regs := if r =? DSR
              then store DSR (Z.land (regs b DSR) (Z.lnot DSR_WCF)) (regs b)
              else regs b;
      now_ns := now_ns b + BUS_NS |}).

Definition sim_writel (v r : Z) (b : bank) : bank :=
  let f := regs b in
  let f1 :=
    if r =? DSR then store DSR (Z.land (f DSR) (Z.lnot v)) f
    else if r =? DCR then store DCR (control_write v (f DCR)) f
    else if write_protected r (f DCR) then f
    else store r v f in
  {| regs := if r =? DIER then f1
             else store DSR (Z.lor (f1 DSR) DSR_WCF) f1;
     now_ns := now_ns b + BUS_NS |}.

Definition sim_udelay (us : Z) (b : bank) : bank :=
  {| regs := regs b; now_ns := now_ns b + 1000 * us |}.

Definition platform : Platform := {|
  pstate := bank;
  p_readl := sim_readl;
  p_writel := sim_writel;
  p_udelay := sim_udelay;
  p_get_time_ns := fun b => (now_ns b, b);
  p_is_timeout := fun start offset b => (start + offset <? now_ns b, b);
  rtc_time := Z;
  p_rtc_tm_to_time := fun tm => (0, tm);
  p_dev_request_mem_resource := fun b => (Ptr, b);
  p_clk_get := fun b => (Ptr, b);
  p_clk_enable := fun b => (0, b);
  p_clk_disable := fun b => b;
  p_nvmem_register := fun b => (Ptr, b);
  p_rtc_register := fun b => (0, b);
  CONFIG_NVMEM := true
|}.

(** A bank whose registers are all zero except the listed ones. *)
Fixpoint bank_of (l : list (Z * Z)) : Z -> Z :=
  match l with
  | [] => fun _ => 0
  | (r, v) :: l' => store r v (bank_of l')
  end.

End SimBank.

(** ** Idle polls of [di_write_wait]

    [idle_polls start n s s']: from platform state [s], the poll loop
    goes [n] times round without leaving: each time the status snapshot
    shows neither the write-complete nor the write-error flag and the
    1 ms window counted from [start] has not elapsed; [s'] is the state
    before the next status read. *)
Inductive idle_polls {P : Platform} (start : Z)
  : nat -> pstate P -> pstate P -> Prop :=
  | idle_done : forall s, idle_polls start O s s
  | idle_again : forall n s v s1 s2 s',
      p_readl P DSR s = (v, s1) ->
      tst (u32 v) (Z.lor DSR_WCF DSR_WEF) = false ->
      p_is_timeout P start MSECOND s1 = (false, s2) ->
      idle_polls start n s2 s' ->
      idle_polls start (S n) s s'.

(** The events of those idle polls. *)
Fixpoint idle_trace {P : Platform} (start : Z) (n : nat) (s : pstate P)
  : list event :=
  match n with
  | O => []
  | S n' =>
      let (v, s1) := p_readl P DSR s in
      let (_, s2) := p_is_timeout P start MSECOND s1 in
      EvReadl DSR (u32 v) :: EvIsTimeout start MSECOND false
        :: idle_trace start n' s2
  end.

(** ** More trace readers *)

(** The status snapshots of a trace: the values read from the status
    register, in program order. *)
Fixpoint status_reads (t : list event) : list Z :=
  match t with
  | [] => []
  | EvReadl r v :: t' =>
      if r =? DSR then v :: status_reads t' else status_reads t'
  | _ :: t' => status_reads t'
  end.


(** Every register write of the trace is followed at once by the
    130 us settling delay. *)
Fixpoint settled (t : list event) : bool :=
  match t with
  | [] => true
  | EvWritel _ _ :: t' =>
      match t' with
      | EvUdelay us :: t'' => (us =? 130) && settled t''
      | _ => false
      end
  | _ :: t' => settled t'
  end.

(** The events of the clock the confirmed write uses. *)
Definition clock_event (e : event) : bool :=
  match e with
  | EvGetTimeNs _ | EvIsTimeout _ _ _ => true
  | _ => false
  end.

(** The platform state after [di_write_busy_wait val reg]. *)
Definition busy_wait_state (P : Platform) (val reg : Z) (s : pstate P)
  : pstate P :=
  p_udelay P 130 (p_writel P (u32 val) reg s).

(** ** Reading the time

    [dryice_rtc_read_time]: the seconds are read from the time-counter
    MSB register and handed to the calendar conversion
    [rtc_time_to_tm], a function of the surrounding code base that is
    taken as a parameter.  The result is the return code together with
    the calendar time stored through [tm]. *)
Definition dryice_rtc_read_time {P : Platform} {tm : Type}
    (rtc_time_to_tm : Z -> tm) : M P (Z * tm) :=
  now <- readl DTCMR ;;
  ret (0, rtc_time_to_tm now).

(** A computation settles when it returns from every platform state
    without fuel, with a result that satisfies [Q], and with a trace of
    register accesses, delays and messages in which every write is
    followed by its settling delay. *)
Definition settling {P : Platform} {A : Type} (Q : A -> Prop) (m : M P A)
  : Prop :=
  forall s, exists a s' t,
    m s = Some (a, s', t)
    /\ settled t = true
    /\ forallb unit_event t = true
    /\ Q a.

(** What the lock checks of the recovery procedures hand on: go on, or
    stop with [-ENODEV]. *)
Definition stop_or_go (o : option Z) : Prop :=
  o = None \/ o = Some (- ENODEV).

(** The results of the recovery procedures. *)
Definition recovered_or_dead (rc : Z) : Prop :=
  rc = 0 \/ rc = - ENODEV.


(** The tail of [di_handle_invalid_and_failure_state] once the lock
    checks let it go on: the tamper cleanup, the attempt to clear the
    security-violation flag, and the recovery of the invalid state. *)
Definition tamper_cleanup {P : Platform} (dsr : Z) : M P Z :=
  di_write_busy_wait 0 DTCR ;;;
  di_write_busy_wait (Z.land dsr DSR_TAMPER_BITS) DSR ;;;
  dsr1 <- readl DSR ;;
  (if negb (Z.land dsr1 (Z.lnot DSR_EXPECTED_BITS) =? 0) then
     dev_log LWarn "There are still some sources of pain in DSR: %08x!"
       [ArgU (Z.land dsr1 (Z.lnot DSR_EXPECTED_BITS))]
   else ret tt) ;;;
  di_write_busy_wait DSR_SVF DSR ;;;
  dsr2 <- readl DSR ;;
  if tst dsr2 DSR_SVF then
    dev_log LCrit
      "Cannot clear the security violation flag. We are ending up in an endless loop!"
      [] ;;;
    di_what_is_to_be_done "battery" ;;;
    ret (- ENODEV)
  else
    di_handle_invalid_state dsr2.


(** [runs_to m s a s']: from platform state [s] the computation [m]
    returns [a] and leaves the platform in [s']. *)
Definition runs_to {P : Platform} {A : Type} (m : M P A) (s : pstate P)
    (a : A) (s' : pstate P) : Prop :=
  exists t, m s = Some (a, s', t).

(** The platform state [di_handle_valid_state dsr] ends in. *)
Definition valid_state_end (P : Platform) (dsr : Z) (s : pstate P)
  : pstate P :=
  let s1 := busy_wait_state P DCAMR_UNSET DCAMR s in
  let s2 := busy_wait_state P 0 DCALR s1 in
  if Z.testbit dsr 4 then busy_wait_state P DSR_CAF DSR s2 else s2.

(** The control value [di_handle_invalid_state] reads back after its
    soft-lock write. *)
Definition invalid_state_dcr (P : Platform) (s : pstate P) : Z :=
  let sa := busy_wait_state P 0 DTCR s in
  let sb := busy_wait_state P DCR_TDCSL DCR sa in
  let sc := snd (p_readl P DTCMR sb) in
  u32 (fst (p_readl P DCR sc)).

(** The platform state [di_handle_invalid_state] ends in when its lock
    check passes. *)
Definition invalid_state_end (P : Platform) (s : pstate P) : pstate P :=
  let sa := busy_wait_state P 0 DTCR s in
  let sb := busy_wait_state P DCR_TDCSL DCR sa in
  let sec := u32 (fst (p_readl P DTCMR sb)) in
  let sc := snd (p_readl P DTCMR sb) in
  let dcr := u32 (fst (p_readl P DCR sc)) in
  let sd := snd (p_readl P DCR sc) in
  let se := busy_wait_state P DSR_NVF DSR sd in
  let sf := busy_wait_state P DSR_TCO DSR se in
  let sg := busy_wait_state P (Z.lor dcr DCR_TCE) DCR sf in
  let sh := busy_wait_state P sec DTCMR sg in
  let dsr' := u32 (fst (p_readl P DSR sh)) in
  let si := snd (p_readl P DSR sh) in
  valid_state_end P dsr' si.


(** The scripted platform built without NVMEM support
    ([CONFIG_NVMEM] off). *)
Definition script_without_nvmem : Platform := {|
  pstate := list Z;
  p_readl := p_readl Script.platform;
  p_writel := p_writel Script.platform;
  p_udelay := p_udelay Script.platform;
  p_get_time_ns := p_get_time_ns Script.platform;
  p_is_timeout := p_is_timeout Script.platform;
  rtc_time := Z;
  p_rtc_tm_to_time := p_rtc_tm_to_time Script.platform;
  p_dev_request_mem_resource := p_dev_request_mem_resource Script.platform;
  p_clk_get := p_clk_get Script.platform;
  p_clk_enable := p_clk_enable Script.platform;
  p_clk_disable := p_clk_disable Script.platform;
  p_nvmem_register := p_nvmem_register Script.platform;
  p_rtc_register := p_rtc_register Script.platform;
  CONFIG_NVMEM := false
|}.


(** * The i.MX keypad port

    The matrix-keypad driver of the same source file.  It drives other
    hardware than the DryIce unit, through 16-bit registers, and keeps
    its debounce state in [struct imx_keypad].  All of its loops are
    bounded, so its code needs no fuel: a computation maps a bus state
    to a result, a bus state and the events produced. *)
Module Kpp.

(** ** Registers and constants *)

Definition KPCR : Z := 0x00.
Definition KPSR : Z := 0x02.
Definition KBD_STAT_KPKD : Z := Z.shiftl 1 0.
Definition KBD_STAT_KPKR : Z := Z.shiftl 1 1.
Definition KBD_STAT_KDSC : Z := Z.shiftl 1 2.
Definition KBD_STAT_KRSS : Z := Z.shiftl 1 3.
Definition KBD_STAT_KDIE : Z := Z.shiftl 1 8.
Definition KBD_STAT_KRIE : Z := Z.shiftl 1 9.
Definition KBD_STAT_KPPEN : Z := Z.shiftl 1 10.
Definition KDDR : Z := 0x04.
Definition KPDR : Z := 0x06.

Definition MAX_MATRIX_KEY_ROWS : Z := 8.
Definition MAX_MATRIX_KEY_COLS : Z := 8.
Definition MATRIX_ROW_SHIFT : Z := 3.
Definition IMX_KEYPAD_SCANS_FOR_STABILITY : Z := 3.

(** The range of an [int] and its increment: [x++] wraps from
    [INT_MAX] to [INT_MIN] as 32-bit two's-complement arithmetic
    does. *)
Definition INT_MAX : Z := 2 ^ 31 - 1.
Definition INT_MIN : Z := - 2 ^ 31.

Definition int_incr (x : Z) : Z :=
  if x =? INT_MAX then INT_MIN else x + 1.

(** The truncation to [unsigned short]. *)
Definition u16 (x : Z) : Z := x mod 2 ^ 16.

(** The values of [for (i = 0; i < 8; i++)]. *)
Definition indices : list Z := [0; 1; 2; 3; 4; 5; 6; 7].

(** ** Arrays *)

Definition aget (a : list Z) (i : Z) : Z := nth (Z.to_nat i) a 0.

Fixpoint aset_nat (a : list Z) (n : nat) (v : Z) : list Z :=
  match a, n with
  | [], _ => []
  | _ :: a', O => v :: a'
  | x :: a', S n' => x :: aset_nat a' n' v
  end.

Definition aset (a : list Z) (i : Z) (v : Z) : list Z :=
  aset_nat a (Z.to_nat i) v.

(** ** Driver state, events and the bus *)

Record imx_keypad : Type := {
  stable_count : Z;
  rows_en_mask : Z;
  cols_en_mask : Z;
  keycodes : list Z;
  matrix_stable_state : list Z;
  matrix_unstable_state : list Z
}.

Inductive kev : Type :=
  | KReadw (reg val : Z)
  | KWritew (val reg : Z)
  | KUdelay (us : Z)
  | KReport (code value : Z)
  | KLog (lvl : loglevel) (fmt : string) (args : list Z)
  | KRequestMem (r : errptr)
  | KBuildKeymap (rc : Z)
  | KPollerRegister (rc : Z)
  | KInputRegister (rc : Z).

(** The keypad port behind its register window and the services the
    probe routine calls.  [b_build_keymap] stands for
    [matrix_keypad_build_keymap]: it yields the result code and the
    key-code table it has filled in. *)
Record Bus : Type := {
  bstate : Type;
  b_readw : Z -> bstate -> Z * bstate;
  b_writew : Z -> Z -> bstate -> bstate;
  b_udelay : Z -> bstate -> bstate;
  b_request_mem : bstate -> errptr * bstate;
  b_build_keymap : bstate -> Z * list Z * bstate;
  b_poller_register : bstate -> Z * bstate;
  b_input_device_register : bstate -> Z * bstate
}.

Section Keypad.

Variable B : Bus.

(** [MATRIX_SCAN_CODE] and [KEY_RESERVED] are macros of headers that
    are not among the sources; the code is modelled for any choice of
    them. *)
Variable MATRIX_SCAN_CODE : Z -> Z -> Z -> Z.
Variable KEY_RESERVED : Z.

Definition K (A : Type) : Type := bstate B -> A * bstate B * list kev.

Definition kret {A : Type} (a : A) : K A := fun h => (a, h, []).

Definition kbind {A C : Type} (m : K A) (f : A -> K C) : K C :=
  fun h =>
    let '(a, h1, t1) := m h in
    let '(c, h2, t2) := f a h1 in
    (c, h2, t1 ++ t2).

Notation "x <~ m ;; k" := (kbind m (fun x => k))
  (at level 61, m at next level, right associativity).
Notation "m ;;~ k" := (kbind m (fun _ => k))
  (at level 61, right associativity).

Definition readw (reg : Z) : K Z :=
  fun h => let (v, h') := b_readw B reg h in
           (u16 v, h', [KReadw reg (u16 v)]).

Definition writew (val reg : Z) : K unit :=
  fun h => (tt, b_writew B (u16 val) reg h, [KWritew (u16 val) reg]).

Definition kudelay (us : Z) : K unit :=
  fun h => (tt, b_udelay B us h, [KUdelay us]).

Definition klog (lvl : loglevel) (fmt : string) (args : list Z) : K unit :=
  fun h => (tt, h, [KLog lvl fmt args]).

Definition input_report_key_event (code value : Z) : K unit :=
  fun h => (tt, h, [KReport code value]).

(** ** Scanning *)

(** The body of the column loop of [imx_keypad_scan_matrix], for the
    columns [cols] in turn. *)
Fixpoint scan_columns (keypad : imx_keypad) (cols : list Z)
    (matrix_volatile_state : list Z) : K (list Z) :=
  match cols with
  | [] => kret matrix_volatile_state
  | col :: cols' =>
      if Z.land (cols_en_mask keypad) (Z.shiftl 1 col) =? 0 then
        scan_columns keypad cols' matrix_volatile_state
      else
        reg_val <~ readw KPDR ;;
        writew (Z.lor reg_val 0xff00) KPDR ;;~
        reg_val <~ readw KPCR ;;
        writew (Z.land reg_val
                  (Z.lnot (Z.shiftl (Z.land (cols_en_mask keypad) 0xff) 8)))
          KPCR ;;~
        kudelay 2 ;;~
        reg_val <~ readw KPCR ;;
        writew (Z.lor reg_val
                  (Z.shiftl (Z.land (cols_en_mask keypad) 0xff) 8))
          KPCR ;;~
        reg_val <~ readw KPDR ;;
        writew (Z.land reg_val (Z.lnot (Z.shiftl 1 (8 + col)))) KPDR ;;~
        kudelay 5 ;;~
        reg_val <~ readw KPDR ;;
        scan_columns keypad cols'
          (aset matrix_volatile_state col
             (u16 (Z.land (Z.lnot reg_val) (rows_en_mask keypad))))
  end.

Definition imx_keypad_scan_matrix (keypad : imx_keypad)
    (matrix_volatile_state : list Z) : K (list Z) :=
  vol <~ scan_columns keypad indices matrix_volatile_state ;;
  reg_val <~ readw KPDR ;;
  writew (Z.land reg_val 0x00ff) KPDR ;;~
  kret vol.

(** ** Firing events *)

(** The row loop of [imx_keypad_fire_events] for one column. *)
Fixpoint fire_rows (keypad : imx_keypad) (matrix_volatile_state : list Z)
    (col bits_changed : Z) (rows : list Z) : K unit :=
  match rows with
  | [] => kret tt
  | row :: rows' =>
      if Z.land (rows_en_mask keypad) (Z.shiftl 1 row) =? 0 then
        fire_rows keypad matrix_volatile_state col bits_changed rows'
      else if Z.land bits_changed (Z.shiftl 1 row) =? 0 then
        fire_rows keypad matrix_volatile_state col bits_changed rows'
      else
        let code := MATRIX_SCAN_CODE row col MATRIX_ROW_SHIFT in
        input_report_key_event (aget (keycodes keypad) code)
          (Z.land (aget matrix_volatile_state col) (Z.shiftl 1 row)) ;;~
        klog LDbg "Event code: %d, val: %d"
          [aget (keycodes keypad) code;
           Z.land (aget matrix_volatile_state col) (Z.shiftl 1 row)] ;;~
        fire_rows keypad matrix_volatile_state col bits_changed rows'
  end.

(** The column loop of [imx_keypad_fire_events]. *)
Fixpoint fire_columns (keypad : imx_keypad) (matrix_volatile_state : list Z)
    (cols : list Z) : K unit :=
  match cols with
  | [] => kret tt
  | col :: cols' =>
      if Z.land (cols_en_mask keypad) (Z.shiftl 1 col) =? 0 then
        fire_columns keypad matrix_volatile_state cols'
      else
        let bits_changed :=
          u16 (Z.lxor (aget (matrix_stable_state keypad) col)
                 (aget matrix_volatile_state col)) in
        if bits_changed =? 0 then
          fire_columns keypad matrix_volatile_state cols'
        else
          fire_rows keypad matrix_volatile_state col bits_changed indices ;;~
          fire_columns keypad matrix_volatile_state cols'
  end.

Definition imx_keypad_fire_events (keypad : imx_keypad)
    (matrix_volatile_state : list Z) : K unit :=
  fire_columns keypad matrix_volatile_state indices.

(** ** The poll handler *)

(** The first loop of [imx_keypad_check_for_events]: does the scan
    differ from the unstable state in an enabled column? *)
Fixpoint state_changed (keypad : imx_keypad)
    (matrix_volatile_state : list Z) (cols : list Z) : bool :=
  match cols with
  | [] => false
  | i :: cols' =>
      if Z.land (cols_en_mask keypad) (Z.shiftl 1 i) =? 0 then
        state_changed keypad matrix_volatile_state cols'
      else if negb (Z.lxor (aget (matrix_unstable_state keypad) i)
                      (aget matrix_volatile_state i) =? 0) then true
      else state_changed keypad matrix_volatile_state cols'
  end.

(** The last loop: are all columns of the scan zero? *)
Fixpoint is_zero_matrix (matrix_volatile_state : list Z) (cols : list Z)
  : bool :=
  match cols with
  | [] => true
  | i :: cols' =>
      if negb (aget matrix_volatile_state i =? 0) then false
      else is_zero_matrix matrix_volatile_state cols'
  end.

Definition with_unstable (keypad : imx_keypad) (vol : list Z)
  : imx_keypad :=
  {| stable_count := 0;
     rows_en_mask := rows_en_mask keypad;
     cols_en_mask := cols_en_mask keypad;
     keycodes := keycodes keypad;
     matrix_stable_state := matrix_stable_state keypad;
     matrix_unstable_state := vol |}.

Definition with_count (keypad : imx_keypad) (n : Z) : imx_keypad :=
  {| stable_count := n;
     rows_en_mask := rows_en_mask keypad;
     cols_en_mask := cols_en_mask keypad;
     keycodes := keycodes keypad;
     matrix_stable_state := matrix_stable_state keypad;
     matrix_unstable_state := matrix_unstable_state keypad |}.

Definition with_stable (keypad : imx_keypad) (vol : list Z)
  : imx_keypad :=
  {| stable_count := stable_count keypad;
     rows_en_mask := rows_en_mask keypad;
     cols_en_mask := cols_en_mask keypad;
     keycodes := keycodes keypad;
     matrix_stable_state := vol;
     matrix_unstable_state := matrix_unstable_state keypad |}.

(** [imx_keypad_check_for_events]; the result is the driver state it
    leaves.  [stable_count] is an [int], incremented with
    [int_incr]. *)
Definition imx_keypad_check_for_events (keypad : imx_keypad)
  : K imx_keypad :=
  vol <~ imx_keypad_scan_matrix keypad [0; 0; 0; 0; 0; 0; 0; 0] ;;
  let keypad :=
    if state_changed keypad vol indices
    then with_unstable keypad vol
    else with_count keypad (int_incr (stable_count keypad)) in
  if stable_count keypad <? IMX_KEYPAD_SCANS_FOR_STABILITY then
    kret keypad
  else
    keypad <~
      (if stable_count keypad =? IMX_KEYPAD_SCANS_FOR_STABILITY then
         imx_keypad_fire_events keypad vol ;;~
         kret (with_stable keypad vol)
       else kret keypad) ;;
    (if is_zero_matrix vol indices then
       reg_val <~ readw KPSR ;;
       writew (Z.lor reg_val (Z.lor KBD_STAT_KPKD KBD_STAT_KDSC)) KPSR ;;~
       reg_val <~ readw KPSR ;;
       writew (Z.land (Z.lor reg_val KBD_STAT_KDIE)
                 (Z.lnot KBD_STAT_KRIE)) KPSR
     else
       reg_val <~ readw KPSR ;;
       writew (Z.lor reg_val (Z.lor KBD_STAT_KPKR KBD_STAT_KRSS)) KPSR ;;~
       reg_val <~ readw KPSR ;;
       writew (Z.land (Z.lor reg_val KBD_STAT_KRIE)
                 (Z.lnot KBD_STAT_KDIE)) KPSR) ;;~
    kret keypad.

(** ** Configuration *)

Definition imx_keypad_config (keypad : imx_keypad) : K unit :=
  reg_val <~ readw KPCR ;;
  let reg_val := u16 (Z.lor reg_val (Z.land (rows_en_mask keypad) 0xff)) in
  let reg_val :=
    u16 (Z.lor reg_val (Z.shiftl (Z.land (cols_en_mask keypad) 0xff) 8)) in
  writew reg_val KPCR ;;~
  reg_val <~ readw KPDR ;;
  writew (Z.land reg_val 0x00ff) KPDR ;;~
  writew 0xff00 KDDR ;;~
  reg_val <~ readw KPSR ;;
  let reg_val :=
    u16 (Z.lor reg_val
           (Z.lor KBD_STAT_KPKR
              (Z.lor KBD_STAT_KPKD (Z.lor KBD_STAT_KDSC KBD_STAT_KRSS)))) in
  writew reg_val KPSR ;;~
  let reg_val := u16 (Z.lor reg_val KBD_STAT_KDIE) in
  let reg_val := u16 (Z.land reg_val (Z.lnot KBD_STAT_KRIE)) in
  writew reg_val KPSR.

Definition imx_keypad_inhibit (keypad : imx_keypad) : K unit :=
  reg_val <~ readw KPSR ;;
  writew (Z.land reg_val (Z.lnot (Z.lor KBD_STAT_KRIE KBD_STAT_KDIE)))
    KPSR ;;~
  writew 0xff00 KPCR.

(** ** Probe *)

(** The two nested loops of [imx_keypad_probe] that search the enabled
    rows and columns; the result is the pair of masks. *)
Fixpoint enable_columns (codes : list Z) (row : Z) (cols : list Z)
    (masks : Z * Z) : Z * Z :=
  match cols with
  | [] => masks
  | col :: cols' =>
      let i := MATRIX_SCAN_CODE row col MATRIX_ROW_SHIFT in
      enable_columns codes row cols'
        (if negb (aget codes i =? KEY_RESERVED)
         then (u16 (Z.lor (fst masks) (Z.shiftl 1 row)),
               u16 (Z.lor (snd masks) (Z.shiftl 1 col)))
         else masks)
  end.

Fixpoint enable_rows (codes : list Z) (rows : list Z) (masks : Z * Z)
  : Z * Z :=
  match rows with
  | [] => masks
  | row :: rows' =>
      enable_rows codes rows' (enable_columns codes row indices masks)
  end.

Definition imx_keypad_probe : K (Z * option imx_keypad) :=
  iores <~ (fun h => let (r, h') := b_request_mem B h in
                     (r, h', [KRequestMem r])) ;;
  if IS_ERR iores then kret (PTR_ERR iores, None)
  else
    built <~ (fun h => let '(rc, codes, h') := b_build_keymap B h in
                       ((rc, codes), h', [KBuildKeymap rc])) ;;
    let (rc, codes) := built : Z * list Z in
    if negb (rc =? 0) then kret (rc, None)
    else
      let (rows, cols) := enable_rows codes indices (0, 0) in
      let keypad :=
        {| stable_count := 0;
           rows_en_mask := rows;
           cols_en_mask := cols;
           keycodes := codes;
           matrix_stable_state := [0; 0; 0; 0; 0; 0; 0; 0];
           matrix_unstable_state := [0; 0; 0; 0; 0; 0; 0; 0] |} in
      if (Z.shiftl 1 MAX_MATRIX_KEY_ROWS - 1 <? rows)
         || (Z.shiftl 1 MAX_MATRIX_KEY_COLS - 1 <? cols) then
        klog LErr "invalid key data (too many rows or colums)" [] ;;~
        kret (- EINVAL, None)
      else
        klog LDbg "enabled rows mask: %x" [rows] ;;~
        klog LDbg "enabled cols mask: %x" [cols] ;;~
        imx_keypad_config keypad ;;~
        imx_keypad_inhibit keypad ;;~
        rc <~ (fun h => let (r, h') := b_poller_register B h in
                        (r, h', [KPollerRegister r])) ;;
        if negb (rc =? 0) then kret (rc, Some keypad)
        else
          rc <~ (fun h => let (r, h') := b_input_device_register B h in
                          (r, h', [KInputRegister r])) ;;
          if negb (rc =? 0) then kret (rc, Some keypad)
          else kret (0, Some keypad).

End Keypad.

Arguments kret {B A} a.
Arguments kbind {B A C} m f.
Arguments readw {B} reg.
Arguments writew {B} val reg.
Arguments kudelay {B} us.
Arguments klog {B} lvl fmt args.
Arguments input_report_key_event {B} code value.
Arguments scan_columns {B} keypad cols matrix_volatile_state.
Arguments imx_keypad_scan_matrix {B} keypad matrix_volatile_state.
Arguments fire_rows {B} MATRIX_SCAN_CODE keypad matrix_volatile_state
  col bits_changed rows.
Arguments fire_columns {B} MATRIX_SCAN_CODE keypad matrix_volatile_state
  cols.
Arguments imx_keypad_fire_events {B} MATRIX_SCAN_CODE keypad
  matrix_volatile_state.
Arguments imx_keypad_check_for_events {B} MATRIX_SCAN_CODE keypad.
Arguments imx_keypad_config {B} keypad.
Arguments imx_keypad_inhibit {B} keypad.
Arguments imx_keypad_probe {B} MATRIX_SCAN_CODE KEY_RESERVED.

(** The result, the final bus state and the trace of a run. *)
Definition kres {B : Bus} {A : Type} (m : K B A) (h : bstate B) : A :=
  fst (fst (m h)).

Definition kst {B : Bus} {A : Type} (m : K B A) (h : bstate B)
  : bstate B :=
  snd (fst (m h)).

Definition ktr {B : Bus} {A : Type} (m : K B A) (h : bstate B)
  : list kev :=
  snd (m h).

(** The key reports of a trace, in program order. *)
Fixpoint reports (t : list kev) : list (Z * Z) :=
  match t with
  | [] => []
  | KReport code value :: t' => (code, value) :: reports t'
  | _ :: t' => reports t'
  end.

(** The register writes of a trace, as (value, register) pairs. *)
Fixpoint kwrites (t : list kev) : list (Z * Z) :=
  match t with
  | [] => []
  | KWritew v r :: t' => (v, r) :: kwrites t'
  | _ :: t' => kwrites t'
  end.

(** A scripted bus: register reads are answered from a list, writes
    and delays are ignored, the framework services succeed, and the
    key-code table is fixed. *)
Definition script_bus (codes : list Z) : Bus := {|
  bstate := list Z;
  b_readw := fun _ h => Script.pop h;
  b_writew := fun _ _ h => h;
  b_udelay := fun _ h => h;
  b_request_mem := fun h => (Ptr, h);
  b_build_keymap := fun h => (0, codes, h);
  b_poller_register := fun h => (0, h);
  b_input_device_register := fun h => (0, h)
|}.

(** [MATRIX_SCAN_CODE] as the keypad header has it, for use with the
    scripted bus. *)
Definition scan_code (row col row_shift : Z) : Z :=
  Z.shiftl row row_shift + col.

End Kpp.


(** ** Bit tests *)

Lemma shiftl_1_bits : forall k n, 0 <= k -> 0 <= n ->
  Z.testbit (Z.shiftl 1 k) n = (n =? k).
Proof.
  intros k n Hk Hn. rewrite Z.shiftl_1_l.
  destruct (Z.eqb_spec n k) as [->|Hne].
  - apply Z.pow2_bits_true. assumption.
  - apply Z.pow2_bits_false. congruence.
Qed.

Lemma land_bit : forall x k, 0 <= k ->
  Z.land x (Z.shiftl 1 k) = if Z.testbit x k then Z.shiftl 1 k else 0.
Proof.
  intros x k Hk. apply Z.bits_inj'. intros n Hn.
  rewrite Z.land_spec, shiftl_1_bits by assumption.
  destruct (Z.eqb_spec n k) as [->|Hne].
  - rewrite andb_true_r. destruct (Z.testbit x k) eqn:Hx.
    + rewrite shiftl_1_bits, Z.eqb_refl by assumption. reflexivity.
    + rewrite Z.bits_0. reflexivity.
  - rewrite andb_false_r. destruct (Z.testbit x k).
    + rewrite shiftl_1_bits by assumption.
      destruct (Z.eqb_spec n k); [contradiction | reflexivity].
    + rewrite Z.bits_0. reflexivity.
Qed.

Lemma shiftl_1_pos : forall k, 0 <= k -> Z.shiftl 1 k <> 0.
Proof.
  intros k Hk. rewrite Z.shiftl_1_l.
  pose proof (Z.pow_pos_nonneg 2 k). lia.
Qed.

Lemma tst_bit : forall x k, 0 <= k ->
  tst x (Z.shiftl 1 k) = Z.testbit x k.
Proof.
  intros x k Hk. unfold tst. rewrite land_bit by assumption.
  destruct (Z.testbit x k).
  - pose proof (shiftl_1_pos k Hk).
    destruct (Z.eqb_spec (Z.shiftl 1 k) 0); [contradiction | reflexivity].
  - reflexivity.
Qed.

Lemma tst_lor : forall x a b, tst x (Z.lor a b) = tst x a || tst x b.
Proof.
  intros x a b. unfold tst. rewrite Z.land_lor_distr_r.
  destruct (Z.eqb_spec (Z.land x a) 0) as [Ha|Ha];
    destruct (Z.eqb_spec (Z.land x b) 0) as [Hb|Hb];
    destruct (Z.eqb_spec (Z.lor (Z.land x a) (Z.land x b)) 0) as [Hc|Hc];
    try reflexivity; exfalso.
  - rewrite Ha, Hb in Hc. apply Hc. reflexivity.
  - apply Z.lor_eq_0_iff in Hc. tauto.
  - apply Z.lor_eq_0_iff in Hc. tauto.
  - apply Z.lor_eq_0_iff in Hc. tauto.
Qed.


(** ** Running driver code *)

Ltac unfold_prims :=
  unfold di_write_busy_wait, di_what_is_to_be_done,
    bind, ret, readl, writel, udelay, dev_log, get_time_ns, is_timeout,
    dev_request_mem_resource, clk_get, clk_enable, clk_disable,
    nvmem_register, rtc_register.

Lemma bind_run : forall (P : Platform) (A B : Type) (m : M P A)
    (f : A -> M P B) s a s1 t1,
  m s = Some (a, s1, t1) ->
  bind m f s =
    match f a s1 with
    | None => None
    | Some (b, s2, t2) => Some (b, s2, t1 ++ t2)
    end.
Proof. intros P A B m f s a s1 t1 H. unfold bind. rewrite H. reflexivity. Qed.

Lemma bind_some : forall (P : Platform) (A B : Type) (m : M P A)
    (f : A -> M P B) s b s2 t,
  bind m f s = Some (b, s2, t) ->
  exists a s1 t1 t2,
    m s = Some (a, s1, t1) /\ f a s1 = Some (b, s2, t2) /\ t = t1 ++ t2.
Proof.
  intros P A B m f s b s2 t H. unfold bind in H.
  destruct (m s) as [[[a s1] t1]|]; [|discriminate].
  destruct (f a s1) as [[[b' s2'] t2]|] eqn:Hf; [|discriminate].
  inversion H; subst. exists a, s1, t1, t2. auto.
Qed.

Lemma bind_ext : forall (P : Platform) (A B : Type) (m : M P A)
    (f g : A -> M P B) s,
  (forall a s1, f a s1 = g a s1) ->
  bind m f s = bind m g s.
Proof.
  intros P A B m f g s H. unfold bind.
  destruct (m s) as [[[a s1] t1]|]; [|reflexivity].
  rewrite H. reflexivity.
Qed.

Lemma writes_app : forall t1 t2, writes (t1 ++ t2) = writes t1 ++ writes t2.
Proof.
  induction t1 as [|e t1 IH]; intros t2; simpl.
  - reflexivity.
  - destruct e; simpl; rewrite ?IH; reflexivity.
Qed.

Lemma registrations_app : forall t1 t2,
  registrations (t1 ++ t2) = registrations t1 ++ registrations t2.
Proof. intros t1 t2. unfold registrations. apply filter_app. Qed.

(** ** Failure state *)

(** C6. [di_handle_failure_state] never succeeds and never writes a
    register: it reads the control register once and returns [-ENODEV];
    its message names the battery supply (unrecoverable until a battery
    cycle) exactly when the failure-state hard lock, bit 16 of the
    control register, is set, and the main supply (unrecoverable until a
    reset) otherwise. *)
Theorem di_handle_failure_state_kind :
  forall (P : Platform) (dsr : Z) (s : pstate P),
    let dcr := u32 (fst (p_readl P DCR s)) in
    exists t,
      di_handle_failure_state dsr s
        = Some (- ENODEV, snd (p_readl P DCR s), t)
      /\ - ENODEV <> 0
      /\ writes t = []
      /\ accesses t = [EvReadl DCR dcr]
      /\ unrecoverable_kind (- ENODEV) t
           = Some (if Z.testbit dcr 16
                   then UntilBatteryCycle else UntilReset).
Proof.
  intros P dsr s dcr. subst dcr.
  unfold di_handle_failure_state. unfold_prims.
  destruct (p_readl P DCR s) as [v s1]. simpl fst. simpl snd.
  change DCR_FSHL with (Z.shiftl 1 16). rewrite tst_bit by lia.
  destruct (Z.testbit (u32 v) 16); eexists;
    (split; [reflexivity|]); (split; [discriminate|]);
    repeat split; reflexivity.
Qed.

(** ** State classification *)

Lemma land_nvf_svf : forall d,
  Z.land d (Z.lor DSR_NVF DSR_SVF) =
    Z.lor (if Z.testbit d 1 then DSR_NVF else 0)
          (if Z.testbit d 0 then DSR_SVF else 0).
Proof.
  intros d. rewrite Z.land_lor_distr_r.
  unfold DSR_NVF, DSR_SVF. rewrite !land_bit by lia. reflexivity.
Qed.

Lemma classify_other_bits : forall status others,
  classify (Z.lxor status (Z.land others (Z.lnot (Z.lor DSR_NVF DSR_SVF))))
    = classify status.
Proof.
  intros status others. unfold classify.
  rewrite !Z.lxor_spec, !Z.land_spec, !Z.lnot_spec by lia.
  change (Z.testbit (Z.lor DSR_NVF DSR_SVF) 1) with true.
  change (Z.testbit (Z.lor DSR_NVF DSR_SVF) 0) with true.
  simpl negb. rewrite !andb_false_r, !xorb_false_r. reflexivity.
Qed.

(** C4. [di_handle_state] reads the status register once and runs the
    recovery procedure of the state that [classify] derives from the
    non-valid and security-violation bits of that snapshot.  The four
    combinations of the two bits select four different procedures, and
    flipping any set of other status bits selects the same one. *)
Theorem di_handle_state_dispatch :
  forall (P : Platform) (s : pstate P),
    di_handle_state s
      = (dsr <- readl DSR ;; procedure (classify dsr) dsr) s
    /\ (forall status others : Z,
          classify
            (Z.lxor status
               (Z.land others (Z.lnot (Z.lor DSR_NVF DSR_SVF))))
          = classify status)
    /\ classify 0 = Valid
    /\ classify DSR_NVF = Invalid
    /\ classify DSR_SVF = Failure
    /\ classify (Z.lor DSR_NVF DSR_SVF) = InvalidAndFailure.
Proof.
  intros P s. split; [|split; [apply classify_other_bits|]].
  - unfold di_handle_state. apply bind_ext. intros d s1. cbv zeta.
    rewrite land_nvf_svf. unfold classify.
    destruct (Z.testbit d 1), (Z.testbit d 0); reflexivity.
  - repeat split; reflexivity.
Qed.

(** ** The simulated register bank *)

Section SimBankRegisters.

Import SimBank.

Lemma regs_udelay : forall us b x, regs (sim_udelay us b) x = regs b x.
Proof. reflexivity. Qed.

Ltac eqb_cases :=
  repeat match goal with
         | |- context [Z.eqb ?a ?b] => destruct (Z.eqb_spec a b)
         end;
  try reflexivity;
  try (exfalso;
       unfold DTCMR, DTCLR, DCAMR, DCALR, DCR, DSR, DIER, DMCR, DTCR, DGPR
         in *; lia).

Lemma regs_write_frame : forall v r b x,
  x <> DSR -> x <> r -> regs (sim_writel v r b) x = regs b x.
Proof.
  intros v r b x Hx Hr. unfold sim_writel, store. cbn [regs].
  destruct (write_protected r (regs b DCR)); eqb_cases.
Qed.

Lemma regs_write_plain : forall v r b,
  r <> DSR -> r <> DCR -> write_protected r (regs b DCR) = false ->
  regs (sim_writel v r b) r = v.
Proof.
  intros v r b Hs Hc Hp. unfold sim_writel, store. cbn [regs].
  rewrite Hp. eqb_cases.
Qed.

Lemma regs_write_locked : forall v r b,
  write_protected r (regs b DCR) = true ->
  regs (sim_writel v r b) r = regs b r.
Proof.
  intros v r b Hp.
  assert (Hr : r <> DSR /\ r <> DCR).
  { unfold write_protected in Hp.
    destruct (Z.eqb_spec r DTCR) as [->|]; [split; discriminate|].
    destruct (Z.eqb_spec r DTCMR) as [->|]; [split; discriminate|].
    destruct (Z.eqb_spec r DTCLR) as [->|]; [split; discriminate|].
    destruct (Z.eqb_spec r DMCR) as [->|]; [split; discriminate|].
    discriminate Hp. }
  destruct Hr as [Hs Hc].
  unfold sim_writel, store. cbn [regs]. rewrite Hp. eqb_cases.
Qed.

(** Registers that no lock protects. *)
Lemma free_register : forall r dcr,
  r <> DTCR -> r <> DTCMR -> r <> DTCLR -> r <> DMCR ->
  write_protected r dcr = false.
Proof.
  intros r dcr H1 H2 H3 H4. unfold write_protected.
  apply Z.eqb_neq in H1, H2, H3, H4. rewrite H1, H2, H3, H4. reflexivity.
Qed.

Lemma time_register_free : forall r dcr,
  r = DTCMR \/ r = DTCLR ->
  Z.testbit dcr 18 = false -> Z.testbit dcr 17 = false ->
  write_protected r dcr = false.
Proof.
  intros r dcr Hr H18 H17. unfold write_protected, time_locked.
  rewrite H18, H17. destruct Hr as [->| ->]; reflexivity.
Qed.

Lemma regs_write_dcr : forall v b,
  regs (sim_writel v DCR b) DCR = control_write v (regs b DCR).
Proof. reflexivity. Qed.

(** The control register after a write, bit by bit. *)
Lemma frozen_enables_bits : forall dcr k, 0 <= k ->
  Z.testbit (frozen_enables dcr) k
    = ((k =? 3) && time_locked dcr) || ((k =? 2) && counter_locked dcr).
Proof.
  intros dcr k Hk. unfold frozen_enables, DCR_TCE, DCR_MCE.
  rewrite Z.lor_spec.
  destruct (time_locked dcr), (counter_locked dcr);
    rewrite ?shiftl_1_bits, ?Z.bits_0 by lia;
    rewrite ?andb_true_r, ?andb_false_r, ?orb_false_r; reflexivity.
Qed.

Lemma control_write_bits : forall v old k, 0 <= k ->
  Z.testbit (control_write v old) k
    = if (k =? 3) && time_locked old then Z.testbit old k
      else if (k =? 2) && counter_locked old then Z.testbit old k
      else Z.testbit v k || (Z.testbit old k && Z.testbit DCR_LOCKS k).
Proof.
  intros v old k Hk. unfold control_write.
  rewrite !Z.lor_spec, !Z.land_spec, Z.lnot_spec, Z.lor_spec,
    frozen_enables_bits by assumption.
  destruct (Z.eqb_spec k 3) as [->|H3].
  - change (Z.testbit DCR_LOCKS 3) with false. cbn [Z.eqb Pos.eqb andb orb].
    destruct (time_locked old); cbn [negb andb orb];
      rewrite ?orb_false_r, ?andb_false_r, ?andb_true_r, ?orb_false_r;
      reflexivity.
  - destruct (Z.eqb_spec k 2) as [->|H2].
    + change (Z.testbit DCR_LOCKS 2) with false.
      cbn [Z.eqb Pos.eqb andb orb].
      destruct (counter_locked old); cbn [negb andb orb];
        rewrite ?orb_false_r, ?andb_false_r, ?andb_true_r, ?orb_false_r;
        reflexivity.
    + cbn [andb orb negb]. rewrite andb_true_r, orb_false_r. reflexivity.
Qed.

Lemma wcf_bits : forall k, 0 <= k -> k <> 8 -> Z.testbit DSR_WCF k = false.
Proof.
  intros k Hk H8. unfold DSR_WCF. rewrite shiftl_1_bits by lia.
  apply Z.eqb_neq. exact H8.
Qed.

Lemma dsr_write_bit : forall v r b k,
  r <> DSR -> 0 <= k -> k <> 8 ->
  Z.testbit (regs (sim_writel v r b) DSR) k = Z.testbit (regs b DSR) k.
Proof.
  intros v r b k Hs Hk H8. pose proof (wcf_bits k Hk H8) as Hw.
  unfold sim_writel, store. cbn [regs].
  destruct (write_protected r (regs b DCR));
    eqb_cases; rewrite Z.lor_spec, Hw; apply orb_false_r.
Qed.

Lemma dsr_w1c_bit : forall v b k,
  0 <= k -> k <> 8 ->
  Z.testbit (regs (sim_writel v DSR b) DSR) k
    = Z.testbit (regs b DSR) k && negb (Z.testbit v k).
Proof.
  intros v b k Hk H8. pose proof (wcf_bits k Hk H8) as Hw.
  unfold sim_writel, store. cbn [regs].
  eqb_cases.
  rewrite Z.lor_spec, Z.land_spec, Z.lnot_spec, Hw by assumption.
  apply orb_false_r.
Qed.

Lemma regs_read_frame : forall r b x,
  x <> DSR -> regs (snd (sim_readl r b)) x = regs b x.
Proof.
  intros r b x Hx. unfold sim_readl, store. cbn [snd regs]. eqb_cases.
Qed.

End SimBankRegisters.

Ltac sim_ops :=
  change (p_writel SimBank.platform) with SimBank.sim_writel in *;
  change (p_udelay SimBank.platform) with SimBank.sim_udelay in *;
  change (p_readl SimBank.platform) with SimBank.sim_readl in *.

Ltac reg_neq := unfold DTCMR, DTCLR, DCAMR, DCALR, DCR, DSR, DIER, DMCR,
  DTCR, DGPR; lia.

Ltac reg_free := first [apply free_register; reg_neq | reg_neq].

(** ** Valid state *)

Lemma di_handle_valid_state_total :
  forall (P : Platform) (dsr : Z) (s : pstate P),
    exists s' t,
      di_handle_valid_state dsr s = Some (0, s', t)
      /\ writes t = (DCAMR_UNSET, DCAMR) :: (0, DCALR)
                      :: (if Z.testbit dsr 4 then [(DSR_CAF, DSR)] else []).
Proof.
  intros P dsr s. unfold di_handle_valid_state. unfold_prims.
  change DSR_CAF with (Z.shiftl 1 4). rewrite tst_bit by lia.
  destruct (Z.testbit dsr 4); eexists; eexists; split; reflexivity.
Qed.

(** C8. [di_handle_valid_state] always returns 0.  Whatever the status
    passed in, it writes the disarm sentinel to the alarm-compare MSB
    register and 0 to the LSB register, and writes the clock-alarm flag
    back to the status register exactly when that flag was set in the
    status.  On the simulated register bank, entered with the status
    the bank holds, the alarm-compare MSB register then holds all-ones
    and the clock-alarm flag is clear. *)
Theorem di_handle_valid_state_disarms :
  (forall (P : Platform) (dsr : Z) (s : pstate P),
     exists s' t,
       di_handle_valid_state dsr s = Some (0, s', t)
       /\ writes t = (DCAMR_UNSET, DCAMR) :: (0, DCALR)
                       :: (if Z.testbit dsr 4 then [(DSR_CAF, DSR)] else []))
  /\ (forall b : SimBank.bank,
        exists b' t,
          di_handle_valid_state (P := SimBank.platform)
            (SimBank.regs b DSR) b = Some (0, b', t)
          /\ SimBank.regs b' DCAMR = 0xFFFFFFFF
          /\ SimBank.regs b' DCALR = 0
          /\ Z.testbit (SimBank.regs b' DSR) 4 = false).
Proof.
  split.
  - apply di_handle_valid_state_total.
  - intros b. unfold di_handle_valid_state. unfold_prims.
    change DSR_CAF with (Z.shiftl 1 4). rewrite tst_bit by lia.
    destruct (Z.testbit (SimBank.regs b DSR) 4) eqn:Hcaf;
      eexists; eexists; (split; [reflexivity|]); sim_ops;
      rewrite ?regs_udelay.
    + split; [|split].
      * rewrite regs_write_frame by reg_neq. rewrite regs_udelay.
        rewrite regs_write_frame by reg_neq. rewrite regs_udelay.
        rewrite regs_write_plain by reg_free. reflexivity.
      * rewrite regs_write_frame by reg_neq. rewrite regs_udelay.
        rewrite regs_write_plain by reg_free. reflexivity.
      * rewrite dsr_w1c_bit by lia.
        change (Z.testbit (u32 (Z.shiftl 1 4)) 4) with true.
        apply andb_false_r.
    + split; [|split].
      * rewrite regs_write_frame by reg_neq. rewrite regs_udelay.
        rewrite regs_write_plain by reg_free. reflexivity.
      * rewrite regs_write_plain by reg_free. reflexivity.
      * rewrite dsr_write_bit by (reg_neq || lia). rewrite regs_udelay.
        rewrite dsr_write_bit by (reg_neq || lia). exact Hcaf.
Qed.

(** ** NVRAM word adapter *)

(** C2, as the code has it.  For every length other than 4 both
    [nvstore_write] and [nvstore_read] return 0 and touch nothing: no
    event, the platform state and the caller's buffer unchanged.  For a
    length of 4 they return 0 after exactly one access of the
    general-purpose register, without polling the status register. *)
Theorem nvstore_width_guard :
  forall (P : Platform) (reg val32 bytes : Z) (s : pstate P),
    (bytes <> 4 ->
       nvstore_write reg val32 bytes s = Some (0, s, [])
       /\ nvstore_read reg val32 bytes s = Some ((0, val32), s, []))
    /\ (bytes = 4 ->
          nvstore_write reg val32 bytes s
            = Some (0, p_writel P (u32 val32) DGPR s,
                    [EvWritel (u32 val32) DGPR])
          /\ nvstore_read reg val32 bytes s
               = Some ((0, u32 (fst (p_readl P DGPR s))),
                       snd (p_readl P DGPR s),
                       [EvReadl DGPR (u32 (fst (p_readl P DGPR s)))])).
Proof.
  intros P reg val32 bytes s. unfold nvstore_write, nvstore_read. split.
  - intros H. apply Z.eqb_neq in H. rewrite H. split; reflexivity.
  - intros ->. unfold_prims. cbn [Z.eqb Pos.eqb negb].
    destruct (p_readl P DGPR s) as [v s1]. split; reflexivity.
Qed.

Lemma nvstore_width_guard_witness :
  (nvstore_write (P := Script.platform) 0 7 3 [9] = Some (0, [9], [])
   /\ nvstore_read (P := Script.platform) 0 7 3 [9] = Some ((0, 7), [9], []))
  /\ (nvstore_write (P := Script.platform) 0 7 4 [9]
        = Some (0, [9], [EvWritel 7 DGPR])
      /\ nvstore_read (P := Script.platform) 0 7 4 [9]
           = Some ((0, 9), [], [EvReadl DGPR 9])).
Proof.
  split.
  - apply (nvstore_width_guard Script.platform 0 7 3 [9]). discriminate.
  - apply (nvstore_width_guard Script.platform 0 7 4 [9]). reflexivity.
Defined.

(** C2 as stated fails: a 3-byte access is answered with 0, not with
    [-EINVAL]. *)
Lemma nvstore_short_access_returns_zero :
  nvstore_write (P := Script.platform) 0 7 3 [9] = Some (0, [9], [])
  /\ nvstore_read (P := Script.platform) 0 7 3 [9] = Some ((0, 7), [9], [])
  /\ ~ (exists s t,
          nvstore_write (P := Script.platform) 0 7 3 [9]
            = Some (- EINVAL, s, t))
  /\ ~ (exists v s t,
          nvstore_read (P := Script.platform) 0 7 3 [9]
            = Some ((- EINVAL, v), s, t)).
Proof.
  split; [reflexivity|]. split; [reflexivity|]. split.
  - intros [s [t H]]. discriminate H.
  - intros [v [s [t H]]]. discriminate H.
Qed.

(** ** Confirmed writes *)

Lemma clear_write_error_wait_total :
  forall (P : Platform) (cnt : nat) (s : pstate P),
    exists c s' t,
      clear_write_error_wait cnt s = Some (c, s', t) /\ writes t = [].
Proof.
  intros P cnt. induction cnt as [|cnt IH]; intros s.
  - exists false, s, []. split; reflexivity.
  - cbn [clear_write_error_wait]. unfold bind at 1. unfold readl.
    destruct (p_readl P DSR s) as [v s1].
    destruct (Z.land (u32 v) DSR_WEF =? 0).
    + eexists; eexists; eexists. split; reflexivity.
    + unfold bind, udelay.
      destruct (IH (p_udelay P 10 s1)) as [c [s' [t [Hrun Hw]]]].
      rewrite Hrun. eexists; eexists; eexists. split; [reflexivity|].
      cbn. exact Hw.
Qed.

Lemma clear_write_error_total :
  forall (P : Platform) (s : pstate P),
    exists s' t,
      clear_write_error s = Some (tt, s', t)
      /\ writes t = [(DSR_WEF, DSR)].
Proof.
  intros P s. unfold clear_write_error.
  unfold bind at 1. unfold dev_log at 1.
  unfold bind at 1. unfold writel.
  set (s1 := p_writel P (u32 DSR_WEF) DSR s).
  unfold bind.
  destruct (clear_write_error_wait_total P 1000 s1)
    as [c [s' [t [Hrun Hw]]]].
  rewrite Hrun.
  destruct c; unfold ret, dev_log; eexists; eexists;
    (split; [reflexivity|]); cbn [app writes]; rewrite ?writes_app, Hw;
    reflexivity.
Qed.

Lemma wcf_wef_bits : forall d,
  tst d (Z.lor DSR_WCF DSR_WEF) = Z.testbit d 8 || Z.testbit d 7.
Proof.
  intros d. rewrite tst_lor. unfold DSR_WCF, DSR_WEF.
  rewrite !tst_bit by lia. reflexivity.
Qed.

Lemma poll_idle :
  forall (P : Platform) (start : Z) (n : nat) (s s' : pstate P),
    idle_polls start n s s' ->
    forall fuel,
      di_write_wait_poll start (n + fuel) s =
        match di_write_wait_poll start fuel s' with
        | None => None
        | Some (e, s2, t2) => Some (e, s2, idle_trace start n s ++ t2)
        end.
Proof.
  intros P start n s s' H. induction H as [s|n s v s1 s2 s' Hr Hf Ht H IH];
    intros fuel.
  - cbn [Nat.add idle_trace app].
    destruct (di_write_wait_poll start fuel s) as [[[e s2] t2]|]; reflexivity.
  - cbn [Nat.add di_write_wait_poll idle_trace].
    unfold bind at 1. unfold readl. rewrite Hr, Hf.
    unfold bind at 1. unfold is_timeout. rewrite Ht.
    rewrite IH.
    destruct (di_write_wait_poll start fuel s') as [[[e s3] t3]|]; reflexivity.
Qed.

Lemma poll_exit :
  forall (P : Platform) (start : Z) (fuel : nat) (s s' : pstate P) e t,
    di_write_wait_poll start fuel s = Some (e, s', t) ->
    exists n s1 v s2,
      idle_polls start n s s1
      /\ p_readl P DSR s1 = (v, s2)
      /\ match e with
         | Break dsr =>
             dsr = u32 v
             /\ tst dsr (Z.lor DSR_WCF DSR_WEF) = true
             /\ s' = s2
             /\ t = idle_trace start n s ++ [EvReadl DSR dsr]
         | Return rc =>
             rc = - EIO
             /\ tst (u32 v) (Z.lor DSR_WCF DSR_WEF) = false
             /\ p_is_timeout P start MSECOND s2 = (true, s')
             /\ t = idle_trace start n s
                      ++ [EvReadl DSR (u32 v); EvIsTimeout start MSECOND true]
         end.
Proof.
  intros P start fuel. induction fuel as [|fuel IH]; intros s s' e t H.
  - discriminate H.
  - cbn [di_write_wait_poll] in H. unfold bind at 1 in H. unfold readl in H.
    destruct (p_readl P DSR s) as [v s1] eqn:Hr.
    destruct (tst (u32 v) (Z.lor DSR_WCF DSR_WEF)) eqn:Hf.
    + unfold ret in H. inversion H; subst.
      exists O, s, v, s'. split; [constructor|]. split; [exact Hr|].
      repeat split. exact Hf.
    + unfold bind at 1 in H. unfold is_timeout in H.
      destruct (p_is_timeout P start MSECOND s1) as [[|] s2] eqn:Ht.
      * unfold ret in H. inversion H; subst.
        exists O, s, v, s1. split; [constructor|]. split; [exact Hr|].
        repeat split; assumption.
      * destruct (di_write_wait_poll start fuel s2) as [[[e' s3] t3]|] eqn:Hp;
          [|discriminate].
        inversion H; subst. clear H.
        destruct (IH _ _ _ _ Hp) as [n [sa [va [sb [Hi [Hra Hc]]]]]].
        exists (S n), sa, va, sb.
        split; [econstructor; eassumption|]. split; [exact Hra|].
        cbn [idle_trace]. rewrite Hr, Ht.
        destruct e; destruct Hc as [H1 [H2 [H3 H4]]]; subst;
          repeat split; assumption.
Qed.

Lemma di_write_wait_run :
  forall (P : Platform) (fuel : nat) (val reg : Z) (s : pstate P),
    di_write_wait fuel val reg s =
      let sw := p_writel P (u32 val) reg s in
      let start := u64 (fst (p_get_time_ns P sw)) in
      match di_write_wait_poll start fuel (snd (p_get_time_ns P sw)) with
      | None => None
      | Some (e, s1, t1) =>
          match
            match e with
            | Return rc => ret rc
            | Break dsr =>
                if tst dsr DSR_WEF
                then clear_write_error ;;; ret (- EIO)
                else ret 0
            end s1
          with
          | None => None
          | Some (rc, s2, t2) =>
              Some (rc, s2,
                    EvWritel (u32 val) reg :: EvGetTimeNs start :: t1 ++ t2)
          end
      end.
Proof.
  intros P fuel val reg s. unfold di_write_wait.
  unfold bind at 1. unfold writel. unfold bind at 1. unfold get_time_ns.
  destruct (p_get_time_ns P (p_writel P (u32 val) reg s)) as [t0 s0].
  cbn [fst snd]. unfold bind at 1.
  destruct (di_write_wait_poll (u64 t0) fuel s0) as [[[e s1] t1]|];
    [|reflexivity].
  destruct e as [dsr|rc]; [destruct (tst dsr DSR_WEF)|].
  - destruct ((clear_write_error ;;; ret (- EIO)) s1) as [[[rc s2] t2]|];
      reflexivity.
  - reflexivity.
  - reflexivity.
Qed.

Lemma neg_eio_nonzero : - EIO <> 0.
Proof. discriminate. Qed.

(** C5. [di_write_wait] writes the register, takes the start of the
    1 ms window from the monotonic clock and polls the status register.
    (a) It returns 0 only when the snapshot that ended the poll loop,
    which is the last event of the run, had the write-complete flag
    (bit 8) set and the write-error flag (bit 7) clear.  (b) When the
    polls see neither flag and the timeout test, made after such a
    status read, reports the window elapsed, it returns [-EIO] without
    any further register access.  (c) When a poll sees the
    write-complete flag without the write-error flag it returns 0 at
    once: the timeout test is not made after that read, so the write
    succeeds however late the snapshot was taken. *)
Theorem di_write_wait_outcomes :
  forall (P : Platform) (val reg : Z) (s : pstate P),
    let sw := p_writel P (u32 val) reg s in
    let start := u64 (fst (p_get_time_ns P sw)) in
    let s0 := snd (p_get_time_ns P sw) in
    (forall fuel s' t,
       di_write_wait fuel val reg s = Some (0, s', t) ->
       exists n s1 v,
         idle_polls start n s0 s1
         /\ p_readl P DSR s1 = (v, s')
         /\ Z.testbit (u32 v) 8 = true
         /\ Z.testbit (u32 v) 7 = false
         /\ t = EvWritel (u32 val) reg :: EvGetTimeNs start
                  :: idle_trace start n s0 ++ [EvReadl DSR (u32 v)])
    /\ (forall n s1 v s2 s3 fuel,
          idle_polls start n s0 s1 ->
          p_readl P DSR s1 = (v, s2) ->
          Z.testbit (u32 v) 8 = false ->
          Z.testbit (u32 v) 7 = false ->
          p_is_timeout P start MSECOND s2 = (true, s3) ->
          (n < fuel)%nat ->
          di_write_wait fuel val reg s
            = Some (- EIO, s3,
                    EvWritel (u32 val) reg :: EvGetTimeNs start
                      :: idle_trace start n s0
                      ++ [EvReadl DSR (u32 v);
                          EvIsTimeout start MSECOND true]))
    /\ (forall n s1 v s2 fuel,
          idle_polls start n s0 s1 ->
          p_readl P DSR s1 = (v, s2) ->
          Z.testbit (u32 v) 8 = true ->
          Z.testbit (u32 v) 7 = false ->
          (n < fuel)%nat ->
          di_write_wait fuel val reg s
            = Some (0, s2,
                    EvWritel (u32 val) reg :: EvGetTimeNs start
                      :: idle_trace start n s0 ++ [EvReadl DSR (u32 v)])).
Proof.
  intros P val reg s. cbv zeta.
  pose proof (di_write_wait_run P) as Hrun. cbv zeta in Hrun.
  destruct (p_get_time_ns P (p_writel P (u32 val) reg s)) as [t0 s0] eqn:Hg.
  cbn [fst snd]. set (start := u64 t0).
  split; [|split].
  - intros fuel s' t H. rewrite Hrun, Hg in H. cbn [fst snd] in H.
    fold start in H.
    destruct (di_write_wait_poll start fuel s0) as [[[e s1] t1]|] eqn:Hp;
      [|discriminate].
    destruct (poll_exit P start fuel s0 s1 e t1 Hp)
      as [n [sa [v [sb [Hi [Hr Hc]]]]]].
    destruct e as [dsr|rc].
    + destruct Hc as [Hd [Hf [Hs Ht]]]. subst dsr s1 t1.
      destruct (tst (u32 v) DSR_WEF) eqn:Hwef.
      * unfold bind, ret in H.
        destruct (clear_write_error_total P sb) as [sc [tc [Hc _]]].
        rewrite Hc in H. inversion H.
      * unfold ret in H. inversion H; subst.
        exists n, sa, v. split; [exact Hi|]. split; [exact Hr|].
        unfold DSR_WEF in Hwef. rewrite tst_bit in Hwef by lia.
        rewrite wcf_wef_bits, Hwef, orb_false_r in Hf.
        split; [exact Hf|]. split; [exact Hwef|].
        rewrite app_nil_r. reflexivity.
    + destruct Hc as [Hrc _]. subst rc. unfold ret in H. inversion H.
  - intros n s1 v s2 s3 fuel Hi Hr H8 H7 Ht Hlt.
    rewrite Hrun, Hg. cbn [fst snd]. fold start.
    replace fuel with (n + S (fuel - n - 1))%nat by lia.
    rewrite (poll_idle P start n s0 s1 Hi).
    cbn [di_write_wait_poll]. unfold bind at 1. unfold readl. rewrite Hr.
    rewrite wcf_wef_bits, H8, H7. cbn [orb].
    unfold bind at 1. unfold is_timeout. rewrite Ht.
    unfold ret. rewrite app_nil_r. reflexivity.
  - intros n s1 v s2 fuel Hi Hr H8 H7 Hlt.
    rewrite Hrun, Hg. cbn [fst snd]. fold start.
    replace fuel with (n + S (fuel - n - 1))%nat by lia.
    rewrite (poll_idle P start n s0 s1 Hi).
    cbn [di_write_wait_poll]. unfold bind at 1. unfold readl. rewrite Hr.
    rewrite wcf_wef_bits, H8. cbn [orb].
    unfold ret. cbv beta iota.
    unfold DSR_WEF. rewrite tst_bit, H7 by lia.
    rewrite app_nil_r. reflexivity.
Qed.

Lemma di_write_wait_outcomes_witness :
  (exists n s1 v,
     idle_polls (P := Script.platform) 1000 n [0; 0; 256; 1] s1
     /\ Script.pop s1 = (v, [1])
     /\ Z.testbit (u32 v) 8 = true
     /\ Z.testbit (u32 v) 7 = false
     /\ [EvWritel 5 DTCMR; EvGetTimeNs 1000; EvReadl DSR 0;
         EvIsTimeout 1000 MSECOND false; EvReadl DSR 256]
        = EvWritel 5 DTCMR :: EvGetTimeNs 1000
            :: idle_trace (P := Script.platform) 1000 n [0; 0; 256; 1]
            ++ [EvReadl DSR (u32 v)])
  /\ di_write_wait (P := Script.platform) 3 5 DTCMR [1000; 0; 0; 0; 1]
       = Some (- EIO, [],
               [EvWritel 5 DTCMR; EvGetTimeNs 1000; EvReadl DSR 0;
                EvIsTimeout 1000 MSECOND false; EvReadl DSR 0;
                EvIsTimeout 1000 MSECOND true])
  /\ di_write_wait (P := Script.platform) 3 5 DTCMR [1000; 0; 0; 256; 1]
       = Some (0, [1],
               [EvWritel 5 DTCMR; EvGetTimeNs 1000; EvReadl DSR 0;
                EvIsTimeout 1000 MSECOND false; EvReadl DSR 256]).
Proof.
  assert (Hidle : forall rest,
            idle_polls (P := Script.platform) 1000 1 (0 :: 0 :: rest) rest).
  { intros rest.
    apply (idle_again (P := Script.platform) 1000 0 (0 :: 0 :: rest) 0
             (0 :: rest) rest);
      [reflexivity | reflexivity | reflexivity | apply idle_done]. }
  split; [|split].
  - apply (proj1 (di_write_wait_outcomes Script.platform 5 DTCMR
                    [1000; 0; 0; 256; 1]) 3%nat [1]).
    reflexivity.
  - apply (proj1 (proj2 (di_write_wait_outcomes Script.platform 5 DTCMR
                           [1000; 0; 0; 0; 1]))
             1%nat [0; 1] 0 [1] [] 3%nat);
      [apply Hidle | reflexivity | reflexivity | reflexivity | reflexivity
      | repeat constructor].
  - apply (proj2 (proj2 (di_write_wait_outcomes Script.platform 5 DTCMR
                           [1000; 0; 0; 256; 1]))
             1%nat [256; 1] 256 [1] 3%nat);
      [apply Hidle | reflexivity | reflexivity | reflexivity
      | repeat constructor].
Defined.

(** ** Time accessor *)

Lemma tst_TCE : forall x, tst x DCR_TCE = Z.testbit x 3.
Proof. intros x. unfold DCR_TCE. apply tst_bit. lia. Qed.

Lemma tst_TCHL : forall x, tst x DCR_TCHL = Z.testbit x 18.
Proof. intros x. unfold DCR_TCHL. apply tst_bit. lia. Qed.

Lemma tst_TCSL : forall x, tst x DCR_TCSL = Z.testbit x 17.
Proof. intros x. unfold DCR_TCSL. apply tst_bit. lia. Qed.

Lemma tst_TDCHL : forall x, tst x DCR_TDCHL = Z.testbit x 30.
Proof. intros x. unfold DCR_TDCHL. apply tst_bit. lia. Qed.

Lemma tst_TDCSL : forall x, tst x DCR_TDCSL = Z.testbit x 29.
Proof. intros x. unfold DCR_TDCSL. apply tst_bit. lia. Qed.

Lemma tst_SVF : forall x, tst x DSR_SVF = Z.testbit x 0.
Proof. intros x. unfold DSR_SVF. apply tst_bit. lia. Qed.

Lemma tst_WEF : forall x, tst x DSR_WEF = Z.testbit x 7.
Proof. intros x. unfold DSR_WEF. apply tst_bit. lia. Qed.

Create Rewrite HintDb tst_bits.

#[local] Hint Rewrite tst_TCE tst_TCHL tst_TCSL tst_TDCHL tst_TDCSL
  tst_SVF tst_WEF : tst_bits.

Lemma writes_idle_trace :
  forall (P : Platform) (start : Z) (n : nat) (s : pstate P),
    writes (idle_trace start n s) = [].
Proof.
  intros P start n. induction n as [|n IH]; intros s.
  - reflexivity.
  - cbn [idle_trace]. destruct (p_readl P DSR s) as [v s1].
    destruct (p_is_timeout P start MSECOND s1) as [b s2].
    cbn [writes]. apply IH.
Qed.

(** A confirmed write performs the write it was asked for; the only
    other write it can make is the acknowledge of a write error, and
    then it fails.  Its result is 0 or [-EIO]. *)
Lemma di_write_wait_writes :
  forall (P : Platform) (fuel : nat) (val reg : Z) (s s' : pstate P) rc t,
    di_write_wait fuel val reg s = Some (rc, s', t) ->
    exists ack,
      writes t = (u32 val, reg) :: ack
      /\ (ack = [] \/ ack = [(DSR_WEF, DSR)])
      /\ (rc = 0 \/ rc = - EIO)
      /\ (rc = 0 -> ack = []).
Proof.
  intros P fuel val reg s s' rc t H.
  rewrite di_write_wait_run in H. cbv zeta in H.
  destruct (di_write_wait_poll _ fuel _) as [[[e s1] t1]|] eqn:Hp;
    [|discriminate].
  destruct (poll_exit P _ fuel _ s1 e t1 Hp)
    as [n [sa [v [sb [Hi [Hr Hc]]]]]].
  destruct e as [dsr|r].
  - destruct Hc as [Hd [Hf [Hs Ht]]]. subst s1 t1.
    destruct (tst dsr DSR_WEF).
    + unfold bind, ret in H.
      destruct (clear_write_error_total P sb) as [sc [tc [Hc Hw]]].
      rewrite Hc in H. inversion H; subst. clear H.
      exists [(DSR_WEF, DSR)]. cbn [writes].
      rewrite !writes_app, writes_idle_trace, Hw.
      repeat split; auto; intros H0; discriminate H0.
    + unfold ret in H. inversion H; subst. clear H.
      exists []. cbn [writes].
      rewrite !writes_app, writes_idle_trace.
      repeat split; auto.
  - destruct Hc as [Hrc [Hf [Ht Htr]]]. subst r t1.
    unfold ret in H. inversion H; subst. clear H.
    exists []. cbn [writes].
    rewrite !writes_app, writes_idle_trace.
    repeat split; auto; intros H0; discriminate H0.
Qed.

(** [dryice_rtc_set_time] after a successful calendar conversion: two
    register reads, then either the refusal or the three writes. *)
Lemma set_time_check :
  forall (P : Platform) (fuel : nat) (tm : rtc_time P) (secs : Z)
         (s : pstate P),
    p_rtc_tm_to_time P tm = (0, secs) ->
    dryice_rtc_set_time fuel tm s =
      let dcr := u32 (fst (p_readl P DCR s)) in
      let s1 := snd (p_readl P DCR s) in
      let dsr := u32 (fst (p_readl P DSR s1)) in
      let s2 := snd (p_readl P DSR s1) in
      if (negb (Z.testbit dcr 3) || Z.testbit dsr 0)
         && (Z.testbit dcr 18 || Z.testbit dcr 17 || Z.testbit dsr 0)
      then Some (- EPERM, s2,
                 [EvReadl DCR dcr; EvReadl DSR dsr;
                  EvLog LEmerg EMERG_FMT
                    [ArgS (if Z.testbit dcr 18 then "battery" else "main")]])
      else
        match set_time_writes fuel secs s2 with
        | None => None
        | Some (rc, s', t) =>
            Some (rc, s', EvReadl DCR dcr :: EvReadl DSR dsr :: t)
        end.
Proof.
  intros P fuel tm secs s Hconv. unfold dryice_rtc_set_time.
  rewrite Hconv. cbn [Z.eqb negb]. cbv zeta.
  unfold bind at 1. unfold readl at 1.
  destruct (p_readl P DCR s) as [v1 s1]. cbn [fst snd].
  unfold bind at 1. unfold readl at 1.
  destruct (p_readl P DSR s1) as [v2 s2]. cbn [fst snd].
  autorewrite with tst_bits.
  fold (set_time_writes (P := P) fuel secs).
  destruct (Z.testbit (u32 v1) 3), (Z.testbit (u32 v1) 18),
    (Z.testbit (u32 v1) 17), (Z.testbit (u32 v2) 0);
    cbn [negb orb andb]; unfold_prims;
    try reflexivity;
    destruct (set_time_writes fuel secs s2) as [[[rc s'] t]|]; reflexivity.
Qed.

Lemma set_time_writes_run :
  forall (P : Platform) (fuel : nat) (secs : Z) (s2 : pstate P),
    (forall r1 s3 t1,
       di_write_wait fuel 0 DTCLR s2 = Some (r1, s3, t1) ->
       r1 <> 0 ->
       set_time_writes fuel secs s2 = Some (r1, s3, t1))
    /\ (forall s3 t1 r2 s4 t2,
          di_write_wait fuel 0 DTCLR s2 = Some (0, s3, t1) ->
          di_write_wait fuel secs DTCMR s3 = Some (r2, s4, t2) ->
          r2 <> 0 ->
          set_time_writes fuel secs s2 = Some (r2, s4, t1 ++ t2))
    /\ (forall s3 t1 s4 t2 r3 s6 t3,
          di_write_wait fuel 0 DTCLR s2 = Some (0, s3, t1) ->
          di_write_wait fuel secs DTCMR s3 = Some (0, s4, t2) ->
          di_write_wait fuel
            (Z.lor (u32 (fst (p_readl P DCR s4))) DCR_TCE) DCR
            (snd (p_readl P DCR s4)) = Some (r3, s6, t3) ->
          set_time_writes fuel secs s2
            = Some (r3, s6,
                    t1 ++ t2
                      ++ EvReadl DCR (u32 (fst (p_readl P DCR s4))) :: t3)).
Proof.
  intros P fuel secs s2. unfold set_time_writes. split; [|split].
  - intros r1 s3 t1 H1 Hne. rewrite (bind_run _ _ _ _ _ _ _ _ _ H1).
    apply Z.eqb_neq in Hne. rewrite Hne. cbn [negb]. unfold ret.
    rewrite app_nil_r. reflexivity.
  - intros s3 t1 r2 s4 t2 H1 H2 Hne. rewrite (bind_run _ _ _ _ _ _ _ _ _ H1).
    cbn [Z.eqb negb]. rewrite (bind_run _ _ _ _ _ _ _ _ _ H2).
    apply Z.eqb_neq in Hne. rewrite Hne. cbn [negb]. unfold ret.
    rewrite app_nil_r. reflexivity.
  - intros s3 t1 s4 t2 r3 s6 t3 H1 H2 H3.
    rewrite (bind_run _ _ _ _ _ _ _ _ _ H1).
    cbn [Z.eqb negb]. rewrite (bind_run _ _ _ _ _ _ _ _ _ H2).
    cbn [Z.eqb negb]. unfold bind at 1. unfold readl.
    destruct (p_readl P DCR s4) as [v s5]. cbn [fst snd] in H3.
    rewrite H3. reflexivity.
Qed.

Lemma set_time_writes_some :
  forall (P : Platform) (fuel : nat) (secs : Z) (s2 s' : pstate P) rc t,
    set_time_writes fuel secs s2 = Some (rc, s', t) ->
    (rc = 0 \/ rc = - EIO) /\ exists t', writes t = (0, DTCLR) :: t'.
Proof.
  intros P fuel secs s2 s' rc t H. unfold set_time_writes in H.
  apply bind_some in H. destruct H as [r1 [s3 [t1 [t1' [H1 [H Ht]]]]]].
  destruct (di_write_wait_writes _ _ _ _ _ _ _ _ H1)
    as [ack1 [Hw1 [_ [Hr1 _]]]].
  assert (Hhead : exists t', writes t = (0, DTCLR) :: t').
  { subst t. rewrite writes_app, Hw1. eexists. reflexivity. }
  split; [|exact Hhead].
  destruct (Z.eqb_spec r1 0) as [->|Hne1]; cbn [negb] in H.
  - apply bind_some in H. destruct H as [r2 [s4 [t2 [t2' [H2 [H _]]]]]].
    destruct (di_write_wait_writes _ _ _ _ _ _ _ _ H2)
      as [ack2 [_ [_ [Hr2 _]]]].
    destruct (Z.eqb_spec r2 0) as [->|Hne2]; cbn [negb] in H.
    + apply bind_some in H. destruct H as [d [s5 [t3 [t3' [_ [H3 _]]]]]].
      destruct (di_write_wait_writes _ _ _ _ _ _ _ _ H3)
        as [ack3 [_ [_ [Hr3 _]]]].
      exact Hr3.
    + unfold ret in H. inversion H; subst. exact Hr2.
  - unfold ret in H. inversion H; subst. exact Hr1.
Qed.

Lemma u32_idem : forall x, u32 (u32 x) = u32 x.
Proof. intros x. unfold u32. apply Z.mod_mod. lia. Qed.

Lemma u32_lor_TCE : forall x,
  u32 (Z.lor (u32 x) DCR_TCE) = Z.lor (u32 x) DCR_TCE.
Proof.
  intros x. unfold u32. rewrite <- !Z.land_ones by lia.
  rewrite Z.land_lor_distr_l, <- Z.land_assoc, Z.land_diag.
  reflexivity.
Qed.

Lemma lor_TCE_bit : forall x, Z.testbit (Z.lor x DCR_TCE) 3 = true.
Proof. intros x. rewrite Z.lor_spec. apply orb_true_r. Qed.

(** C1, as the code has it.  After a successful calendar conversion
    [dryice_rtc_set_time] reads the control and the status register.  It
    returns [-EPERM], without writing any register, whenever the
    security-violation flag (status bit 0) is set, and whenever the
    time-counter-enable bit (control bit 3) is clear while the time
    hard lock (bit 18) or the time soft lock (bit 17) is set.  With the
    enable bit set and the security-violation flag clear it is never
    [-EPERM], whatever the lock bits: the run goes on to the confirmed
    writes, starting with the fractional register, and its result is
    the result of the first confirmed write that fails, which is
    [-EIO], or else the result of the third one, which is 0 or
    [-EIO]. *)
Theorem dryice_rtc_set_time_denied :
  forall (P : Platform) (fuel : nat) (tm : rtc_time P) (secs : Z)
         (s : pstate P),
    p_rtc_tm_to_time P tm = (0, secs) ->
    let dcr := u32 (fst (p_readl P DCR s)) in
    let s1 := snd (p_readl P DCR s) in
    let dsr := u32 (fst (p_readl P DSR s1)) in
    let s2 := snd (p_readl P DSR s1) in
    let pre := [EvReadl DCR dcr; EvReadl DSR dsr] in
    (Z.testbit dsr 0 = true
     \/ (Z.testbit dcr 3 = false
         /\ (Z.testbit dcr 18 = true \/ Z.testbit dcr 17 = true)) ->
     exists t,
       dryice_rtc_set_time fuel tm s = Some (- EPERM, s2, t)
       /\ writes t = [])
    /\ (Z.testbit dcr 3 = true ->
        Z.testbit dsr 0 = false ->
        (forall r1 s3 t1,
           di_write_wait fuel 0 DTCLR s2 = Some (r1, s3, t1) ->
           r1 <> 0 ->
           dryice_rtc_set_time fuel tm s = Some (r1, s3, pre ++ t1)
           /\ r1 = - EIO
           /\ exists t', writes (pre ++ t1) = (0, DTCLR) :: t')
        /\ (forall s3 t1 r2 s4 t2,
              di_write_wait fuel 0 DTCLR s2 = Some (0, s3, t1) ->
              di_write_wait fuel secs DTCMR s3 = Some (r2, s4, t2) ->
              r2 <> 0 ->
              dryice_rtc_set_time fuel tm s
                = Some (r2, s4, pre ++ t1 ++ t2)
              /\ r2 = - EIO
              /\ exists t', writes (pre ++ t1 ++ t2) = (0, DTCLR) :: t')
        /\ (forall s3 t1 s4 t2 r3 s6 t3,
              di_write_wait fuel 0 DTCLR s2 = Some (0, s3, t1) ->
              di_write_wait fuel secs DTCMR s3 = Some (0, s4, t2) ->
              let dcr' := u32 (fst (p_readl P DCR s4)) in
              di_write_wait fuel (Z.lor dcr' DCR_TCE) DCR
                (snd (p_readl P DCR s4)) = Some (r3, s6, t3) ->
              dryice_rtc_set_time fuel tm s
                = Some (r3, s6, pre ++ t1 ++ t2 ++ EvReadl DCR dcr' :: t3)
              /\ (r3 = 0 \/ r3 = - EIO)
              /\ exists t',
                   writes (pre ++ t1 ++ t2 ++ EvReadl DCR dcr' :: t3)
                     = (0, DTCLR) :: t')).
Proof.
  intros P fuel tm secs s Hconv. cbv zeta.
  rewrite (set_time_check P fuel tm secs s Hconv). cbv zeta.
  set (dcr := u32 (fst (p_readl P DCR s))).
  set (s1 := snd (p_readl P DCR s)).
  set (dsr := u32 (fst (p_readl P DSR s1))).
  set (s2 := snd (p_readl P DSR s1)).
  split.
  - intros H. eexists.
    assert (Hc : (negb (Z.testbit dcr 3) || Z.testbit dsr 0)
                 && (Z.testbit dcr 18 || Z.testbit dcr 17
                     || Z.testbit dsr 0) = true).
    { destruct H as [H|[H3 [H|H]]]; rewrite ?H3, H;
        destruct (Z.testbit dcr 3), (Z.testbit dcr 18),
          (Z.testbit dcr 17), (Z.testbit dsr 0); reflexivity. }
    rewrite Hc. split; reflexivity.
  - intros H3 H0. rewrite H3, H0. cbn [negb orb andb].
    destruct (set_time_writes_run P fuel secs s2) as [RA [RB RC]].
    assert (Hhead : forall t1 t (s3 : pstate P) r1,
              di_write_wait fuel 0 DTCLR s2 = Some (r1, s3, t1) ->
              exists t',
                writes ([EvReadl DCR dcr; EvReadl DSR dsr] ++ t1 ++ t)
                  = (0, DTCLR) :: t').
    { intros t1 t s3 r1 H1.
      destruct (di_write_wait_writes _ _ _ _ _ _ _ _ H1)
        as [ack [Hw _]].
      cbn [app writes]. rewrite writes_app, Hw. eexists. reflexivity. }
    split; [|split].
    + intros r1 s3 t1 H1 Hne. rewrite (RA _ _ _ H1 Hne).
      split; [reflexivity|]. split.
      * destruct (di_write_wait_writes _ _ _ _ _ _ _ _ H1)
          as [_ [_ [_ [[Hr|Hr] _]]]]; [contradiction|exact Hr].
      * destruct (Hhead t1 [] s3 r1 H1) as [t' Ht'].
        rewrite app_nil_r in Ht'. exists t'. exact Ht'.
    + intros s3 t1 r2 s4 t2 H1 H2 Hne. rewrite (RB _ _ _ _ _ H1 H2 Hne).
      split; [reflexivity|]. split.
      * destruct (di_write_wait_writes _ _ _ _ _ _ _ _ H2)
          as [_ [_ [_ [[Hr|Hr] _]]]]; [contradiction|exact Hr].
      * apply (Hhead t1 t2 s3 0 H1).
    + intros s3 t1 s4 t2 r3 s6 t3 H1 H2 H3'.
      rewrite (RC _ _ _ _ _ _ _ H1 H2 H3').
      split; [reflexivity|]. split.
      * destruct (di_write_wait_writes _ _ _ _ _ _ _ _ H3')
          as [_ [_ [_ [Hr _]]]]. exact Hr.
      * apply (Hhead t1 _ s3 0 H1).
Qed.

Lemma dryice_rtc_set_time_denied_witness :
  (exists t,
     dryice_rtc_set_time (P := Script.platform) 1 77 [262152; 1]
       = Some (- EPERM, [], t) /\ writes t = [])
  /\ (dryice_rtc_set_time (P := Script.platform) 1 77
        [262152; 0; 0; 256; 0; 256; 262152; 0; 256]
      = Some (0, [],
              [EvReadl DCR 262152; EvReadl DSR 0;
               EvWritel 0 DTCLR; EvGetTimeNs 0; EvReadl DSR 256;
               EvWritel 77 DTCMR; EvGetTimeNs 0; EvReadl DSR 256;
               EvReadl DCR 262152;
               EvWritel 262152 DCR; EvGetTimeNs 0; EvReadl DSR 256])
      /\ (0 = 0 \/ 0 = - EIO)
      /\ exists t',
           writes [EvReadl DCR 262152; EvReadl DSR 0;
                   EvWritel 0 DTCLR; EvGetTimeNs 0; EvReadl DSR 256;
                   EvWritel 77 DTCMR; EvGetTimeNs 0; EvReadl DSR 256;
                   EvReadl DCR 262152;
                   EvWritel 262152 DCR; EvGetTimeNs 0; EvReadl DSR 256]
           = (0, DTCLR) :: t').
Proof.
  split.
  - apply (proj1 (dryice_rtc_set_time_denied Script.platform 1 77 77
                    [262152; 1] eq_refl)).
    left. reflexivity.
  - apply (proj2 (proj2 (proj2 (dryice_rtc_set_time_denied Script.platform
                                  1 77 77
                                  [262152; 0; 0; 256; 0; 256; 262152; 0; 256]
                                  eq_refl)
                           eq_refl eq_refl))
             [0; 256; 262152; 0; 256]
             [EvWritel 0 DTCLR; EvGetTimeNs 0; EvReadl DSR 256]
             [262152; 0; 256]
             [EvWritel 77 DTCMR; EvGetTimeNs 0; EvReadl DSR 256]
             0 []
             [EvWritel 262152 DCR; EvGetTimeNs 0; EvReadl DSR 256]).
    + reflexivity.
    + reflexivity.
    + reflexivity.
Defined.

(** C1 as stated fails: with the time-counter-enable bit set and the
    security-violation flag clear, a set time hard lock (control
    register [TCE | TCHL]) or a set time soft lock ([TCE | TCSL]) does
    not reject the request; all three writes are made and the result
    is 0. *)
Lemma dryice_rtc_set_time_locked_but_enabled :
  Z.testbit (Z.lor DCR_TCE DCR_TCHL) 18 = true
  /\ dryice_rtc_set_time (P := Script.platform) 1 77
       [Z.lor DCR_TCE DCR_TCHL; 0; 0; 256; 0; 256;
        Z.lor DCR_TCE DCR_TCHL; 0; 256]
     = Some (0, [],
             [EvReadl DCR 262152; EvReadl DSR 0;
              EvWritel 0 DTCLR; EvGetTimeNs 0; EvReadl DSR 256;
              EvWritel 77 DTCMR; EvGetTimeNs 0; EvReadl DSR 256;
              EvReadl DCR 262152;
              EvWritel 262152 DCR; EvGetTimeNs 0; EvReadl DSR 256])
  /\ Z.testbit (Z.lor DCR_TCE DCR_TCSL) 17 = true
  /\ dryice_rtc_set_time (P := Script.platform) 1 77
       [Z.lor DCR_TCE DCR_TCSL; 0; 0; 256; 0; 256;
        Z.lor DCR_TCE DCR_TCSL; 0; 256]
     = Some (0, [],
             [EvReadl DCR 131080; EvReadl DSR 0;
              EvWritel 0 DTCLR; EvGetTimeNs 0; EvReadl DSR 256;
              EvWritel 77 DTCMR; EvGetTimeNs 0; EvReadl DSR 256;
              EvReadl DCR 131080;
              EvWritel 131080 DCR; EvGetTimeNs 0; EvReadl DSR 256])
  /\ 0 <> - EPERM.
Proof.
  split; [reflexivity|]. split; [vm_compute; reflexivity|].
  split; [reflexivity|]. split; [vm_compute; reflexivity|].
  discriminate.
Qed.

(** C7. When the calendar conversion succeeded and the permission
    checks pass, [dryice_rtc_set_time] makes its confirmed writes in
    this order: 0 to the time-counter LSB register, the seconds to the
    MSB register, then the control register as just read with the
    time-counter-enable bit set.  When a confirmed write fails, its
    failure is the result, the run ends in the state and with the trace
    of that failed write (the only write after it is the error
    acknowledge the failed write itself may make), and the writes
    already made stay as they are. *)
Theorem dryice_rtc_set_time_sequence :
  forall (P : Platform) (fuel : nat) (tm : rtc_time P) (secs : Z)
         (s : pstate P),
    p_rtc_tm_to_time P tm = (0, secs) ->
    let dcr := u32 (fst (p_readl P DCR s)) in
    let s1 := snd (p_readl P DCR s) in
    let dsr := u32 (fst (p_readl P DSR s1)) in
    let s2 := snd (p_readl P DSR s1) in
    let pre := [EvReadl DCR dcr; EvReadl DSR dsr] in
    Z.testbit dsr 0 = false ->
    (Z.testbit dcr 3 = true
     \/ (Z.testbit dcr 18 = false /\ Z.testbit dcr 17 = false)) ->
    (forall r1 s3 t1,
       di_write_wait fuel 0 DTCLR s2 = Some (r1, s3, t1) ->
       r1 <> 0 ->
       dryice_rtc_set_time fuel tm s = Some (r1, s3, pre ++ t1)
       /\ exists ack,
            writes (pre ++ t1) = (0, DTCLR) :: ack
            /\ (ack = [] \/ ack = [(DSR_WEF, DSR)]))
    /\ (forall s3 t1 r2 s4 t2,
          di_write_wait fuel 0 DTCLR s2 = Some (0, s3, t1) ->
          di_write_wait fuel secs DTCMR s3 = Some (r2, s4, t2) ->
          r2 <> 0 ->
          dryice_rtc_set_time fuel tm s = Some (r2, s4, pre ++ t1 ++ t2)
          /\ exists ack,
               writes (pre ++ t1 ++ t2)
                 = (0, DTCLR) :: (u32 secs, DTCMR) :: ack
               /\ (ack = [] \/ ack = [(DSR_WEF, DSR)]))
    /\ (forall s3 t1 s4 t2 r3 s6 t3,
          di_write_wait fuel 0 DTCLR s2 = Some (0, s3, t1) ->
          di_write_wait fuel secs DTCMR s3 = Some (0, s4, t2) ->
          let dcr' := u32 (fst (p_readl P DCR s4)) in
          di_write_wait fuel (Z.lor dcr' DCR_TCE) DCR
            (snd (p_readl P DCR s4)) = Some (r3, s6, t3) ->
          dryice_rtc_set_time fuel tm s
            = Some (r3, s6, pre ++ t1 ++ t2 ++ EvReadl DCR dcr' :: t3)
          /\ Z.testbit (Z.lor dcr' DCR_TCE) 3 = true
          /\ exists ack,
               writes (pre ++ t1 ++ t2 ++ EvReadl DCR dcr' :: t3)
                 = (0, DTCLR) :: (u32 secs, DTCMR)
                     :: (Z.lor dcr' DCR_TCE, DCR) :: ack
               /\ (ack = [] \/ ack = [(DSR_WEF, DSR)])
               /\ (r3 = 0 -> ack = [])).
Proof.
  intros P fuel tm secs s Hconv. cbv zeta. intros H0 Hperm.
  rewrite (set_time_check P fuel tm secs s Hconv). cbv zeta.
  set (dcr := u32 (fst (p_readl P DCR s))) in *.
  set (s1 := snd (p_readl P DCR s)) in *.
  set (dsr := u32 (fst (p_readl P DSR s1))) in *.
  set (s2 := snd (p_readl P DSR s1)) in *.
  assert (Hc : (negb (Z.testbit dcr 3) || Z.testbit dsr 0)
               && (Z.testbit dcr 18 || Z.testbit dcr 17
                   || Z.testbit dsr 0) = false).
  { rewrite H0. destruct Hperm as [H3|[H18 H17]].
    - rewrite H3. reflexivity.
    - rewrite H18, H17. apply andb_false_r. }
  rewrite Hc.
  destruct (set_time_writes_run P fuel secs s2) as [RA [RB RC]].
  split; [|split].
  - intros r1 s3 t1 H1 Hne. rewrite (RA _ _ _ H1 Hne).
    split; [reflexivity|].
    destruct (di_write_wait_writes _ _ _ _ _ _ _ _ H1)
      as [ack [Hw [Hack _]]].
    exists ack. cbn [app writes]. rewrite Hw. split; [reflexivity|exact Hack].
  - intros s3 t1 r2 s4 t2 H1 H2 Hne. rewrite (RB _ _ _ _ _ H1 H2 Hne).
    split; [reflexivity|].
    destruct (di_write_wait_writes _ _ _ _ _ _ _ _ H1)
      as [ack1 [Hw1 [_ [_ Hz1]]]].
    destruct (di_write_wait_writes _ _ _ _ _ _ _ _ H2)
      as [ack [Hw2 [Hack _]]].
    exists ack. cbn [app writes]. rewrite writes_app, Hw1, Hw2.
    rewrite (Hz1 eq_refl). split; [reflexivity|exact Hack].
  - intros s3 t1 s4 t2 r3 s6 t3 H1 H2 H3. rewrite (RC _ _ _ _ _ _ _ H1 H2 H3).
    split; [reflexivity|]. split; [apply lor_TCE_bit|].
    destruct (di_write_wait_writes _ _ _ _ _ _ _ _ H1)
      as [ack1 [Hw1 [_ [_ Hz1]]]].
    destruct (di_write_wait_writes _ _ _ _ _ _ _ _ H2)
      as [ack2 [Hw2 [_ [_ Hz2]]]].
    destruct (di_write_wait_writes _ _ _ _ _ _ _ _ H3)
      as [ack [Hw3 [Hack [_ Hz3]]]].
    exists ack. cbn [app writes].
    rewrite !writes_app. cbn [writes].
    rewrite Hw1, Hw2, Hw3, (Hz1 eq_refl), (Hz2 eq_refl), u32_lor_TCE.
    split; [reflexivity|]. split; [exact Hack|exact Hz3].
Qed.

Lemma dryice_rtc_set_time_sequence_witness :
  dryice_rtc_set_time (P := Script.platform) 2 77 [8; 0; 0; 0; 1]
    = Some (- EIO, [],
            [EvReadl DCR 8; EvReadl DSR 0; EvWritel 0 DTCLR; EvGetTimeNs 0;
             EvReadl DSR 0; EvIsTimeout 0 MSECOND true])
  /\ dryice_rtc_set_time (P := Script.platform) 2 77
       [8; 0; 0; 256; 0; 0; 1]
     = Some (- EIO, [],
             [EvReadl DCR 8; EvReadl DSR 0; EvWritel 0 DTCLR; EvGetTimeNs 0;
              EvReadl DSR 256; EvWritel 77 DTCMR; EvGetTimeNs 0;
              EvReadl DSR 0; EvIsTimeout 0 MSECOND true])
  /\ dryice_rtc_set_time (P := Script.platform) 2 77
       [0; 0; 0; 256; 0; 256; 4; 0; 256]
     = Some (0, [],
             [EvReadl DCR 0; EvReadl DSR 0; EvWritel 0 DTCLR; EvGetTimeNs 0;
              EvReadl DSR 256; EvWritel 77 DTCMR; EvGetTimeNs 0;
              EvReadl DSR 256; EvReadl DCR 4; EvWritel 12 DCR;
              EvGetTimeNs 0; EvReadl DSR 256]).
Proof.
  split; [|split].
  - apply (proj1 (dryice_rtc_set_time_sequence Script.platform 2 77 77
                    [8; 0; 0; 0; 1] eq_refl eq_refl (or_introl eq_refl))
             (- EIO) []).
    + reflexivity.
    + discriminate.
  - apply (proj1 (proj2 (dryice_rtc_set_time_sequence Script.platform 2 77 77
                    [8; 0; 0; 256; 0; 0; 1] eq_refl eq_refl
                    (or_introl eq_refl)))
             [0; 0; 1]
             [EvWritel 0 DTCLR; EvGetTimeNs 0; EvReadl DSR 256]
             (- EIO) []).
    + reflexivity.
    + reflexivity.
    + discriminate.
  - apply (proj2 (proj2 (dryice_rtc_set_time_sequence Script.platform 2 77 77
                    [0; 0; 0; 256; 0; 256; 4; 0; 256] eq_refl eq_refl
                    (or_intror (conj eq_refl eq_refl))))
             [0; 256; 4; 0; 256]
             [EvWritel 0 DTCLR; EvGetTimeNs 0; EvReadl DSR 256]
             [4; 0; 256]
             [EvWritel 77 DTCMR; EvGetTimeNs 0; EvReadl DSR 256]
             0 []
             [EvWritel 12 DCR; EvGetTimeNs 0; EvReadl DSR 256]).
    + reflexivity.
    + reflexivity.
    + reflexivity.
Defined.

(** ** Invalid state *)

(** The run of [di_handle_invalid_state]: its first accesses, the value
    [dcr] it reads back from the control register, and the two ways it
    can end. *)
Lemma di_handle_invalid_state_cases :
  forall (P : Platform) (dsr : Z) (s : pstate P),
    let sa := p_udelay P 130 (p_writel P 0 DTCR s) in
    let sb := p_udelay P 130 (p_writel P DCR_TDCSL DCR sa) in
    let sec := u32 (fst (p_readl P DTCMR sb)) in
    let sc := snd (p_readl P DTCMR sb) in
    let dcr := u32 (fst (p_readl P DCR sc)) in
    let sd := snd (p_readl P DCR sc) in
    exists rc s' t1 t2,
      di_handle_invalid_state dsr s
        = Some (rc, s',
                EvWritel 0 DTCR :: EvUdelay 130
                  :: EvWritel DCR_TDCSL DCR :: EvUdelay 130
                  :: EvReadl DTCMR sec :: t1 ++ EvReadl DCR dcr :: t2)
      /\ writes t1 = []
      /\ ((Z.testbit dcr 3 = false
           /\ (Z.testbit dcr 18 = true \/ Z.testbit dcr 17 = true)
           /\ rc = - ENODEV /\ s' = sd /\ writes t2 = []
           /\ unrecoverable_kind rc t2
                = Some (if Z.testbit dcr 18
                        then UntilBatteryCycle else UntilReset))
          \/ ((Z.testbit dcr 3 = true
               \/ (Z.testbit dcr 18 = false /\ Z.testbit dcr 17 = false))
              /\ rc = 0
              /\ exists caf : bool,
                   writes t2 =
                     (DSR_NVF, DSR) :: (DSR_TCO, DSR)
                       :: (Z.lor dcr DCR_TCE, DCR) :: (sec, DTCMR)
                       :: (DCAMR_UNSET, DCAMR) :: (0, DCALR)
                       :: (if caf then [(DSR_CAF, DSR)] else []))).
Proof.
  intros P dsr s. cbv zeta. unfold di_handle_invalid_state.
  unfold di_write_busy_wait, di_what_is_to_be_done.
  unfold bind at 1. unfold bind at 1. unfold writel at 1. unfold udelay at 1.
  unfold bind at 1. unfold bind at 1. unfold writel at 1. unfold udelay at 1.
  change (u32 0) with 0. change (u32 DCR_TDCSL) with DCR_TDCSL.
  set (sb := p_udelay P 130 (p_writel P DCR_TDCSL DCR
                (p_udelay P 130 (p_writel P 0 DTCR s)))).
  unfold bind at 1. unfold readl at 1.
  destruct (p_readl P DTCMR sb) as [v1 sc]. cbn [fst snd].
  set (sec := u32 v1).
  unfold bind at 1.
  set (warn := if negb (sec =? 0) then _ else _).
  assert (Hwarn : exists t1, warn sc = Some (tt, sc, t1) /\ writes t1 = []).
  { subst warn. destruct (negb (sec =? 0)); eexists; split; reflexivity. }
  destruct Hwarn as [t1 [Hwarn Hw1]]. rewrite Hwarn.
  unfold bind at 1. unfold readl at 1.
  destruct (p_readl P DCR sc) as [v2 sd]. cbn [fst snd].
  set (dcr := u32 v2).
  autorewrite with tst_bits.
  destruct (Z.testbit dcr 3) eqn:H3; cbn [negb];
    [|destruct (Z.testbit dcr 18) eqn:H18;
      [|destruct (Z.testbit dcr 17) eqn:H17]].
  2: {
    unfold_prims. exists (- ENODEV), sd, t1. eexists.
    split; [cbn [app]; reflexivity|].
    split; [exact Hw1|]. left. repeat split; auto. }
  2: {
    unfold_prims. exists (- ENODEV), sd, t1. eexists.
    split; [cbn [app]; reflexivity|].
    split; [exact Hw1|]. left. repeat split; auto. }
  all: unfold bind at 1; unfold ret at 1;
    unfold bind at 1; unfold bind at 1; unfold writel at 1; unfold udelay at 1;
    unfold bind at 1; unfold bind at 1; unfold writel at 1; unfold udelay at 1;
    unfold bind at 1; unfold bind at 1; unfold writel at 1; unfold udelay at 1;
    unfold bind at 1; unfold bind at 1; unfold writel at 1; unfold udelay at 1;
    unfold bind at 1; unfold readl at 1;
    match goal with
    | |- context [p_readl ?Q DSR ?st] =>
        destruct (p_readl Q DSR st) as [v3 sf]
    end;
    destruct (di_handle_valid_state_total P (u32 v3) sf) as [s' [tv [Hv Hwv]]];
    rewrite Hv;
    exists 0, s', t1; eexists;
    (split; [cbn [app]; reflexivity|]);
    (split; [exact Hw1|]); right;
    (split; [auto|]); (split; [reflexivity|]);
    exists (Z.testbit (u32 v3) 4);
    cbn [app writes]; rewrite Hwv;
    change (u32 DSR_NVF) with DSR_NVF; change (u32 DSR_TCO) with DSR_TCO;
    unfold dcr; rewrite u32_lor_TCE;
    unfold sec; rewrite u32_idem; reflexivity.
Qed.

(** The control value read back on the simulated bank, bit by bit. *)
Lemma sim_control_read_back : forall (b : SimBank.bank) k,
  0 <= k < 32 ->
  Z.testbit (invalid_state_dcr SimBank.platform b) k
    = Z.testbit (SimBank.control_write DCR_TDCSL (SimBank.regs b DCR)) k.
Proof.
  intros b k Hk. unfold invalid_state_dcr, busy_wait_state. cbv zeta.
  sim_ops. cbn [SimBank.sim_readl fst].
  unfold u32. rewrite Z.mod_pow2_bits_low by lia.
  rewrite regs_read_frame by reg_neq. rewrite regs_udelay.
  rewrite regs_write_dcr. rewrite regs_udelay.
  rewrite regs_write_frame by reg_neq. reflexivity.
Qed.

(** C10, as the code and the unit have it.  [di_handle_invalid_state]
    starts with two plain writes, 0 to the tamper configuration
    register and exactly the tamper soft-lock bit to the control
    register; the control register is not read before, so the write is
    a whole-register overwrite.  The control value [dcr] is read back
    only afterwards; the enable check tests that value, and when the
    run goes on, its control write is [dcr] with the
    time-counter-enable bit set.  What is read back is up to the unit.
    On the simulated register bank it is the soft-lock bit together
    with the lock bits that were set before; the time-counter-enable
    bit (bit 3) reads set exactly when it was set before under a time
    lock, and the monotonic-counter-enable bit (bit 2) exactly when it
    was set before under a monotonic-counter lock. *)
Theorem di_handle_invalid_state_control_overwrite :
  (forall (P : Platform) (dsr : Z) (s : pstate P),
     let sa := p_udelay P 130 (p_writel P 0 DTCR s) in
     let sb := p_udelay P 130 (p_writel P DCR_TDCSL DCR sa) in
     let sec := u32 (fst (p_readl P DTCMR sb)) in
     let sc := snd (p_readl P DTCMR sb) in
     let dcr := u32 (fst (p_readl P DCR sc)) in
     exists rc s' t1 t2,
       di_handle_invalid_state dsr s
         = Some (rc, s',
                 EvWritel 0 DTCR :: EvUdelay 130
                   :: EvWritel DCR_TDCSL DCR :: EvUdelay 130
                   :: EvReadl DTCMR sec :: t1 ++ EvReadl DCR dcr :: t2)
       /\ writes t1 = []
       /\ ((Z.testbit dcr 3 = false
            /\ (Z.testbit dcr 18 = true \/ Z.testbit dcr 17 = true)
            /\ rc = - ENODEV /\ writes t2 = [])
           \/ ((Z.testbit dcr 3 = true
                \/ (Z.testbit dcr 18 = false /\ Z.testbit dcr 17 = false))
               /\ rc = 0
               /\ exists caf : bool,
                    writes t2 =
                      (DSR_NVF, DSR) :: (DSR_TCO, DSR)
                        :: (Z.lor dcr DCR_TCE, DCR) :: (sec, DTCMR)
                        :: (DCAMR_UNSET, DCAMR) :: (0, DCALR)
                        :: (if caf then [(DSR_CAF, DSR)] else []))))
  /\ (forall b : SimBank.bank,
        let P := SimBank.platform in
        let sa := p_udelay P 130 (p_writel P 0 DTCR b) in
        let sb := p_udelay P 130 (p_writel P DCR_TDCSL DCR sa) in
        let sc := snd (p_readl P DTCMR sb) in
        let dcr := u32 (fst (p_readl P DCR sc)) in
        let old := SimBank.regs b DCR in
        (forall k, 0 <= k < 32 -> k <> 3 -> k <> 2 ->
           Z.testbit dcr k
           = Z.testbit DCR_TDCSL k
             || (Z.testbit old k && Z.testbit SimBank.DCR_LOCKS k))
        /\ Z.testbit dcr 3 = Z.testbit old 3 && SimBank.time_locked old
        /\ Z.testbit dcr 2 = Z.testbit old 2 && SimBank.counter_locked old).
Proof.
  split.
  - intros P dsr s. cbv zeta.
    destruct (di_handle_invalid_state_cases P dsr s)
      as [rc [s' [t1 [t2 [Hrun [Hw1 Hc]]]]]]. cbv zeta in Hrun, Hc.
    exists rc, s', t1, t2. split; [exact Hrun|]. split; [exact Hw1|].
    destruct Hc as [[H3 [Hl [Hrc [_ [Hw2 _]]]]]|Hc].
    + left. auto.
    + right. exact Hc.
  - intros b P sa sb sc dcr old.
    assert (Hd : forall k, 0 <= k < 32 ->
              Z.testbit dcr k
              = Z.testbit (SimBank.control_write DCR_TDCSL old) k).
    { intros k Hk. apply (sim_control_read_back b k Hk). }
    split; [|split].
    + intros k Hk H3 H2. rewrite Hd, control_write_bits by lia.
      apply Z.eqb_neq in H3, H2. rewrite H3, H2. reflexivity.
    + rewrite Hd, control_write_bits by lia.
      cbn [Z.eqb Pos.eqb andb].
      destruct (SimBank.time_locked old); [rewrite andb_true_r|];
        [reflexivity|].
      change (Z.testbit DCR_TDCSL 3) with false.
      change (Z.testbit SimBank.DCR_LOCKS 3) with false.
      rewrite !andb_false_r. reflexivity.
    + rewrite Hd, control_write_bits by lia.
      cbn [Z.eqb Pos.eqb andb].
      destruct (SimBank.counter_locked old); [rewrite andb_true_r|];
        [reflexivity|].
      change (Z.testbit DCR_TDCSL 2) with false.
      change (Z.testbit SimBank.DCR_LOCKS 2) with false.
      rewrite !andb_false_r. reflexivity.
Qed.

(** C10 as stated fails: the enable check does not always read the
    enable bit as clear.  On a bank whose control register has the
    time-counter-enable bit and the time hard lock set, the soft-lock
    write cannot clear the protected enable bit: the check reads it
    set, no lock is tested, and recovery goes on and returns 0.  The
    code itself takes whatever the control register returns: on the
    scripted platform, answered with the enable bit set, it goes on the
    same way. *)
Lemma locked_enable_bit_reads_set :
  run_accesses
    (di_handle_invalid_state (P := SimBank.platform) DSR_NVF
       {| SimBank.regs :=
            SimBank.bank_of
              [(DCR, Z.lor DCR_TCE DCR_TCHL); (DSR, DSR_NVF)];
          SimBank.now_ns := 0 |})
    = Some (0,
            [EvWritel 0 DTCR; EvWritel DCR_TDCSL DCR; EvReadl DTCMR 0;
             EvReadl DCR (Z.lor DCR_TDCSL (Z.lor DCR_TCE DCR_TCHL));
             EvWritel DSR_NVF DSR; EvWritel DSR_TCO DSR;
             EvWritel (Z.lor DCR_TDCSL (Z.lor DCR_TCE DCR_TCHL)) DCR;
             EvWritel 0 DTCMR; EvReadl DSR 256;
             EvWritel DCAMR_UNSET DCAMR; EvWritel 0 DCALR])
  /\ Z.testbit (Z.lor DCR_TDCSL (Z.lor DCR_TCE DCR_TCHL)) 3 = true
  /\ run_accesses
       (di_handle_invalid_state (P := Script.platform) DSR_NVF
          [0; Z.lor DCR_TCE DCR_TCHL])
     = Some (0,
             [EvWritel 0 DTCR; EvWritel DCR_TDCSL DCR; EvReadl DTCMR 0;
              EvReadl DCR (Z.lor DCR_TCE DCR_TCHL);
              EvWritel DSR_NVF DSR; EvWritel DSR_TCO DSR;
              EvWritel (Z.lor DCR_TCE DCR_TCHL) DCR;
              EvWritel 0 DTCMR; EvReadl DSR 0;
              EvWritel DCAMR_UNSET DCAMR; EvWritel 0 DCALR]).
Proof.
  split; [vm_compute; reflexivity|].
  split; [reflexivity|]. vm_compute. reflexivity.
Qed.

(** ** Recovery always returns *)

Lemma tame_ret : forall (P : Platform) (A : Type) (a : A),
  tame (P := P) (ret a).
Proof. intros P A a s. exists a, s, []. split; reflexivity. Qed.

Lemma tame_bind : forall (P : Platform) (A B : Type) (m : M P A)
    (f : A -> M P B),
  tame m -> (forall a, tame (f a)) -> tame (bind m f).
Proof.
  intros P A B m f Hm Hf s.
  destruct (Hm s) as [a [s1 [t1 [H1 U1]]]].
  destruct (Hf a s1) as [b [s2 [t2 [H2 U2]]]].
  exists b, s2, (t1 ++ t2). unfold bind. rewrite H1, H2.
  split; [reflexivity|]. rewrite forallb_app, U1, U2. reflexivity.
Qed.

Lemma tame_readl : forall (P : Platform) reg, tame (P := P) (readl reg).
Proof.
  intros P reg s. unfold readl. destruct (p_readl P reg s) as [v s1].
  eexists; eexists; eexists. split; reflexivity.
Qed.

Lemma tame_writel : forall (P : Platform) val reg,
  tame (P := P) (writel val reg).
Proof.
  intros P val reg s. eexists; eexists; eexists. split; reflexivity.
Qed.

Lemma tame_udelay : forall (P : Platform) us, tame (P := P) (udelay us).
Proof. intros P us s. eexists; eexists; eexists. split; reflexivity. Qed.

Lemma tame_dev_log : forall (P : Platform) lvl fmt args,
  tame (P := P) (dev_log lvl fmt args).
Proof.
  intros P lvl fmt args s. eexists; eexists; eexists. split; reflexivity.
Qed.

Create HintDb tame.

#[local] Hint Resolve tame_ret tame_readl tame_writel tame_udelay
  tame_dev_log : tame.

Ltac tame_step :=
  match goal with
  | |- tame (bind _ _) => apply tame_bind; [|intros]
  | |- tame (if ?b then _ else _) => destruct b
  | |- tame (match ?x with Some _ => _ | None => _ end) => destruct x
  | |- tame _ => solve [auto with tame]
  end.

Lemma tame_di_write_busy_wait : forall (P : Platform) val reg,
  tame (P := P) (di_write_busy_wait val reg).
Proof. intros. unfold di_write_busy_wait. repeat tame_step. Qed.

Lemma tame_di_what_is_to_be_done : forall (P : Platform) supply,
  tame (P := P) (di_what_is_to_be_done supply).
Proof. intros. unfold di_what_is_to_be_done. repeat tame_step. Qed.

#[local] Hint Resolve tame_di_write_busy_wait tame_di_what_is_to_be_done
  : tame.

Lemma tame_di_handle_failure_state : forall (P : Platform) dsr,
  tame (P := P) (di_handle_failure_state dsr).
Proof. intros. unfold di_handle_failure_state. repeat tame_step. Qed.

Lemma tame_di_handle_valid_state : forall (P : Platform) dsr,
  tame (P := P) (di_handle_valid_state dsr).
Proof. intros. unfold di_handle_valid_state. repeat tame_step. Qed.

#[local] Hint Resolve tame_di_handle_failure_state
  tame_di_handle_valid_state : tame.

Lemma tame_di_handle_invalid_state : forall (P : Platform) dsr,
  tame (P := P) (di_handle_invalid_state dsr).
Proof. intros. unfold di_handle_invalid_state. repeat tame_step. Qed.

#[local] Hint Resolve tame_di_handle_invalid_state : tame.

Lemma tame_di_handle_invalid_and_failure_state : forall (P : Platform) dsr,
  tame (P := P) (di_handle_invalid_and_failure_state dsr).
Proof.
  intros. unfold di_handle_invalid_and_failure_state. repeat tame_step.
Qed.

#[local] Hint Resolve tame_di_handle_invalid_and_failure_state : tame.

Lemma tame_di_handle_state : forall (P : Platform),
  tame (P := P) di_handle_state.
Proof. intros. unfold di_handle_state. repeat tame_step. Qed.

Lemma unit_events_not_registrations : forall t,
  forallb unit_event t = true -> registrations t = [].
Proof.
  induction t as [|e t IH]; intros H.
  - reflexivity.
  - cbn [forallb] in H. apply andb_true_iff in H. destruct H as [He Ht].
    unfold registrations. cbn [filter]. fold (registrations t).
    destruct e; try discriminate He; cbn [is_registration]; auto.
Qed.

(** ** Invalid-and-failure state and the tamper hard lock *)

Lemma tamper_bits_spec : forall dsr,
  tst dsr DSR_TAMPER_BITS
    = existsb (Z.testbit dsr) [23; 22; 21; 20; 19; 18; 17; 16; 3; 2].
Proof.
  intros dsr. unfold DSR_TAMPER_BITS. rewrite !tst_lor.
  unfold DSR_WTD, DSR_ETBD, DSR_ETAD, DSR_EBD, DSR_SAD, DSR_TTD, DSR_CTD,
    DSR_VTD, DSR_MCO, DSR_TCO.
  rewrite !tst_bit by lia. cbn [existsb]. rewrite orb_false_r. reflexivity.
Qed.




(** ** Probe *)

Lemma di_handle_state_returns :
  forall (P : Platform) (s : pstate P),
    exists rc s' t,
      di_handle_state s = Some (rc, s', t) /\ registrations t = [].
Proof.
  intros P s. destruct (tame_di_handle_state P s) as [rc [s' [t [H U]]]].
  exists rc, s', t. split; [exact H|].
  apply unit_events_not_registrations. exact U.
Qed.

(** C9. [dryice_rtc_probe] always returns.  Whenever its trace holds a
    registration of the NVRAM word or of the calendar time,
    [di_handle_state] has run before it and returned 0, and nothing was
    registered up to that point.  When [di_handle_state] returns an
    error, the probe disables the clock and returns that error, and its
    trace holds no registration. *)
Theorem dryice_rtc_probe_registers_after_recovery :
  forall (P : Platform) (s : pstate P),
    (exists rc s' t,
       dryice_rtc_probe s = Some (rc, s', t)
       /\ (registrations t <> [] ->
           exists t1 (sd se : pstate P) t2 t3,
             t = t1 ++ t2 ++ t3
             /\ di_handle_state sd = Some (0, se, t2)
             /\ registrations (t1 ++ t2) = []))
    /\ (forall sa sb sc rc se t2,
          p_dev_request_mem_resource P s = (Ptr, sa) ->
          p_clk_get P sa = (Ptr, sb) ->
          p_clk_enable P sb = (0, sc) ->
          di_handle_state (p_writel P 0 DIER sc) = Some (rc, se, t2) ->
          rc <> 0 ->
          let t := [EvRequestMem Ptr; EvClkGet Ptr; EvClkEnable 0;
                    EvWritel 0 DIER] ++ t2 ++ [EvClkDisable] in
          dryice_rtc_probe s = Some (rc, p_clk_disable P se, t)
          /\ registrations t = []).
Proof.
  intros P s. split.
  - unfold dryice_rtc_probe.
    unfold bind at 1. unfold dev_request_mem_resource.
    destruct (p_dev_request_mem_resource P s) as [res sa].
    destruct (IS_ERR res).
    { eexists; eexists; eexists. split; [reflexivity|].
      destruct res; intros H; exfalso; apply H; reflexivity. }
    unfold bind at 1. unfold clk_get.
    destruct (p_clk_get P sa) as [clk sb].
    destruct (IS_ERR clk).
    { eexists; eexists; eexists. split; [reflexivity|].
      destruct res, clk; intros H; exfalso; apply H; reflexivity. }
    unfold bind at 1. unfold clk_enable.
    destruct (p_clk_enable P sb) as [rc0 sc].
    destruct (negb (rc0 =? 0)).
    { eexists; eexists; eexists. split; [reflexivity|].
      destruct res, clk; intros H; exfalso; apply H; reflexivity. }
    unfold bind at 1. unfold writel at 1. change (u32 0) with 0.
    unfold bind at 1.
    destruct (di_handle_state_returns P (p_writel P 0 DIER sc))
      as [rc [se [t2 [Hrun Hreg]]]].
    rewrite Hrun.
    set (t1 := [EvRequestMem res] ++ [EvClkGet clk] ++ [EvClkEnable rc0]
                 ++ [EvWritel 0 DIER]).
    assert (Hreg1 : registrations (t1 ++ t2) = []).
    { rewrite registrations_app, Hreg. subst t1.
      destruct res, clk; reflexivity. }
    destruct (Z.eqb_spec rc 0) as [->|Hne]; cbn [negb].
    + unfold bind at 1. unfold nvmem_register.
      destruct (p_nvmem_register P se) as [nv sf].
      destruct (CONFIG_NVMEM P && IS_ERR nv).
      * unfold_prims. eexists; eexists; eexists. split; [reflexivity|].
        intros _. exists t1, (p_writel P 0 DIER sc), se, t2.
        eexists. split; [|split; [exact Hrun|exact Hreg1]].
        subst t1. cbn [app]. reflexivity.
      * unfold bind at 1. unfold rtc_register.
        destruct (p_rtc_register P sf) as [rc2 sg].
        destruct (negb (rc2 =? 0)); unfold_prims;
          eexists; eexists; eexists; (split; [reflexivity|]);
          intros _; exists t1, (p_writel P 0 DIER sc), se, t2;
          eexists; (split; [|split; [exact Hrun|exact Hreg1]]);
          subst t1; cbn [app]; reflexivity.
    + unfold_prims. eexists; eexists; eexists. split; [reflexivity|].
      intros H. exfalso. apply H.
      change ([EvRequestMem res] ++ [EvClkGet clk] ++ [EvClkEnable rc0]
                ++ [EvWritel 0 DIER] ++ t2 ++ [EvClkDisable] ++ [])
        with (t1 ++ t2 ++ [EvClkDisable]).
      rewrite app_assoc, registrations_app, Hreg1. reflexivity.
  - intros sa sb sc rc se t2 Hres Hclk Hen Hrun Hne. cbv zeta.
    unfold dryice_rtc_probe.
    unfold bind at 1. unfold dev_request_mem_resource. rewrite Hres.
    cbn [IS_ERR].
    unfold bind at 1. unfold clk_get. rewrite Hclk. cbn [IS_ERR].
    unfold bind at 1. unfold clk_enable. rewrite Hen. cbn [Z.eqb negb].
    unfold bind at 1. unfold writel at 1. change (u32 0) with 0.
    unfold bind at 1. rewrite Hrun.
    apply Z.eqb_neq in Hne. rewrite Hne. cbn [negb]. unfold_prims.
    rewrite app_nil_r. split; [reflexivity|].
    destruct (di_handle_state_returns P (p_writel P 0 DIER sc))
      as [rc' [se' [t2' [Hrun' Hreg]]]].
    rewrite Hrun in Hrun'. inversion Hrun'; subst.
    rewrite !registrations_app, Hreg. reflexivity.
Qed.

Lemma dryice_rtc_probe_registers_after_recovery_witness :
  (exists rc s' t,
     dryice_rtc_probe (P := Script.platform) [0; 0; 0; 0] = Some (rc, s', t)
     /\ (registrations t <> [] ->
         exists t1 (sd se : pstate Script.platform) t2 t3,
           t = t1 ++ t2 ++ t3
           /\ di_handle_state sd = Some (0, se, t2)
           /\ registrations (t1 ++ t2) = []))
  /\ (dryice_rtc_probe (P := Script.platform) [0; 0; 0; 1; 65536; 7]
        = Some (- ENODEV, [7],
                [EvRequestMem Ptr; EvClkGet Ptr; EvClkEnable 0;
                 EvWritel 0 DIER; EvReadl DSR 1;
                 EvLog LWarn "Failure stated unit detected" [];
                 EvLog LDbg "DSR register reports: %08X" [ArgU 1];
                 EvReadl DCR 65536;
                 EvLog LEmerg EMERG_FMT [ArgS "battery"];
                 EvClkDisable])
      /\ registrations
           [EvRequestMem Ptr; EvClkGet Ptr; EvClkEnable 0;
            EvWritel 0 DIER; EvReadl DSR 1;
            EvLog LWarn "Failure stated unit detected" [];
            EvLog LDbg "DSR register reports: %08X" [ArgU 1];
            EvReadl DCR 65536;
            EvLog LEmerg EMERG_FMT [ArgS "battery"];
            EvClkDisable] = []).
Proof.
  split.
  - apply (proj1 (dryice_rtc_probe_registers_after_recovery
                    Script.platform [0; 0; 0; 0])).
  - apply (proj2 (dryice_rtc_probe_registers_after_recovery
                    Script.platform [0; 0; 0; 1; 65536; 7])
             [0; 0; 1; 65536; 7] [0; 1; 65536; 7] [1; 65536; 7]
             (- ENODEV) [7]
             [EvReadl DSR 1;
              EvLog LWarn "Failure stated unit detected" [];
              EvLog LDbg "DSR register reports: %08X" [ArgU 1];
              EvReadl DCR 65536;
              EvLog LEmerg EMERG_FMT [ArgS "battery"]]).
    + reflexivity.
    + reflexivity.
    + reflexivity.
    + reflexivity.
    + discriminate.
Defined.

(** * Further properties of the driver *)

(** ** Clearing a write error *)





(** ** More on confirmed writes *)

Lemma status_reads_in : forall t d,
  In (EvReadl DSR d) t -> In d (status_reads t).
Proof.
  induction t as [|e t IH]; intros d H.
  - contradiction.
  - destruct H as [->|H].
    + cbn [status_reads]. rewrite Z.eqb_refl. left. reflexivity.
    + specialize (IH d H). destruct e; cbn [status_reads]; auto.
      destruct (reg =? DSR); [right|]; exact IH.
Qed.

Lemma poll_none :
  forall (P : Platform) (start : Z) (fuel : nat) (s : pstate P),
    di_write_wait_poll start fuel s = None ->
    exists s', idle_polls start fuel s s'.
Proof.
  intros P start fuel. induction fuel as [|fuel IH]; intros s H.
  - exists s. constructor.
  - cbn [di_write_wait_poll] in H. unfold bind at 1 in H. unfold readl in H.
    destruct (p_readl P DSR s) as [v s1] eqn:Hr.
    destruct (tst (u32 v) (Z.lor DSR_WCF DSR_WEF)) eqn:Hf;
      [discriminate H|].
    unfold bind at 1 in H. unfold is_timeout in H.
    destruct (p_is_timeout P start MSECOND s1) as [[|] s2] eqn:Ht;
      [discriminate H|].
    destruct (di_write_wait_poll start fuel s2) as [[[e s3] t3]|] eqn:Hp;
      [discriminate H|].
    destruct (IH s2 Hp) as [s' Hi]. exists s'.
    econstructor; eassumption.
Qed.

(** X2. A confirmed write whose poll loop ends on a snapshot with the
    write-error flag (bit 7) set fails with [-EIO], whether or not the
    write-complete flag is set in the same snapshot, and acknowledges
    the error: its writes are the requested one followed by the
    write-error flag written to the status register. *)
Theorem di_write_wait_write_error :
  forall (P : Platform) (val reg : Z) (s : pstate P),
    let sw := p_writel P (u32 val) reg s in
    let start := u64 (fst (p_get_time_ns P sw)) in
    let s0 := snd (p_get_time_ns P sw) in
    forall n s1 v s2 fuel,
      idle_polls start n s0 s1 ->
      p_readl P DSR s1 = (v, s2) ->
      Z.testbit (u32 v) 7 = true ->
      (n < fuel)%nat ->
      exists s' t,
        di_write_wait fuel val reg s = Some (- EIO, s', t)
        /\ writes t = [(u32 val, reg); (DSR_WEF, DSR)]
        /\ In (u32 v) (status_reads t).
Proof.
  intros P val reg s. cbv zeta. intros n s1 v s2 fuel Hi Hr H7 Hlt.
  rewrite di_write_wait_run. cbv zeta.
  replace fuel with (n + S (fuel - n - 1))%nat by lia.
  rewrite (poll_idle P _ n _ s1 Hi).
  cbn [di_write_wait_poll]. unfold bind at 1. unfold readl. rewrite Hr.
  rewrite wcf_wef_bits, H7, orb_true_r.
  unfold ret at 1. cbv beta iota.
  rewrite tst_WEF, H7.
  destruct (clear_write_error_total P s2) as [sc [tc [Hc Hw]]].
  unfold bind, ret. rewrite Hc.
  exists sc. eexists. split; [reflexivity|].
  split.
  - cbn [writes]. rewrite !writes_app, writes_idle_trace, Hw.
    reflexivity.
  - apply status_reads_in. right. right.
    apply in_or_app. left. apply in_or_app. right. left. reflexivity.
Qed.

Lemma di_write_wait_write_error_witness :
  exists s' t,
    di_write_wait (P := Script.platform) 2 5 DTCMR [1000; 0; 0; 384; 0]
      = Some (- EIO, s', t)
    /\ writes t = [(5, DTCMR); (DSR_WEF, DSR)]
    /\ In (u32 384) (status_reads t).
Proof.
  apply (di_write_wait_write_error Script.platform 5 DTCMR
           [1000; 0; 0; 384; 0] 1%nat [384; 0] 384 [0] 2%nat).
  - apply (idle_again (P := Script.platform) 1000 0 [0; 0; 384; 0] 0
             [0; 384; 0] [384; 0]);
      [reflexivity | reflexivity | reflexivity | apply idle_done].
  - reflexivity.
  - reflexivity.
  - repeat constructor.
Defined.

(** X3. [di_write_wait] fails to return within [fuel] polls exactly when
    each of the first [fuel] polls after the write sees neither flag
    and is told that the 1 ms window has not elapsed: only a platform
    that shows no flag and whose timeout test never answers keeps the
    loop going. *)
Theorem di_write_wait_out_of_fuel :
  forall (P : Platform) (fuel : nat) (val reg : Z) (s : pstate P),
    let sw := p_writel P (u32 val) reg s in
    let start := u64 (fst (p_get_time_ns P sw)) in
    let s0 := snd (p_get_time_ns P sw) in
    di_write_wait fuel val reg s = None
    <-> exists s', idle_polls start fuel s0 s'.
Proof.
  intros P fuel val reg s. cbv zeta.
  rewrite di_write_wait_run. cbv zeta.
  set (start := u64 (fst (p_get_time_ns P (p_writel P (u32 val) reg s)))).
  set (s0 := snd (p_get_time_ns P (p_writel P (u32 val) reg s))).
  split.
  - intros H.
    destruct (di_write_wait_poll start fuel s0) as [[[e s1] t1]|] eqn:Hp.
    + exfalso. destruct e as [dsr|rc].
      * destruct (tst dsr DSR_WEF).
        -- destruct (clear_write_error_total P s1) as [sc [tc [Hc _]]].
           unfold bind, ret in H. rewrite Hc in H. discriminate H.
        -- discriminate H.
      * discriminate H.
    + apply poll_none. exact Hp.
  - intros [s' Hi].
    replace fuel with (fuel + 0)%nat by lia.
    rewrite (poll_idle P start fuel s0 s' Hi). reflexivity.
Qed.

(** X4. Whatever [di_write_wait] returns is 0 or [-EIO].  The run starts
    with the requested write and the reading of the clock; it makes at
    most one more write, the write-error flag to the status register,
    and none when the result is 0.  The status register is read at
    least once. *)
Theorem di_write_wait_result :
  forall (P : Platform) (fuel : nat) (val reg : Z) (s s' : pstate P) rc t,
    di_write_wait fuel val reg s = Some (rc, s', t) ->
    (rc = 0 \/ rc = - EIO)
    /\ (exists start t',
          t = EvWritel (u32 val) reg :: EvGetTimeNs start :: t')
    /\ (writes t = [(u32 val, reg)]
        \/ (rc = - EIO /\ writes t = [(u32 val, reg); (DSR_WEF, DSR)]))
    /\ status_reads t <> [].
Proof.
  intros P fuel val reg s s' rc t H.
  destruct (di_write_wait_writes _ _ _ _ _ _ _ _ H)
    as [ack [Hw [Hack [Hrc Hz]]]].
  split; [exact Hrc|].
  rewrite di_write_wait_run in H. cbv zeta in H.
  destruct (di_write_wait_poll _ fuel _) as [[[e s1] t1]|] eqn:Hp;
    [|discriminate].
  destruct (poll_exit P _ fuel _ s1 e t1 Hp)
    as [n [sa [v [sb [Hi [Hr Hc]]]]]].
  match type of H with
  | match ?m with _ => _ end = _ =>
      destruct m as [[[rc' s2] t2]|] eqn:Hm; [|discriminate]
  end.
  inversion H; subst. clear H.
  split; [eexists; eexists; reflexivity|].
  split.
  - destruct Hack as [->| ->].
    + left. exact Hw.
    + right. split; [|exact Hw].
      destruct Hrc as [->|Hrc]; [|exact Hrc].
      specialize (Hz eq_refl). discriminate Hz.
  - assert (Hin : exists d, In (EvReadl DSR d) t1).
    { destruct e; destruct Hc as [_ [_ [_ Ht]]]; subst t1; eexists;
        apply in_or_app; right; left; reflexivity. }
    destruct Hin as [d Hin]. intros Hnil.
    assert (Hd : In d (status_reads
                         (EvWritel (u32 val) reg
                            :: EvGetTimeNs
                                 (u64 (fst (p_get_time_ns P
                                   (p_writel P (u32 val) reg s))))
                            :: t1 ++ t2))).
    { apply status_reads_in. right. right. apply in_or_app. left. exact Hin. }
    rewrite Hnil in Hd. exact Hd.
Qed.

Lemma di_write_wait_result_witness :
  (0 = 0 \/ 0 = - EIO)
  /\ (exists start t',
        [EvWritel 5 DTCMR; EvGetTimeNs 1000; EvReadl DSR 256]
          = EvWritel (u32 5) DTCMR :: EvGetTimeNs start :: t')
  /\ (writes [EvWritel 5 DTCMR; EvGetTimeNs 1000; EvReadl DSR 256]
        = [(u32 5, DTCMR)]
      \/ (0 = - EIO
          /\ writes [EvWritel 5 DTCMR; EvGetTimeNs 1000; EvReadl DSR 256]
             = [(u32 5, DTCMR); (DSR_WEF, DSR)]))
  /\ status_reads [EvWritel 5 DTCMR; EvGetTimeNs 1000; EvReadl DSR 256]
       <> [].
Proof.
  apply (di_write_wait_result Script.platform 1 5 DTCMR [1000; 256] []).
  reflexivity.
Defined.

(** ** The settling protocol of the recovery procedures *)

Lemma settled_app : forall t1 t2,
  settled t1 = true -> settled t2 = true -> settled (t1 ++ t2) = true.
Proof.
  intros t1. remember (List.length t1) as n eqn:Hn.
  revert t1 Hn. induction n as [n IH] using lt_wf_ind.
  intros t1 Hn t2 H1 H2. destruct t1 as [|e t1]; [exact H2|].
  destruct e;
    try (cbn [app settled] in *; apply (IH (List.length t1));
         [subst n; cbn [List.length]; lia | reflexivity | exact H1
         | exact H2]).
  cbn [app settled] in *.
  destruct t1 as [|e' t1]; [discriminate H1|].
  destruct e'; try discriminate H1.
  cbn [app]. apply andb_true_iff in H1. destruct H1 as [Hus H1].
  rewrite Hus. cbn [andb].
  apply (IH (List.length t1));
    [subst n; cbn [List.length]; lia | reflexivity | exact H1 | exact H2].
Qed.

Lemma settling_ret : forall (P : Platform) (A : Type) (Q : A -> Prop) a,
  Q a -> settling (P := P) Q (ret a).
Proof.
  intros P A Q a H s. exists a, s, []. repeat split; auto.
Qed.

Lemma settling_bind : forall (P : Platform) (A B : Type)
    (Q1 : A -> Prop) (Q2 : B -> Prop) (m : M P A) (f : A -> M P B),
  settling Q1 m -> (forall a, Q1 a -> settling Q2 (f a)) ->
  settling Q2 (bind m f).
Proof.
  intros P A B Q1 Q2 m f Hm Hf s.
  destruct (Hm s) as [a [s1 [t1 [H1 [S1 [U1 Ha]]]]]].
  destruct (Hf a Ha s1) as [b [s2 [t2 [H2 [S2 [U2 Hb]]]]]].
  exists b, s2, (t1 ++ t2). unfold bind. rewrite H1, H2.
  split; [reflexivity|]. split; [apply settled_app; assumption|].
  split; [rewrite forallb_app, U1, U2; reflexivity|exact Hb].
Qed.

Lemma settling_readl : forall (P : Platform) reg,
  settling (P := P) (fun _ => True) (readl reg).
Proof.
  intros P reg s. unfold readl. destruct (p_readl P reg s) as [v s1].
  eexists; eexists; eexists. repeat split.
Qed.

Lemma settling_dev_log : forall (P : Platform) lvl fmt args,
  settling (P := P) (fun _ => True) (dev_log lvl fmt args).
Proof.
  intros P lvl fmt args s. eexists; eexists; eexists. repeat split.
Qed.

Lemma settling_di_write_busy_wait : forall (P : Platform) val reg,
  settling (P := P) (fun _ => True) (di_write_busy_wait val reg).
Proof.
  intros P val reg s. unfold di_write_busy_wait. unfold_prims.
  eexists; eexists; eexists. repeat split.
Qed.

Lemma settling_di_what_is_to_be_done : forall (P : Platform) supply,
  settling (P := P) (fun _ => True) (di_what_is_to_be_done supply).
Proof. intros. unfold di_what_is_to_be_done. apply settling_dev_log. Qed.

Create HintDb settling.

#[local] Hint Resolve settling_readl settling_dev_log
  settling_di_write_busy_wait settling_di_what_is_to_be_done : settling.

#[local] Hint Unfold stop_or_go recovered_or_dead : settling.

Ltac settle :=
  repeat match goal with
  | |- settling _ (bind _ _) =>
      apply settling_bind with (Q1 := stop_or_go);
        [|intros ? [->| ->]; cbv iota]
  | |- settling _ (bind _ _) =>
      apply settling_bind with (Q1 := fun _ => True); [|intros ? _]
  | |- settling _ (if ?b then _ else _) => destruct b
  | |- settling _ (ret _) =>
      apply settling_ret; solve [auto with settling]
  | |- settling _ _ => solve [auto with settling]
  end.

Lemma settling_di_handle_failure_state : forall (P : Platform) dsr,
  settling (P := P) recovered_or_dead (di_handle_failure_state dsr).
Proof. intros. unfold di_handle_failure_state. settle. Qed.

Lemma settling_di_handle_valid_state : forall (P : Platform) dsr,
  settling (P := P) recovered_or_dead (di_handle_valid_state dsr).
Proof. intros. unfold di_handle_valid_state. settle. Qed.

#[local] Hint Resolve settling_di_handle_failure_state
  settling_di_handle_valid_state : settling.

Lemma settling_di_handle_invalid_state : forall (P : Platform) dsr,
  settling (P := P) recovered_or_dead (di_handle_invalid_state dsr).
Proof. intros. unfold di_handle_invalid_state. settle. Qed.

#[local] Hint Resolve settling_di_handle_invalid_state : settling.

Lemma settling_di_handle_invalid_and_failure_state :
  forall (P : Platform) dsr,
    settling (P := P) recovered_or_dead
      (di_handle_invalid_and_failure_state dsr).
Proof. intros. unfold di_handle_invalid_and_failure_state. settle. Qed.

#[local] Hint Resolve settling_di_handle_invalid_and_failure_state
  : settling.

(** X5. [di_handle_state] always returns, with 0 or [-ENODEV].  It needs
    no clock and no framework service: its trace holds register
    accesses, delays and messages only, and every register write in it
    is followed at once by the 130 us settling delay. *)
Theorem di_handle_state_settles :
  forall (P : Platform) (s : pstate P),
    exists rc s' t,
      di_handle_state s = Some (rc, s', t)
      /\ (rc = 0 \/ rc = - ENODEV)
      /\ settled t = true
      /\ forallb unit_event t = true.
Proof.
  intros P s.
  assert (H : settling (P := P) recovered_or_dead di_handle_state).
  { unfold di_handle_state. settle. }
  destruct (H s) as [rc [s' [t [Hrun [Hs [Hu Hrc]]]]]].
  exists rc, s', t. auto.
Qed.

(** ** Invalid-and-failure state: lock checks and cleanup *)

(** [di_handle_invalid_and_failure_state] is its lock check followed by
    [tamper_cleanup]. *)
Lemma invalid_and_failure_check :
  forall (P : Platform) (dsr : Z) (s : pstate P),
    di_handle_invalid_and_failure_state dsr s =
      if existsb (Z.testbit dsr) [23; 22; 21; 20; 19; 18; 17; 16; 3; 2]
      then
        let dcr := u32 (fst (p_readl P DCR s)) in
        let s1 := snd (p_readl P DCR s) in
        if Z.testbit dcr 30
        then Some (- ENODEV, s1,
                   [EvReadl DCR dcr; EvLog LEmerg EMERG_FMT [ArgS "battery"]])
        else if Z.testbit dcr 29
        then Some (- ENODEV, s1,
                   [EvReadl DCR dcr; EvLog LEmerg EMERG_FMT [ArgS "main"]])
        else
          match tamper_cleanup dsr s1 with
          | None => None
          | Some (rc, s', t) => Some (rc, s', EvReadl DCR dcr :: t)
          end
      else tamper_cleanup dsr s.
Proof.
  intros P dsr s. rewrite <- tamper_bits_spec.
  unfold di_handle_invalid_and_failure_state.
  fold (tamper_cleanup (P := P) dsr).
  destruct (tst dsr DSR_TAMPER_BITS).
  - unfold bind at 1. unfold bind at 1. unfold readl at 1.
    destruct (p_readl P DCR s) as [v s1]. cbn [fst snd].
    rewrite tst_TDCHL, tst_TDCSL.
    destruct (Z.testbit (u32 v) 30); [unfold_prims; reflexivity|].
    destruct (Z.testbit (u32 v) 29); [unfold_prims; reflexivity|].
    unfold ret at 1. cbv beta iota.
    destruct (tamper_cleanup dsr s1) as [[[rc s'] t]|]; reflexivity.
  - unfold bind at 1. unfold ret at 1.
    destruct (tamper_cleanup dsr s) as [[[rc s'] t]|];
      [rewrite ?app_nil_l|]; reflexivity.
Qed.

(** The run of [tamper_cleanup] up to the test of the
    security-violation flag. *)
Lemma tamper_cleanup_run :
  forall (P : Platform) (dsr : Z) (s : pstate P),
    let s1 := busy_wait_state P 0 DTCR s in
    let s2 := busy_wait_state P (Z.land dsr DSR_TAMPER_BITS) DSR s1 in
    let s3 := snd (p_readl P DSR s2) in
    let s4 := busy_wait_state P DSR_SVF DSR s3 in
    let dsr2 := u32 (fst (p_readl P DSR s4)) in
    let s5 := snd (p_readl P DSR s4) in
    exists t0,
      writes t0 = [(0, DTCR); (u32 (Z.land dsr DSR_TAMPER_BITS), DSR);
                   (DSR_SVF, DSR)]
      /\ supply_to_cycle t0 = None
      /\ tamper_cleanup dsr s =
           if Z.testbit dsr2 0
           then Some (- ENODEV, s5,
                      t0 ++ [EvLog LCrit
                               "Cannot clear the security violation flag. We are ending up in an endless loop!"
                               [];
                             EvLog LEmerg EMERG_FMT [ArgS "battery"]])
           else
             match di_handle_invalid_state dsr2 s5 with
             | None => None
             | Some (rc, s', t) => Some (rc, s', t0 ++ t)
             end.
Proof.
  intros P dsr s. cbv zeta. unfold busy_wait_state, tamper_cleanup.
  unfold di_write_busy_wait at 1 2.
  unfold bind at 1. unfold bind at 1. unfold writel at 1. unfold udelay at 1.
  unfold bind at 1. unfold bind at 1. unfold writel at 1. unfold udelay at 1.
  unfold bind at 1. unfold readl at 1.
  match goal with
  | |- context [p_readl P DSR ?st] => destruct (p_readl P DSR st) as [v1 s3]
  end.
  cbn [fst snd].
  unfold bind at 1.
  set (warn := if negb (_ =? 0) then _ else _).
  assert (Hwarn : exists t1, warn s3 = Some (tt, s3, t1)
                             /\ writes t1 = [] /\ supply_to_cycle t1 = None).
  { subst warn. destruct (negb (_ =? 0)); eexists;
      (split; [reflexivity|]); split; reflexivity. }
  destruct Hwarn as [t1 [Hwarn [Hw1 Hs1]]]. rewrite Hwarn.
  unfold di_write_busy_wait at 1.
  unfold bind at 1. unfold bind at 1. unfold writel at 1. unfold udelay at 1.
  unfold bind at 1. unfold readl at 1.
  match goal with
  | |- context [p_readl P DSR ?st] => destruct (p_readl P DSR st) as [v2 s5]
  end.
  cbn [fst snd]. rewrite tst_SVF.
  exists ([EvWritel (u32 0) DTCR; EvUdelay 130;
           EvWritel (u32 (Z.land dsr DSR_TAMPER_BITS)) DSR; EvUdelay 130;
           EvReadl DSR (u32 v1)] ++ t1
          ++ [EvWritel (u32 DSR_SVF) DSR; EvUdelay 130;
              EvReadl DSR (u32 v2)]).
  split.
  { cbn [app writes]. rewrite writes_app, Hw1. reflexivity. }
  split.
  { cbn [app supply_to_cycle].
    clear Hwarn. induction t1 as [|e t1 IH]; [reflexivity|].
    cbn [app]. destruct e; cbn [supply_to_cycle writes] in *;
      try (apply IH; assumption); try discriminate Hw1.
    destruct lvl; try (apply IH; assumption).
    destruct args as [|[u|a] [|]]; try (apply IH; assumption).
    discriminate Hs1. }
  destruct (Z.testbit (u32 v2) 0).
  - unfold_prims. cbn [app]. rewrite <- !app_assoc. reflexivity.
  - destruct (di_handle_invalid_state (u32 v2) s5) as [[[rc s'] t]|];
      [|reflexivity].
    cbn [app]. rewrite <- !app_assoc. reflexivity.
Qed.

(** X6. When the status passed to
    [di_handle_invalid_and_failure_state] shows a tamper-class bit and
    the control register has the tamper soft lock (bit 29) set without
    the hard lock (bit 30), the procedure reads the control register,
    names the main supply and returns [-ENODEV] without any write. *)
Theorem tamper_soft_lock_stops :
  forall (P : Platform) (dsr : Z) (s : pstate P),
    existsb (Z.testbit dsr) [23; 22; 21; 20; 19; 18; 17; 16; 3; 2] = true ->
    Z.testbit (u32 (fst (p_readl P DCR s))) 30 = false ->
    Z.testbit (u32 (fst (p_readl P DCR s))) 29 = true ->
    exists t,
      di_handle_invalid_and_failure_state dsr s
        = Some (- ENODEV, snd (p_readl P DCR s), t)
      /\ accesses t = [EvReadl DCR (u32 (fst (p_readl P DCR s)))]
      /\ unrecoverable_kind (- ENODEV) t = Some UntilReset.
Proof.
  intros P dsr s Ht H30 H29. rewrite invalid_and_failure_check.
  rewrite Ht. cbv zeta. rewrite H30, H29.
  eexists. split; [reflexivity|]. split; reflexivity.
Qed.

Lemma tamper_soft_lock_stops_witness :
  exists t,
    di_handle_invalid_and_failure_state (P := Script.platform)
      (Z.lor DSR_VTD (Z.lor DSR_NVF DSR_SVF)) [DCR_TDCSL; 5]
      = Some (- ENODEV, [5], t)
    /\ accesses t = [EvReadl DCR DCR_TDCSL]
    /\ unrecoverable_kind (- ENODEV) t = Some UntilReset.
Proof.
  apply (tamper_soft_lock_stops Script.platform
           (Z.lor DSR_VTD (Z.lor DSR_NVF DSR_SVF)) [DCR_TDCSL; 5]);
    reflexivity.
Defined.

(** X7. When the lock checks let [di_handle_invalid_and_failure_state]
    go on (no tamper-class bit in the status passed, or neither tamper
    lock set) and the status read after the attempt to clear the
    security-violation flag still shows that flag (bit 0), the
    procedure gives up: it returns [-ENODEV] naming the battery, and
    its only writes are 0 to the tamper configuration register, the
    tamper-class bits of the status passed to the status register, and
    the security-violation flag to the status register.  The value of
    the second write never holds the non-valid or the
    security-violation bit. *)
Theorem security_violation_stuck :
  forall (P : Platform) (dsr : Z) (s : pstate P),
    let tamper :=
      existsb (Z.testbit dsr) [23; 22; 21; 20; 19; 18; 17; 16; 3; 2] in
    let dcr := u32 (fst (p_readl P DCR s)) in
    let s0 := if tamper then snd (p_readl P DCR s) else s in
    let s1 := busy_wait_state P 0 DTCR s0 in
    let s2 := busy_wait_state P (Z.land dsr DSR_TAMPER_BITS) DSR s1 in
    let s3 := snd (p_readl P DSR s2) in
    let s4 := busy_wait_state P DSR_SVF DSR s3 in
    let dsr2 := u32 (fst (p_readl P DSR s4)) in
    tamper = false \/ (Z.testbit dcr 30 = false /\ Z.testbit dcr 29 = false) ->
    Z.testbit dsr2 0 = true ->
    exists t,
      di_handle_invalid_and_failure_state dsr s
        = Some (- ENODEV, snd (p_readl P DSR s4), t)
      /\ writes t = [(0, DTCR); (u32 (Z.land dsr DSR_TAMPER_BITS), DSR);
                     (DSR_SVF, DSR)]
      /\ unrecoverable_kind (- ENODEV) t = Some UntilBatteryCycle
      /\ Z.testbit (u32 (Z.land dsr DSR_TAMPER_BITS)) 0 = false
      /\ Z.testbit (u32 (Z.land dsr DSR_TAMPER_BITS)) 1 = false.
Proof.
  intros P dsr s. cbv zeta. intros Hgo Hsvf.
  assert (Hbits : Z.testbit (u32 (Z.land dsr DSR_TAMPER_BITS)) 0 = false
                  /\ Z.testbit (u32 (Z.land dsr DSR_TAMPER_BITS)) 1 = false).
  { unfold u32. rewrite !Z.mod_pow2_bits_low by lia.
    rewrite !Z.land_spec. split; apply andb_false_r. }
  rewrite invalid_and_failure_check. cbv zeta.
  destruct (existsb (Z.testbit dsr) [23; 22; 21; 20; 19; 18; 17; 16; 3; 2]).
  - destruct Hgo as [Hgo|[H30 H29]]; [discriminate Hgo|].
    rewrite H30, H29.
    destruct (tamper_cleanup_run P dsr (snd (p_readl P DCR s)))
      as [t0 [Hw [Hs Hrun]]]. cbv zeta in Hrun.
    rewrite Hrun, Hsvf. eexists. split; [reflexivity|].
    split; [cbn [writes]; rewrite writes_app, Hw; reflexivity|].
    split; [|exact Hbits].
    unfold unrecoverable_kind. rewrite Z.eqb_refl.
    cbn [supply_to_cycle].
    clear Hrun Hw. induction t0 as [|e t0 IH]; [reflexivity|].
    cbn [app]. destruct e; cbn [supply_to_cycle] in *;
      try (apply IH; assumption).
    destruct lvl; try (apply IH; assumption).
    destruct args as [|[u|a] [|]]; try (apply IH; assumption).
    discriminate Hs.
  - destruct (tamper_cleanup_run P dsr s) as [t0 [Hw [Hs Hrun]]].
    cbv zeta in Hrun.
    rewrite Hrun, Hsvf. eexists. split; [reflexivity|].
    split; [rewrite writes_app, Hw; reflexivity|].
    split; [|exact Hbits].
    unfold unrecoverable_kind. rewrite Z.eqb_refl.
    clear Hrun Hw. induction t0 as [|e t0 IH]; [reflexivity|].
    cbn [app]. destruct e; cbn [supply_to_cycle] in *;
      try (apply IH; assumption).
    destruct lvl; try (apply IH; assumption).
    destruct args as [|[u|a] [|]]; try (apply IH; assumption).
    discriminate Hs.
Qed.

Lemma security_violation_stuck_witness :
  exists t,
    di_handle_invalid_and_failure_state (P := Script.platform)
      (Z.lor DSR_NVF DSR_SVF) [3; 3; 9]
      = Some (- ENODEV, [9], t)
    /\ writes t = [(0, DTCR); (0, DSR); (DSR_SVF, DSR)]
    /\ unrecoverable_kind (- ENODEV) t = Some UntilBatteryCycle
    /\ Z.testbit 0 0 = false
    /\ Z.testbit 0 1 = false.
Proof.
  apply (security_violation_stuck Script.platform
           (Z.lor DSR_NVF DSR_SVF) [3; 3; 9]).
  - left. reflexivity.
  - reflexivity.
Defined.

(** X8. When the lock checks let
    [di_handle_invalid_and_failure_state] go on and the status read
    after the attempt to clear the security-violation flag shows the
    flag clear, the procedure ends as [di_handle_invalid_state] does
    when run on that status from the state then reached: same result,
    same final state, its trace after the trace of the cleanup. *)
Theorem invalid_and_failure_delegates :
  forall (P : Platform) (dsr : Z) (s : pstate P),
    let tamper :=
      existsb (Z.testbit dsr) [23; 22; 21; 20; 19; 18; 17; 16; 3; 2] in
    let dcr := u32 (fst (p_readl P DCR s)) in
    let s0 := if tamper then snd (p_readl P DCR s) else s in
    let s1 := busy_wait_state P 0 DTCR s0 in
    let s2 := busy_wait_state P (Z.land dsr DSR_TAMPER_BITS) DSR s1 in
    let s3 := snd (p_readl P DSR s2) in
    let s4 := busy_wait_state P DSR_SVF DSR s3 in
    let dsr2 := u32 (fst (p_readl P DSR s4)) in
    let s5 := snd (p_readl P DSR s4) in
    tamper = false \/ (Z.testbit dcr 30 = false /\ Z.testbit dcr 29 = false) ->
    Z.testbit dsr2 0 = false ->
    exists rc s' t tpre,
      di_handle_invalid_state dsr2 s5 = Some (rc, s', t)
      /\ di_handle_invalid_and_failure_state dsr s
           = Some (rc, s', tpre ++ t)
      /\ writes tpre = [(0, DTCR);
                        (u32 (Z.land dsr DSR_TAMPER_BITS), DSR);
                        (DSR_SVF, DSR)].
Proof.
  intros P dsr s. cbv zeta. intros Hgo Hsvf.
  rewrite invalid_and_failure_check. cbv zeta.
  destruct (existsb (Z.testbit dsr) [23; 22; 21; 20; 19; 18; 17; 16; 3; 2]).
  - destruct Hgo as [Hgo|[H30 H29]]; [discriminate Hgo|].
    rewrite H30, H29.
    destruct (tamper_cleanup_run P dsr (snd (p_readl P DCR s)))
      as [t0 [Hw [Hs Hrun]]]. cbv zeta in Hrun.
    rewrite Hrun, Hsvf.
    match goal with
    | |- context [di_handle_invalid_state ?d ?st] =>
        destruct (tame_di_handle_invalid_state P d st)
          as [rc [s' [t [Hinv _]]]]
    end.
    rewrite Hinv. exists rc, s', t.
    exists (EvReadl DCR (u32 (fst (p_readl P DCR s))) :: t0).
    split; [reflexivity|]. split; [reflexivity|].
    cbn [writes]. exact Hw.
  - destruct (tamper_cleanup_run P dsr s) as [t0 [Hw [Hs Hrun]]].
    cbv zeta in Hrun. rewrite Hrun, Hsvf.
    match goal with
    | |- context [di_handle_invalid_state ?d ?st] =>
        destruct (tame_di_handle_invalid_state P d st)
          as [rc [s' [t [Hinv _]]]]
    end.
    rewrite Hinv. exists rc, s', t, t0.
    split; [reflexivity|]. split; [reflexivity|exact Hw].
Qed.

Lemma invalid_and_failure_delegates_witness :
  exists rc s' t tpre,
    di_handle_invalid_state (P := Script.platform) 2 [0; 0; 2] = Some (rc, s', t)
    /\ di_handle_invalid_and_failure_state (P := Script.platform)
         (Z.lor DSR_NVF DSR_SVF) [3; 2; 0; 0; 2]
         = Some (rc, s', tpre ++ t)
    /\ writes tpre = [(0, DTCR); (0, DSR); (DSR_SVF, DSR)].
Proof.
  apply (invalid_and_failure_delegates Script.platform
           (Z.lor DSR_NVF DSR_SVF) [3; 2; 0; 0; 2]).
  - left. reflexivity.
  - reflexivity.
Defined.

(** ** Where the recovery procedures leave the platform *)

Lemma runs_ret : forall (P : Platform) (A : Type) (a : A) (s : pstate P),
  runs_to (ret a) s a s.
Proof. intros. exists []. reflexivity. Qed.

Lemma runs_bind : forall (P : Platform) (A B : Type) (m : M P A)
    (f : A -> M P B) s a s1 b s2,
  runs_to m s a s1 -> runs_to (f a) s1 b s2 -> runs_to (bind m f) s b s2.
Proof.
  intros P A B m f s a s1 b s2 [t1 H1] [t2 H2].
  exists (t1 ++ t2). unfold bind. rewrite H1, H2. reflexivity.
Qed.

Lemma runs_readl : forall (P : Platform) reg (s : pstate P),
  runs_to (readl reg) s (u32 (fst (p_readl P reg s)))
    (snd (p_readl P reg s)).
Proof.
  intros P reg s. unfold runs_to, readl.
  destruct (p_readl P reg s) as [v s1]. eexists. reflexivity.
Qed.

Lemma runs_busy_wait : forall (P : Platform) val reg (s : pstate P),
  runs_to (di_write_busy_wait val reg) s tt (busy_wait_state P val reg s).
Proof. intros. eexists. reflexivity. Qed.

Lemma runs_dev_log : forall (P : Platform) lvl fmt args (s : pstate P),
  runs_to (dev_log lvl fmt args) s tt s.
Proof. intros. eexists. reflexivity. Qed.

Lemma runs_valid_state : forall (P : Platform) dsr (s : pstate P),
  runs_to (di_handle_valid_state dsr) s 0 (valid_state_end P dsr s).
Proof.
  intros P dsr s. unfold di_handle_valid_state, valid_state_end. cbv zeta.
  eapply runs_bind; [apply runs_busy_wait|].
  eapply runs_bind; [apply runs_busy_wait|].
  change DSR_CAF with (Z.shiftl 1 4) at 1. rewrite tst_bit by lia.
  destruct (Z.testbit dsr 4).
  - eapply runs_bind; [apply runs_busy_wait|]. apply runs_ret.
  - eapply runs_bind; [apply runs_ret|]. apply runs_ret.
Qed.

Lemma runs_invalid_state : forall (P : Platform) dsr (s : pstate P),
  Z.testbit (invalid_state_dcr P s) 3 = true
  \/ (Z.testbit (invalid_state_dcr P s) 18 = false
      /\ Z.testbit (invalid_state_dcr P s) 17 = false) ->
  runs_to (di_handle_invalid_state dsr) s 0 (invalid_state_end P s).
Proof.
  intros P dsr s Hgo.
  unfold di_handle_invalid_state, invalid_state_end, invalid_state_dcr in *.
  cbv zeta in *.
  eapply runs_bind; [apply runs_busy_wait|].
  eapply runs_bind; [apply runs_busy_wait|].
  eapply runs_bind; [apply runs_readl|].
  eapply runs_bind.
  { match goal with
    | |- runs_to (if ?c then _ else _) _ _ _ => destruct c
    end; [apply runs_dev_log|apply runs_ret]. }
  eapply runs_bind; [apply runs_readl|].
  rewrite tst_TCE, tst_TCHL, tst_TCSL.
  eapply (runs_bind P _ _ _ _ _ None).
  { destruct Hgo as [H3|[H18 H17]].
    - rewrite H3. apply runs_ret.
    - rewrite H18, H17.
      match goal with
      | |- runs_to (if ?c then _ else _) _ _ _ => destruct c
      end; apply runs_ret. }
  cbv iota.
  eapply runs_bind; [apply runs_busy_wait|].
  eapply runs_bind; [apply runs_busy_wait|].
  eapply runs_bind; [apply runs_busy_wait|].
  eapply runs_bind; [apply runs_busy_wait|].
  eapply runs_bind; [apply runs_readl|].
  apply runs_valid_state.
Qed.

Section SimBankRecovery.

Import SimBank.

Lemma bw_frame : forall v r b x,
  x <> DSR -> x <> r -> regs (busy_wait_state platform v r b) x = regs b x.
Proof. intros. apply regs_write_frame; assumption. Qed.

Lemma bw_plain : forall v r b,
  r <> DSR -> r <> DCR -> write_protected r (regs b DCR) = false ->
  regs (busy_wait_state platform v r b) r = u32 v.
Proof. intros. apply regs_write_plain; assumption. Qed.

Lemma bw_locked : forall v r b,
  write_protected r (regs b DCR) = true ->
  regs (busy_wait_state platform v r b) r = regs b r.
Proof. intros. apply regs_write_locked; assumption. Qed.

Lemma bw_dcr : forall v b,
  regs (busy_wait_state platform v DCR b) DCR
    = control_write (u32 v) (regs b DCR).
Proof. reflexivity. Qed.

(** A control write while no time lock is set. *)
Lemma control_write_unlocked : forall v old,
  Z.testbit old 18 = false -> Z.testbit old 17 = false ->
  Z.testbit (control_write v old) 3 = Z.testbit v 3
  /\ Z.testbit (control_write v old) 18 = Z.testbit v 18
  /\ Z.testbit (control_write v old) 17 = Z.testbit v 17
  /\ Z.testbit (control_write v old) 29
     = Z.testbit v 29 || Z.testbit old 29.
Proof.
  intros v old H18 H17. rewrite !control_write_bits by lia.
  unfold time_locked. rewrite H18, H17.
  cbn [Z.eqb Pos.eqb andb orb].
  change (Z.testbit DCR_LOCKS 3) with false.
  change (Z.testbit DCR_LOCKS 29) with true.
  rewrite !andb_false_r, !andb_true_r, !orb_false_r.
  repeat split; reflexivity.
Qed.

Lemma bw_dsr_bit : forall v r b k,
  r <> DSR -> 0 <= k -> k <> 8 ->
  Z.testbit (regs (busy_wait_state platform v r b) DSR) k
    = Z.testbit (regs b DSR) k.
Proof. intros. apply dsr_write_bit; assumption. Qed.

Lemma bw_w1c_bit : forall v b k,
  0 <= k -> k <> 8 ->
  Z.testbit (regs (busy_wait_state platform v DSR b) DSR) k
    = Z.testbit (regs b DSR) k && negb (Z.testbit (u32 v) k).
Proof. intros. apply dsr_w1c_bit; assumption. Qed.

Lemma read_dsr_bit : forall r b k,
  0 <= k -> k <> 8 ->
  Z.testbit (regs (snd (p_readl platform r b)) DSR) k
    = Z.testbit (regs b DSR) k.
Proof.
  intros r b k Hk H8. pose proof (wcf_bits k Hk H8) as Hw.
  cbn [p_readl platform]. unfold sim_readl, store. cbn [snd regs].
  destruct (r =? DSR); [|reflexivity].
  change (DSR =? DSR) with true. cbv iota.
  rewrite Z.land_spec, Z.lnot_spec, Hw by assumption.
  apply andb_true_r.
Qed.

Lemma read_frame : forall r b x,
  x <> DSR -> regs (snd (p_readl platform r b)) x = regs b x.
Proof. intros. apply regs_read_frame. assumption. Qed.

Lemma read_value : forall r b, fst (p_readl platform r b) = regs b r.
Proof. reflexivity. Qed.

Lemma u32_bit : forall x k, 0 <= k < 32 ->
  Z.testbit (u32 x) k = Z.testbit x k.
Proof. intros x k Hk. unfold u32. apply Z.mod_pow2_bits_low. lia. Qed.

Ltac bank_step :=
  first
    [ rewrite read_value
    | rewrite u32_bit by lia
    | rewrite bw_frame by reg_neq
    | rewrite bw_plain by reg_free
    | rewrite bw_dcr
    | rewrite bw_dsr_bit by (reg_neq || lia)
    | rewrite bw_w1c_bit by lia
    | rewrite read_frame by reg_neq
    | rewrite read_dsr_bit by lia
    | rewrite Z.lor_spec
    | rewrite Z.land_spec ].

Ltac frames :=
  repeat first [ rewrite bw_frame by reg_neq
               | rewrite read_frame by reg_neq ].

(** The control value read back when no time lock is set: the enable
    bit and both time locks read clear. *)
Lemma sim_read_back_unlocked : forall b,
  Z.testbit (regs b DCR) 18 = false ->
  Z.testbit (regs b DCR) 17 = false ->
  Z.testbit (invalid_state_dcr platform b) 3 = false
  /\ Z.testbit (invalid_state_dcr platform b) 18 = false
  /\ Z.testbit (invalid_state_dcr platform b) 17 = false.
Proof.
  intros b H18 H17. rewrite !sim_control_read_back by lia.
  destruct (control_write_unlocked DCR_TDCSL (regs b DCR) H18 H17)
    as [E3 [E18 [E17 _]]].
  rewrite E3, E18, E17. repeat split; reflexivity.
Qed.

Lemma sim_invalid_state_end : forall b,
  Z.testbit (regs b DCR) 18 = false ->
  Z.testbit (regs b DCR) 17 = false ->
  let b' := invalid_state_end platform b in
  regs b' DTCR = (if tamper_locked (regs b DCR) then regs b DTCR else 0)
  /\ regs b' DTCMR = u32 (regs b DTCMR)
  /\ Z.testbit (regs b' DCR) 3 = true
  /\ Z.testbit (regs b' DCR) 29 = true
  /\ Z.testbit (regs b' DSR) 1 = false
  /\ Z.testbit (regs b' DSR) 2 = false
  /\ Z.testbit (regs b' DSR) 4 = false
  /\ regs b' DCAMR = 0xFFFFFFFF
  /\ Z.testbit (regs b' DSR) 0 = Z.testbit (regs b DSR) 0.
Proof.
  intros b H18 H17. cbv zeta.
  pose proof (sim_read_back_unlocked b H18 H17) as [R3 [R18 R17]].
  unfold invalid_state_dcr in R3, R18, R17. cbv zeta in R3, R18, R17.
  unfold invalid_state_end, valid_state_end. cbv zeta.
  set (sa := busy_wait_state platform 0 DTCR b) in *.
  set (sb := busy_wait_state platform DCR_TDCSL DCR sa) in *.
  set (sec := u32 (fst (p_readl platform DTCMR sb))).
  set (sc := snd (p_readl platform DTCMR sb)) in *.
  set (dcr := u32 (fst (p_readl platform DCR sc))) in *.
  set (sd := snd (p_readl platform DCR sc)).
  set (se := busy_wait_state platform DSR_NVF DSR sd).
  set (sf := busy_wait_state platform DSR_TCO DSR se).
  set (sg := busy_wait_state platform (Z.lor dcr DCR_TCE) DCR sf).
  set (sh := busy_wait_state platform sec DTCMR sg).
  assert (Hb : forall k, 0 <= k < 32 ->
            Z.testbit (regs sf DCR) k = Z.testbit dcr k).
  { intros k Hk. subst sf se sd dcr. frames.
    rewrite read_value, u32_bit by lia. frames. reflexivity. }
  assert (Hg : Z.testbit (regs sg DCR) 3 = true
               /\ Z.testbit (regs sg DCR) 18 = false
               /\ Z.testbit (regs sg DCR) 17 = false
               /\ Z.testbit (regs sg DCR) 29 = true).
  { subst sg. rewrite bw_dcr.
    destruct (control_write_unlocked (u32 (Z.lor dcr DCR_TCE))
                (regs sf DCR)) as [E3 [E18 [E17 E29]]].
    { rewrite Hb by lia. exact R18. }
    { rewrite Hb by lia. exact R17. }
    rewrite E3, E18, E17, E29, !u32_bit, !Z.lor_spec, R18, R17 by lia.
    change (Z.testbit DCR_TCE 3) with true.
    change (Z.testbit DCR_TCE 18) with false.
    change (Z.testbit DCR_TCE 17) with false.
    rewrite Hb by lia.
    assert (H29 : Z.testbit dcr 29 = true).
    { subst dcr sc sb. rewrite read_value, u32_bit by lia. frames.
      rewrite bw_dcr, control_write_bits by lia.
      cbn [Z.eqb Pos.eqb andb].
      change (Z.testbit (u32 DCR_TDCSL) 29) with true. reflexivity. }
    rewrite H29, orb_true_r. repeat split; reflexivity. }
  destruct Hg as [G3 [G18 [G17 G29]]].
  assert (Hsec : regs sh DTCMR = u32 (regs b DTCMR)).
  { subst sh. rewrite bw_plain;
      [| reg_neq | reg_neq
       | apply time_register_free; [left; reflexivity | exact G18 | exact G17]].
    subst sec sb sa. rewrite read_value. frames. apply u32_idem. }
  assert (Htc : regs sh DTCR
                = if tamper_locked (regs b DCR) then regs b DTCR else 0).
  { subst sh sg sf se sd sc sb sa. frames.
    destruct (tamper_locked (regs b DCR)) eqn:Ht.
    - apply bw_locked. unfold write_protected. rewrite Ht. reflexivity.
    - apply bw_plain; [reg_neq | reg_neq |].
      unfold write_protected. rewrite Ht. reflexivity. }
  assert (Hdcr : forall k, Z.testbit (regs sh DCR) k
                           = Z.testbit (regs sg DCR) k).
  { intros k. subst sh. frames. reflexivity. }
  assert (Hdsr : forall k, 0 <= k -> k <> 8 ->
            Z.testbit (regs sh DSR) k
            = Z.testbit (regs b DSR) k
              && negb (Z.testbit (u32 DSR_NVF) k)
              && negb (Z.testbit (u32 DSR_TCO) k)).
  { intros k Hk H8. subst sh sg sf se sd sc sb sa.
    rewrite !bw_dsr_bit by (reg_neq || lia).
    rewrite !bw_w1c_bit by lia.
    rewrite !read_dsr_bit by lia.
    rewrite !bw_dsr_bit by (reg_neq || lia). reflexivity. }
  set (si := snd (p_readl platform DSR sh)).
  set (dsr' := u32 (fst (p_readl platform DSR sh))).
  assert (Hcaf : Z.testbit dsr' 4 = Z.testbit (regs b DSR) 4).
  { subst dsr'. rewrite read_value, u32_bit, Hdsr by lia.
    change (Z.testbit (u32 DSR_NVF) 4) with false.
    change (Z.testbit (u32 DSR_TCO) 4) with false.
    rewrite !andb_true_r. reflexivity. }
  assert (Hsi : forall k, 0 <= k -> k <> 8 ->
            Z.testbit (regs si DSR) k = Z.testbit (regs sh DSR) k).
  { intros k Hk H8. subst si. apply read_dsr_bit; assumption. }
  destruct (Z.testbit dsr' 4) eqn:E4.
  - split; [frames; exact Htc|]. split; [frames; exact Hsec|].
    split; [frames; rewrite Hdcr; exact G3|].
    split; [frames; rewrite Hdcr; exact G29|].
    split; [|split; [|split; [|split]]].
    + rewrite bw_w1c_bit, !bw_dsr_bit, Hsi, Hdsr by (reg_neq || lia).
      change (Z.testbit (u32 DSR_NVF) 1) with true.
      rewrite andb_false_r. reflexivity.
    + rewrite bw_w1c_bit, !bw_dsr_bit, Hsi, Hdsr by (reg_neq || lia).
      change (Z.testbit (u32 DSR_TCO) 2) with true.
      rewrite andb_false_r. reflexivity.
    + rewrite bw_w1c_bit by lia.
      change (Z.testbit (u32 DSR_CAF) 4) with true. apply andb_false_r.
    + frames. rewrite bw_plain by reg_free. reflexivity.
    + rewrite bw_w1c_bit, !bw_dsr_bit, Hsi, Hdsr by (reg_neq || lia).
      change (Z.testbit (u32 DSR_NVF) 0) with false.
      change (Z.testbit (u32 DSR_TCO) 0) with false.
      change (Z.testbit (u32 DSR_CAF) 0) with false.
      rewrite !andb_true_r. reflexivity.
  - split; [frames; exact Htc|]. split; [frames; exact Hsec|].
    split; [frames; rewrite Hdcr; exact G3|].
    split; [frames; rewrite Hdcr; exact G29|].
    split; [|split; [|split; [|split]]].
    + rewrite !bw_dsr_bit, Hsi, Hdsr by (reg_neq || lia).
      change (Z.testbit (u32 DSR_NVF) 1) with true.
      rewrite andb_false_r. reflexivity.
    + rewrite !bw_dsr_bit, Hsi, Hdsr by (reg_neq || lia).
      change (Z.testbit (u32 DSR_TCO) 2) with true.
      rewrite andb_false_r. reflexivity.
    + rewrite !bw_dsr_bit, Hsi, Hdsr by (reg_neq || lia).
      rewrite <- Hcaf. change (Z.testbit (u32 DSR_NVF) 4) with false.
      change (Z.testbit (u32 DSR_TCO) 4) with false. reflexivity.
    + frames. rewrite bw_plain by reg_free. reflexivity.
    + rewrite !bw_dsr_bit, Hsi, Hdsr by (reg_neq || lia).
      change (Z.testbit (u32 DSR_NVF) 0) with false.
      change (Z.testbit (u32 DSR_TCO) 0) with false.
      rewrite !andb_true_r. reflexivity.
Qed.

(** X9. On the simulated register bank, from every bank whose control
    register holds neither time lock (bits 18 and 17),
    [di_handle_invalid_state] returns 0 and leaves the unit recovered:
    the tamper configuration soft-locked, the seconds counter holding
    the value it had before, the counter enabled, the non-valid,
    time-overflow and clock-alarm flags clear, the alarm disarmed.  The
    tamper sources are disabled when no tamper-configuration lock
    (bits 30 and 29) was set; when one was set, the tamper
    configuration register stays as it was although the result is 0.
    The security-violation flag is left as it was. *)
Theorem sim_invalid_state_recovers :
  forall (dsr : Z) (b : bank),
    Z.testbit (regs b DCR) 18 = false ->
    Z.testbit (regs b DCR) 17 = false ->
    exists b' t,
      di_handle_invalid_state (P := platform) dsr b = Some (0, b', t)
      /\ regs b' DTCR
         = (if Z.testbit (regs b DCR) 30 || Z.testbit (regs b DCR) 29
            then regs b DTCR else 0)
      /\ regs b' DTCMR = u32 (regs b DTCMR)
      /\ Z.testbit (regs b' DCR) 3 = true
      /\ Z.testbit (regs b' DCR) 29 = true
      /\ Z.testbit (regs b' DSR) 1 = false
      /\ Z.testbit (regs b' DSR) 2 = false
      /\ Z.testbit (regs b' DSR) 4 = false
      /\ regs b' DCAMR = 0xFFFFFFFF
      /\ Z.testbit (regs b' DSR) 0 = Z.testbit (regs b DSR) 0.
Proof.
  intros dsr b H18 H17.
  destruct (runs_invalid_state platform dsr b) as [t Hrun].
  { right. destruct (sim_read_back_unlocked b H18 H17) as [_ [R18 R17]].
    split; assumption. }
  exists (invalid_state_end platform b), t.
  split; [exact Hrun|]. apply (sim_invalid_state_end b H18 H17).
Qed.

Lemma sim_invalid_state_recovers_witness :
  exists b' t,
    di_handle_invalid_state (P := platform) DSR_NVF
      {| regs := bank_of [(DSR, DSR_NVF); (DTCR, 5); (DTCMR, 12345)];
         now_ns := 0 |} = Some (0, b', t)
    /\ regs b' DTCR = 0
    /\ regs b' DTCMR = u32 12345
    /\ Z.testbit (regs b' DCR) 3 = true
    /\ Z.testbit (regs b' DCR) 29 = true
    /\ Z.testbit (regs b' DSR) 1 = false
    /\ Z.testbit (regs b' DSR) 2 = false
    /\ Z.testbit (regs b' DSR) 4 = false
    /\ regs b' DCAMR = 0xFFFFFFFF
    /\ Z.testbit (regs b' DSR) 0 = false.
Proof.
  apply (sim_invalid_state_recovers DSR_NVF
           {| regs := bank_of [(DSR, DSR_NVF); (DTCR, 5); (DTCMR, 12345)];
              now_ns := 0 |});
    reflexivity.
Defined.

(** X10. On the simulated register bank, when the status register shows
    the invalid state (non-valid set, security violation clear) and the
    control register holds neither time lock, [di_handle_state] returns
    0 and the unit is then in the valid state: [classify] of the status
    register is [Valid], so a later [di_handle_state] takes the path of
    the valid state. *)
Theorem sim_recover_reaches_valid :
  forall b : bank,
    classify (regs b DSR) = Invalid ->
    Z.testbit (regs b DCR) 18 = false ->
    Z.testbit (regs b DCR) 17 = false ->
    exists b' t,
      di_handle_state (P := platform) b = Some (0, b', t)
      /\ classify (regs b' DSR) = Valid
      /\ regs b' DTCMR = u32 (regs b DTCMR).
Proof.
  intros b Hc H18 H17.
  assert (Hbits : Z.testbit (regs b DSR) 1 = true
                  /\ Z.testbit (regs b DSR) 0 = false).
  { unfold classify in Hc.
    destruct (Z.testbit (regs b DSR) 1), (Z.testbit (regs b DSR) 0);
      try discriminate Hc. split; reflexivity. }
  destruct Hbits as [H1 H0].
  set (b1 := snd (p_readl platform DSR b)).
  assert (H18' : Z.testbit (regs b1 DCR) 18 = false)
    by (subst b1; rewrite read_frame by reg_neq; exact H18).
  assert (H17' : Z.testbit (regs b1 DCR) 17 = false)
    by (subst b1; rewrite read_frame by reg_neq; exact H17).
  assert (Hgo : Z.testbit (invalid_state_dcr platform b1) 18 = false
                /\ Z.testbit (invalid_state_dcr platform b1) 17 = false).
  { destruct (sim_read_back_unlocked b1 H18' H17') as [_ [R18 R17]].
    split; assumption. }
  destruct (runs_invalid_state platform
              (u32 (fst (p_readl platform DSR b))) b1 (or_intror Hgo))
    as [t Hrun].
  pose proof (sim_invalid_state_end b1 H18' H17') as Hend.
  cbv zeta in Hend.
  destruct Hend as [_ [Htime [_ [_ [Hn [_ [_ [_ Hs]]]]]]]].
  exists (invalid_state_end platform b1). eexists.
  split.
  - unfold di_handle_state. unfold bind at 1. unfold readl at 1.
    change (p_readl platform DSR b)
      with (regs b DSR, snd (p_readl platform DSR b)).
    cbv beta iota zeta. rewrite land_nvf_svf.
    rewrite !u32_bit, H1, H0 by lia.
    change (Z.lor DSR_NVF 0 =? DSR_NVF) with true. cbv iota.
    fold b1. unfold bind at 1. unfold dev_log at 1.
    change (u32 (fst (p_readl platform DSR b))) with (u32 (regs b DSR))
      in Hrun.
    rewrite Hrun. reflexivity.
  - split.
    + unfold classify. rewrite Hn, Hs. subst b1.
      rewrite read_dsr_bit, H0 by lia. reflexivity.
    + rewrite Htime. subst b1. rewrite read_frame by reg_neq. reflexivity.
Qed.

Lemma sim_recover_reaches_valid_witness :
  exists b' t,
    di_handle_state (P := platform)
      {| regs := bank_of [(DSR, DSR_NVF); (DTCR, 5); (DTCMR, 12345)];
         now_ns := 0 |} = Some (0, b', t)
    /\ classify (regs b' DSR) = Valid
    /\ regs b' DTCMR = u32 12345.
Proof.
  apply (sim_recover_reaches_valid
           {| regs := bank_of [(DSR, DSR_NVF); (DTCR, 5); (DTCMR, 12345)];
              now_ns := 0 |});
    reflexivity.
Defined.

(** The bank after a confirmed write that completed at its first poll. *)
Let confirmed (v r : Z) (b : bank) : bank :=
  snd (p_readl platform DSR (p_writel platform (u32 v) r b)).

Lemma write_raises_wcf : forall v r b,
  r <> DIER -> Z.testbit (regs (sim_writel v r b) DSR) 8 = true.
Proof.
  intros v r b Hr. unfold sim_writel, store. cbn [regs].
  apply Z.eqb_neq in Hr. rewrite Hr. rewrite Z.eqb_refl.
  rewrite Z.lor_spec. apply orb_true_r.
Qed.

Lemma cf_frame : forall v r b x,
  x <> DSR -> x <> r -> regs (confirmed v r b) x = regs b x.
Proof.
  intros. unfold confirmed. rewrite read_frame by assumption.
  apply regs_write_frame; assumption.
Qed.

Lemma cf_plain : forall v r b,
  r <> DSR -> r <> DCR -> write_protected r (regs b DCR) = false ->
  regs (confirmed v r b) r = u32 v.
Proof.
  intros. unfold confirmed. rewrite read_frame by assumption.
  apply regs_write_plain; assumption.
Qed.

Lemma cf_locked : forall v r b,
  r <> DSR -> write_protected r (regs b DCR) = true ->
  regs (confirmed v r b) r = regs b r.
Proof.
  intros. unfold confirmed. rewrite read_frame by assumption.
  apply regs_write_locked; assumption.
Qed.

Lemma cf_dcr : forall v b,
  regs (confirmed v DCR b) DCR = control_write (u32 v) (regs b DCR).
Proof.
  intros. unfold confirmed. rewrite read_frame by reg_neq. reflexivity.
Qed.

Lemma cf_dsr_bit : forall v r b k,
  r <> DSR -> 0 <= k -> k <> 8 ->
  Z.testbit (regs (confirmed v r b) DSR) k = Z.testbit (regs b DSR) k.
Proof.
  intros. unfold confirmed. rewrite read_dsr_bit by assumption.
  apply dsr_write_bit; assumption.
Qed.

(** On the bank a confirmed write to a register other than the status
    and the interrupt-enable register completes at the first poll when
    no write error is pending. *)
Lemma sim_write_wait : forall fuel val reg b,
  reg <> DSR -> reg <> DIER ->
  Z.testbit (regs b DSR) 7 = false ->
  runs_to (di_write_wait (P := platform) (S fuel) val reg) b 0
    (confirmed val reg b).
Proof.
  intros fuel val reg b Hs Hi H7. unfold runs_to.
  rewrite di_write_wait_run. cbv zeta.
  cbn [p_get_time_ns platform fst snd].
  cbn [di_write_wait_poll]. unfold bind at 1. unfold readl.
  change (p_readl platform DSR (p_writel platform (u32 val) reg b))
    with (regs (sim_writel (u32 val) reg b) DSR, confirmed val reg b).
  cbv beta iota.
  rewrite wcf_wef_bits, u32_bit, write_raises_wcf by (lia || assumption).
  cbn [orb]. unfold ret at 1. cbv beta iota.
  rewrite tst_WEF, u32_bit, dsr_write_bit, H7 by (lia || assumption).
  unfold ret. eexists. reflexivity.
Qed.

(** What [dryice_rtc_set_time] does on the bank once its permission
    check has passed: the three confirmed writes complete, the result is
    0 and the bank is left as the three writes leave it. *)
Lemma sim_set_time_run :
  forall (fuel : nat) (secs : Z) (b : bank),
    Z.testbit (regs b DSR) 0 = false ->
    Z.testbit (regs b DSR) 7 = false ->
    Z.testbit (regs b DCR) 3 = true
    \/ (Z.testbit (regs b DCR) 18 = false
        /\ Z.testbit (regs b DCR) 17 = false) ->
    let b2 := snd (p_readl platform DSR (snd (p_readl platform DCR b))) in
    let b3 := confirmed 0 DTCLR b2 in
    let b4 := confirmed secs DTCMR b3 in
    let b5 := snd (p_readl platform DCR b4) in
    let dcr' := u32 (fst (p_readl platform DCR b4)) in
    runs_to (dryice_rtc_set_time (P := platform) (S fuel) secs) b 0
      (confirmed (Z.lor dcr' DCR_TCE) DCR b5).
Proof.
  intros fuel secs b H0 H7 Hperm. cbv zeta.
  set (b1 := snd (p_readl platform DCR b)).
  set (b2 := snd (p_readl platform DSR b1)).
  set (b3 := confirmed 0 DTCLR b2).
  set (b4 := confirmed secs DTCMR b3).
  set (b5 := snd (p_readl platform DCR b4)).
  set (dcr' := u32 (fst (p_readl platform DCR b4))).
  assert (H72 : Z.testbit (regs b2 DSR) 7 = false).
  { subst b2 b1. rewrite !read_dsr_bit by lia. exact H7. }
  assert (H73 : Z.testbit (regs b3 DSR) 7 = false).
  { subst b3. rewrite cf_dsr_bit by (reg_neq || lia). exact H72. }
  assert (H75 : Z.testbit (regs b5 DSR) 7 = false).
  { subst b5 b4. rewrite read_dsr_bit, cf_dsr_bit by (reg_neq || lia).
    exact H73. }
  unfold dryice_rtc_set_time.
  cbn [p_rtc_tm_to_time platform Z.eqb negb].
  eapply runs_bind; [apply runs_readl|].
  eapply runs_bind; [apply runs_readl|].
  rewrite tst_TCE, tst_TCHL, tst_TCSL, tst_SVF.
  rewrite !read_value, !u32_bit by lia.
  fold b1. replace (regs b1 DSR) with (regs b DSR)
    by (subst b1; cbn [p_readl platform sim_readl snd regs];
        reflexivity).
  rewrite H0. fold b2.
  eapply (runs_bind platform _ _ _ _ _ None).
  { destruct Hperm as [H3|[H18 H17]].
    - rewrite H3. apply runs_ret.
    - rewrite H18, H17. rewrite orb_false_r.
      destruct (negb (Z.testbit (regs b DCR) 3)); apply runs_ret. }
  cbv iota.
  eapply runs_bind; [apply sim_write_wait; [reg_neq|reg_neq|exact H72]|].
  cbn [Z.eqb negb]. fold b3.
  eapply runs_bind; [apply sim_write_wait; [reg_neq|reg_neq|exact H73]|].
  cbn [Z.eqb negb]. fold b4.
  eapply runs_bind; [apply runs_readl|].
  fold b5. fold dcr'.
  apply sim_write_wait; [reg_neq|reg_neq|exact H75].
Qed.

(** X11. On the simulated register bank, with the security-violation
    flag and the write-error flag clear and neither time lock set,
    [dryice_rtc_set_time] returns 0, leaves the fractional register at
    0 and the counter enabled, and a following [dryice_rtc_read_time]
    returns 0 with the calendar time of the seconds just set (truncated
    to 32 bits).  With the counter enabled and a time lock set the
    request is not refused either: the result is 0, but the unit keeps
    its seconds, and a following [dryice_rtc_read_time] returns the
    time that was there before. *)
Theorem sim_set_time_read_time :
  forall (tm_t : Type) (rtc_time_to_tm : Z -> tm_t)
         (fuel : nat) (secs : Z) (b : bank),
    Z.testbit (regs b DSR) 0 = false ->
    Z.testbit (regs b DSR) 7 = false ->
    (Z.testbit (regs b DCR) 18 = false ->
     Z.testbit (regs b DCR) 17 = false ->
     exists b' t,
       dryice_rtc_set_time (P := platform) (S fuel) secs b = Some (0, b', t)
       /\ regs b' DTCLR = 0
       /\ Z.testbit (regs b' DCR) 3 = true
       /\ exists b'' t',
            dryice_rtc_read_time (P := platform) rtc_time_to_tm b'
              = Some ((0, rtc_time_to_tm (u32 secs)), b'', t')
            /\ writes t' = [])
    /\ (Z.testbit (regs b DCR) 3 = true ->
        Z.testbit (regs b DCR) 18 = true
        \/ Z.testbit (regs b DCR) 17 = true ->
        exists b' t,
          dryice_rtc_set_time (P := platform) (S fuel) secs b
            = Some (0, b', t)
          /\ regs b' DTCLR = regs b DTCLR
          /\ regs b' DTCMR = regs b DTCMR
          /\ exists b'' t',
               dryice_rtc_read_time (P := platform) rtc_time_to_tm b'
                 = Some ((0, rtc_time_to_tm (u32 (regs b DTCMR))), b'', t')
               /\ writes t' = []).
Proof.
  intros tm_t rtc_time_to_tm fuel secs b H0 H7.
  assert (Hread : forall b6 : bank,
            exists b'' t',
              dryice_rtc_read_time (P := platform) rtc_time_to_tm b6
                = Some ((0, rtc_time_to_tm (u32 (regs b6 DTCMR))), b'', t')
              /\ writes t' = []).
  { intros b6. unfold dryice_rtc_read_time. unfold bind, readl, ret.
    change (p_readl platform DTCMR b6)
      with (regs b6 DTCMR, snd (p_readl platform DTCMR b6)).
    cbv beta iota. eexists. eexists. split; reflexivity. }
  split.
  - intros H18 H17.
    pose proof (sim_set_time_run fuel secs b H0 H7
                  (or_intror (conj H18 H17))) as Hrun.
    cbv zeta in Hrun.
    set (b2 := snd (p_readl platform DSR (snd (p_readl platform DCR b))))
      in *.
    set (b3 := confirmed 0 DTCLR b2) in *.
    set (b4 := confirmed secs DTCMR b3) in *.
    set (b5 := snd (p_readl platform DCR b4)) in *.
    set (dcr' := u32 (fst (p_readl platform DCR b4))) in *.
    set (b6 := confirmed (Z.lor dcr' DCR_TCE) DCR b5) in *.
    assert (Hd2 : regs b2 DCR = regs b DCR)
      by (subst b2; rewrite !read_frame by reg_neq; reflexivity).
    assert (Hd3 : regs b3 DCR = regs b DCR)
      by (subst b3; rewrite cf_frame by reg_neq; exact Hd2).
    assert (Hd5 : regs b5 DCR = regs b DCR).
    { subst b5 b4. rewrite read_frame, cf_frame by reg_neq. exact Hd3. }
    destruct Hrun as [t Hrun].
    exists b6, t. split; [exact Hrun|].
    split.
    { subst b6 b5 b4 b3.
      rewrite cf_frame, read_frame, cf_frame by reg_neq.
      apply cf_plain; [reg_neq | reg_neq |].
      apply time_register_free; [right; reflexivity | |];
        rewrite Hd2; assumption. }
    split.
    { subst b6. rewrite cf_dcr.
      destruct (control_write_unlocked (u32 (Z.lor dcr' DCR_TCE))
                  (regs b5 DCR)) as [E3 _];
        [rewrite Hd5; exact H18 | rewrite Hd5; exact H17 |].
      rewrite E3. subst dcr'.
      rewrite u32_lor_TCE, !Z.lor_spec.
      change (Z.testbit DCR_TCE 3) with true.
      rewrite orb_true_r. reflexivity. }
    assert (Hsec : regs b6 DTCMR = u32 secs).
    { subst b6 b5 b4. rewrite cf_frame, read_frame by reg_neq.
      apply cf_plain; [reg_neq | reg_neq |].
      apply time_register_free; [left; reflexivity | |];
        rewrite Hd3; assumption. }
    destruct (Hread b6) as [b'' [t' [Hr Hw]]].
    rewrite Hsec, u32_idem in Hr. exists b'', t'. split; assumption.
  - intros H3 Hlock.
    pose proof (sim_set_time_run fuel secs b H0 H7 (or_introl H3)) as Hrun.
    cbv zeta in Hrun.
    set (b2 := snd (p_readl platform DSR (snd (p_readl platform DCR b))))
      in *.
    set (b3 := confirmed 0 DTCLR b2) in *.
    set (b4 := confirmed secs DTCMR b3) in *.
    set (b5 := snd (p_readl platform DCR b4)) in *.
    set (dcr' := u32 (fst (p_readl platform DCR b4))) in *.
    set (b6 := confirmed (Z.lor dcr' DCR_TCE) DCR b5) in *.
    assert (Hd2 : regs b2 DCR = regs b DCR)
      by (subst b2; rewrite !read_frame by reg_neq; reflexivity).
    assert (Hd3 : regs b3 DCR = regs b DCR)
      by (subst b3; rewrite cf_frame by reg_neq; exact Hd2).
    assert (Hl : time_locked (regs b DCR) = true).
    { unfold time_locked. destruct Hlock as [H|H]; rewrite H;
        [reflexivity|apply orb_true_r]. }
    destruct Hrun as [t Hrun].
    exists b6, t. split; [exact Hrun|].
    assert (Hlsb : regs b6 DTCLR = regs b DTCLR).
    { subst b6 b5 b4. rewrite cf_frame, read_frame, cf_frame by reg_neq.
      subst b3. rewrite cf_locked;
        [| reg_neq
         | unfold write_protected; rewrite Hd2, Hl; reflexivity].
      subst b2. rewrite !read_frame by reg_neq. reflexivity. }
    assert (Hmsb : regs b6 DTCMR = regs b DTCMR).
    { subst b6 b5 b4. rewrite cf_frame, read_frame by reg_neq.
      rewrite cf_locked;
        [| reg_neq
         | unfold write_protected; rewrite Hd3, Hl; reflexivity].
      subst b3. rewrite cf_frame by reg_neq.
      subst b2. rewrite !read_frame by reg_neq. reflexivity. }
    split; [exact Hlsb|]. split; [exact Hmsb|].
    destruct (Hread b6) as [b'' [t' [Hr Hw]]].
    rewrite Hmsb in Hr. exists b'', t'. split; assumption.
Qed.

Lemma sim_set_time_read_time_witness :
  (exists b' t,
     dryice_rtc_set_time (P := platform) 1 777
       {| regs := bank_of [(DCR, DCR_TCE)]; now_ns := 0 |} = Some (0, b', t)
     /\ regs b' DTCLR = 0
     /\ Z.testbit (regs b' DCR) 3 = true
     /\ exists b'' t',
          dryice_rtc_read_time (P := platform) (fun x => x) b'
            = Some ((0, u32 777), b'', t')
          /\ writes t' = [])
  /\ (exists b' t,
        dryice_rtc_set_time (P := platform) 1 777
          {| regs := bank_of [(DCR, Z.lor DCR_TCE DCR_TCHL); (DTCMR, 5)];
             now_ns := 0 |} = Some (0, b', t)
        /\ regs b' DTCLR = 0
        /\ regs b' DTCMR = 5
        /\ exists b'' t',
             dryice_rtc_read_time (P := platform) (fun x => x) b'
               = Some ((0, u32 5), b'', t')
             /\ writes t' = []).
Proof.
  split.
  - apply (proj1 (sim_set_time_read_time Z (fun x => x) 0 777
                    {| regs := bank_of [(DCR, DCR_TCE)]; now_ns := 0 |}
                    eq_refl eq_refl));
      reflexivity.
  - apply (proj2 (sim_set_time_read_time Z (fun x => x) 0 777
                    {| regs := bank_of [(DCR, Z.lor DCR_TCE DCR_TCHL);
                                        (DTCMR, 5)];
                       now_ns := 0 |}
                    eq_refl eq_refl)).
    + reflexivity.
    + left. reflexivity.
Defined.

(** X23. On the simulated register bank, a four-byte [nvstore_write]
    followed by a four-byte [nvstore_read] hands back the word written
    (truncated to 32 bits), whatever register offsets the two calls
    name and whatever the read buffer held; both return 0, the write
    touches the general purpose register only, and the read writes
    nothing. *)
Theorem sim_nvstore_round_trip :
  forall (reg reg' val32 old : Z) (b : bank),
    exists b' b'' t',
      nvstore_write (P := platform) reg val32 4 b
        = Some (0, b', [EvWritel (u32 val32) DGPR])
      /\ (forall x, x <> DSR -> x <> DGPR -> regs b' x = regs b x)
      /\ nvstore_read (P := platform) reg' old 4 b'
         = Some ((0, u32 val32), b'', t')
      /\ writes t' = [].
Proof.
  intros reg reg' val32 old b.
  exists (sim_writel (u32 val32) DGPR b).
  exists (snd (p_readl platform DGPR (sim_writel (u32 val32) DGPR b))).
  eexists.
  split; [reflexivity|]. split.
  { intros x Hs Hg. apply regs_write_frame; assumption. }
  unfold nvstore_read. cbn [Z.eqb Pos.eqb negb].
  unfold bind, readl, ret.
  change (p_readl platform DGPR (sim_writel (u32 val32) DGPR b))
    with (regs (sim_writel (u32 val32) DGPR b) DGPR,
          snd (p_readl platform DGPR (sim_writel (u32 val32) DGPR b))).
  cbv beta iota.
  rewrite regs_write_plain, u32_idem by reg_free.
  split; reflexivity.
Qed.

End SimBankRecovery.

(** ** More on the probe routine *)

(** The run of [dryice_rtc_probe], step by step. *)
Lemma dryice_rtc_probe_run :
  forall (P : Platform) (s : pstate P),
    dryice_rtc_probe s =
      let (res, sa) := p_dev_request_mem_resource P s in
      if IS_ERR res then Some (PTR_ERR res, sa, [EvRequestMem res])
      else
        let (clk, sb) := p_clk_get P sa in
        if IS_ERR clk
        then Some (PTR_ERR clk, sb, [EvRequestMem res; EvClkGet clk])
        else
          let (rc0, sc) := p_clk_enable P sb in
          if negb (rc0 =? 0)
          then Some (rc0, sc,
                     [EvRequestMem res; EvClkGet clk; EvClkEnable rc0])
          else
            match di_handle_state (p_writel P 0 DIER sc) with
            | None => None
            | Some (rc, se, t2) =>
                let pre := [EvRequestMem res; EvClkGet clk; EvClkEnable rc0;
                            EvWritel 0 DIER] ++ t2 in
                if negb (rc =? 0)
                then Some (rc, p_clk_disable P se, pre ++ [EvClkDisable])
                else
                  let (nv, sf) := p_nvmem_register P se in
                  if CONFIG_NVMEM P && IS_ERR nv
                  then Some (PTR_ERR nv, p_clk_disable P sf,
                             pre ++ [EvNvmemRegister nv; EvClkDisable])
                  else
                    let (rc2, sg) := p_rtc_register P sf in
                    if negb (rc2 =? 0)
                    then Some (rc2, p_clk_disable P sg,
                               pre ++ [EvNvmemRegister nv; EvRtcRegister rc2;
                                       EvClkDisable])
                    else Some (0, sg,
                               pre ++ [EvNvmemRegister nv;
                                       EvRtcRegister rc2])
            end.
Proof.
  intros P s. unfold dryice_rtc_probe.
  unfold bind at 1. unfold dev_request_mem_resource.
  destruct (p_dev_request_mem_resource P s) as [res sa].
  destruct (IS_ERR res); [reflexivity|].
  unfold bind at 1. unfold clk_get.
  destruct (p_clk_get P sa) as [clk sb].
  destruct (IS_ERR clk); [reflexivity|].
  unfold bind at 1. unfold clk_enable.
  destruct (p_clk_enable P sb) as [rc0 sc].
  destruct (negb (rc0 =? 0)); [reflexivity|].
  unfold bind at 1. unfold writel at 1. change (u32 0) with 0.
  unfold bind at 1.
  destruct (di_handle_state (p_writel P 0 DIER sc)) as [[[rc se] t2]|];
    [|reflexivity].
  cbv zeta.
  destruct (negb (rc =? 0)).
  { unfold_prims. cbn [app]. rewrite <- ?app_assoc. reflexivity. }
  unfold bind at 1. unfold nvmem_register.
  destruct (p_nvmem_register P se) as [nv sf].
  destruct (CONFIG_NVMEM P && IS_ERR nv).
  { unfold_prims. cbn [app]. rewrite <- ?app_assoc. reflexivity. }
  unfold bind at 1. unfold rtc_register.
  destruct (p_rtc_register P sf) as [rc2 sg].
  destruct (negb (rc2 =? 0)); unfold_prims; cbn [app];
    rewrite <- ?app_assoc; reflexivity.
Qed.

Lemma unit_events_only : forall t e,
  forallb unit_event t = true -> In e t -> unit_event e = true.
Proof.
  intros t e H Hin. rewrite forallb_forall in H. apply H. exact Hin.
Qed.

(** X12. [dryice_rtc_probe] balances the clock.  Its trace holds a
    [clk_disable] exactly when the clock was enabled with success and
    the probe did not end with a successful registration of the
    calendar time; a successful registration of the calendar time makes
    the result 0; and no event follows a [clk_disable]. *)
Theorem dryice_rtc_probe_clock_balance :
  forall (P : Platform) (s : pstate P),
    exists rc s' t,
      dryice_rtc_probe s = Some (rc, s', t)
      /\ (In EvClkDisable t
          <-> In (EvClkEnable 0) t /\ ~ In (EvRtcRegister 0) t)
      /\ (In (EvRtcRegister 0) t -> rc = 0)
      /\ (forall t1 t2, t = t1 ++ EvClkDisable :: t2 -> t2 = []).
Proof.
  intros P s. rewrite dryice_rtc_probe_run.
  destruct (p_dev_request_mem_resource P s) as [res sa].
  assert (Hsplit : forall (pre : list event) (tl t1 t2 : list event),
            ~ In EvClkDisable pre ->
            (tl = [] \/ tl = [EvClkDisable]) ->
            pre ++ tl = t1 ++ EvClkDisable :: t2 -> t2 = []).
  { intros pre tl t1 t2 Hpre Htl Heq.
    destruct Htl as [->| ->].
    - exfalso. apply Hpre. rewrite app_nil_r in Heq. rewrite Heq.
      apply in_or_app. right. left. reflexivity.
    - destruct t2 as [|e t2] using rev_ind; [reflexivity|].
      exfalso. clear IHt2.
      change (t1 ++ EvClkDisable :: t2 ++ [e])
        with (t1 ++ (EvClkDisable :: t2) ++ [e]) in Heq.
      rewrite app_assoc in Heq.
      apply app_inj_tail in Heq. destruct Heq as [Heq _].
      apply Hpre. rewrite Heq. apply in_or_app. right. left. reflexivity. }
  destruct (IS_ERR res).
  { eexists; eexists; eexists. split; [reflexivity|].
    split; [|split].
    - split.
      + intros [H|H]; [discriminate H|contradiction].
      + intros [[H|H] _]; [discriminate H|contradiction].
    - intros [H|H]; [discriminate H|contradiction].
    - intros t1 t2 H.
      apply (Hsplit [EvRequestMem res] [] t1 t2); auto.
      intros [H'|H']; [discriminate H'|contradiction]. }
  destruct (p_clk_get P sa) as [clk sb].
  destruct (IS_ERR clk).
  { eexists; eexists; eexists. split; [reflexivity|].
    split; [|split].
    - split.
      + intros [H|[H|H]]; try discriminate H; contradiction.
      + intros [[H|[H|H]] _]; try discriminate H; contradiction.
    - intros [H|[H|H]]; try discriminate H; contradiction.
    - intros t1 t2 H.
      apply (Hsplit [EvRequestMem res; EvClkGet clk] [] t1 t2); auto.
      intros [H'|[H'|H']]; try discriminate H'; contradiction. }
  destruct (p_clk_enable P sb) as [rc0 sc].
  destruct (Z.eqb_spec rc0 0) as [->|Hne0]; cbn [negb].
  2: { eexists; eexists; eexists. split; [reflexivity|].
       split; [|split].
       - split.
         + intros [H|[H|[H|H]]]; try discriminate H; contradiction.
         + intros [[H|[H|[H|H]]] _]; try discriminate H; try contradiction.
           inversion H. contradiction.
       - intros [H|[H|[H|H]]]; try discriminate H; contradiction.
       - intros t1 t2 H.
         apply (Hsplit [EvRequestMem res; EvClkGet clk; EvClkEnable rc0]
                  [] t1 t2); auto.
         intros [H'|[H'|[H'|H']]]; try discriminate H'; contradiction. }
  destruct (tame_di_handle_state P (p_writel P 0 DIER sc))
    as [rc [se [t2 [Hrun Hu]]]].
  rewrite Hrun. cbv zeta.
  set (pre := [EvRequestMem res; EvClkGet clk; EvClkEnable 0;
               EvWritel 0 DIER] ++ t2).
  assert (Hen : In (EvClkEnable 0) pre).
  { subst pre. right. right. left. reflexivity. }
  assert (Hno : forall e, unit_event e = false -> e <> EvRequestMem res ->
                  e <> EvClkGet clk -> e <> EvClkEnable 0 -> ~ In e pre).
  { intros e He H1 H2 H3 Hin. subst pre.
    destruct Hin as [H|[H|[H|[H|H]]]]; try (symmetry in H; contradiction).
    - subst e. discriminate He.
    - rewrite (unit_events_only t2 e Hu H) in He. discriminate He. }
  assert (Hnd : ~ In EvClkDisable pre)
    by (apply Hno; [reflexivity|discriminate..]).
  assert (Hnr : ~ In (EvRtcRegister 0) pre)
    by (apply Hno; [reflexivity|discriminate..]).
  destruct (negb (rc =? 0)).
  { eexists; eexists; eexists. split; [reflexivity|].
    split; [|split].
    - split.
      + intros _. split; [apply in_or_app; left; exact Hen|].
        intros H. apply in_app_or in H. destruct H as [H|[H|H]];
          [exact (Hnr H)|discriminate H|contradiction].
      + intros _. apply in_or_app. right. left. reflexivity.
    - intros H. apply in_app_or in H. destruct H as [H|[H|H]];
        [destruct (Hnr H)|discriminate H|contradiction].
    - intros t1 t3 H. apply (Hsplit pre [EvClkDisable] t1 t3); auto. }
  destruct (p_nvmem_register P se) as [nv sf].
  destruct (CONFIG_NVMEM P && IS_ERR nv).
  { eexists; eexists; eexists. split; [reflexivity|].
    split; [|split].
    - split.
      + intros _. split; [apply in_or_app; left; exact Hen|].
        intros H. apply in_app_or in H. destruct H as [H|[H|[H|H]]];
          [exact (Hnr H)|discriminate H|discriminate H|contradiction].
      + intros _. apply in_or_app. right. right. left. reflexivity.
    - intros H. apply in_app_or in H. destruct H as [H|[H|[H|H]]];
        [destruct (Hnr H)|discriminate H|discriminate H|contradiction].
    - intros t1 t3 H.
      apply (Hsplit (pre ++ [EvNvmemRegister nv]) [EvClkDisable] t1 t3);
        auto.
      + intros H'. apply in_app_or in H'. destruct H' as [H'|[H'|H']];
          [exact (Hnd H')|discriminate H'|contradiction].
      + rewrite <- app_assoc. exact H. }
  destruct (p_rtc_register P sf) as [rc2 sg].
  destruct (Z.eqb_spec rc2 0) as [->|Hne2]; cbn [negb].
  - eexists; eexists; eexists. split; [reflexivity|].
    split; [|split].
    + split.
      * intros H. exfalso. apply in_app_or in H.
        destruct H as [H|[H|[H|H]]];
          [exact (Hnd H)|discriminate H|discriminate H|contradiction].
      * intros [_ H]. exfalso. apply H. apply in_or_app. right. right.
        left. reflexivity.
    + intros _. reflexivity.
    + intros t1 t3 H.
      apply (Hsplit (pre ++ [EvNvmemRegister nv; EvRtcRegister 0]) []
               t1 t3); auto.
      * intros H'. apply in_app_or in H'. destruct H' as [H'|[H'|[H'|H']]];
          [exact (Hnd H')|discriminate H'|discriminate H'|contradiction].
      * rewrite app_nil_r. exact H.
  - eexists; eexists; eexists. split; [reflexivity|].
    split; [|split].
    + split.
      * intros _. split; [apply in_or_app; left; exact Hen|].
        intros H. apply in_app_or in H.
        destruct H as [H|[H|[H|[H|H]]]];
          [exact (Hnr H)|discriminate H| |discriminate H|contradiction].
        inversion H. contradiction.
      * intros _. apply in_or_app. right. right. right. left. reflexivity.
    + intros H. apply in_app_or in H.
      destruct H as [H|[H|[H|[H|H]]]];
        [destruct (Hnr H)|discriminate H| |discriminate H|contradiction].
      inversion H. contradiction.
    + intros t1 t3 H.
      apply (Hsplit (pre ++ [EvNvmemRegister nv; EvRtcRegister rc2])
               [EvClkDisable] t1 t3); auto.
      * intros H'. apply in_app_or in H'. destruct H' as [H'|[H'|[H'|H']]];
          [exact (Hnd H')|discriminate H'|discriminate H'|contradiction].
      * rewrite <- app_assoc. exact H.
Qed.

(** X13. After a successful recovery the probe registers the NVRAM
    word first.  When NVMEM support is configured and that registration
    fails, the probe disables the clock and returns the error without
    registering the calendar time.  When NVMEM support is not
    configured, a failed registration is ignored: the calendar time is
    registered all the same and its result is the result of the
    probe. *)
Theorem dryice_rtc_probe_nvmem_gate :
  forall (P : Platform) (s sa sb sc se sf : pstate P) t2 nv,
    p_dev_request_mem_resource P s = (Ptr, sa) ->
    p_clk_get P sa = (Ptr, sb) ->
    p_clk_enable P sb = (0, sc) ->
    di_handle_state (p_writel P 0 DIER sc) = Some (0, se, t2) ->
    p_nvmem_register P se = (nv, sf) ->
    (CONFIG_NVMEM P = true -> IS_ERR nv = true ->
     exists t,
       dryice_rtc_probe s = Some (PTR_ERR nv, p_clk_disable P sf, t)
       /\ registrations t = [EvNvmemRegister nv])
    /\ (CONFIG_NVMEM P = false \/ IS_ERR nv = false ->
        exists s' t,
          dryice_rtc_probe s = Some (fst (p_rtc_register P sf), s', t)
          /\ registrations t
             = [EvNvmemRegister nv;
                EvRtcRegister (fst (p_rtc_register P sf))]).
Proof.
  intros P s sa sb sc se sf t2 nv Hres Hclk Hen Hrun Hnv.
  rewrite dryice_rtc_probe_run, Hres. cbn [IS_ERR].
  rewrite Hclk. cbn [IS_ERR]. rewrite Hen. cbn [Z.eqb negb].
  rewrite Hrun. cbv zeta. cbn [Z.eqb negb]. rewrite Hnv.
  assert (Hreg : registrations t2 = []).
  { destruct (di_handle_state_returns P (p_writel P 0 DIER sc))
      as [rc' [se' [t2' [Hrun' Hreg]]]].
    rewrite Hrun in Hrun'. inversion Hrun'; subst. exact Hreg. }
  split.
  - intros Hcfg Herr. rewrite Hcfg, Herr. cbn [andb].
    eexists. split; [reflexivity|].
    rewrite !registrations_app, Hreg. reflexivity.
  - intros Hgate.
    assert (Hc : CONFIG_NVMEM P && IS_ERR nv = false).
    { destruct Hgate as [H|H]; rewrite H;
        [reflexivity|apply andb_false_r]. }
    rewrite Hc.
    destruct (p_rtc_register P sf) as [rc2 sg]. cbn [fst].
    destruct (Z.eqb_spec rc2 0) as [->|Hne]; cbn [negb];
      eexists; eexists; (split; [reflexivity|]);
      rewrite !registrations_app, Hreg; reflexivity.
Qed.

Lemma dryice_rtc_probe_nvmem_gate_witness :
  (exists t,
     dryice_rtc_probe (P := Script.platform) [0; 0; 0; 0; 5; 0]
       = Some (5, [0], t)
     /\ registrations t = [EvNvmemRegister (ErrPtr 5)])
  /\ (exists s' t,
        dryice_rtc_probe (P := script_without_nvmem) [0; 0; 0; 0; 5; 0]
          = Some (0, s', t)
        /\ registrations t
           = [EvNvmemRegister (ErrPtr 5); EvRtcRegister 0]).
Proof.
  split.
  - apply (proj1 (dryice_rtc_probe_nvmem_gate Script.platform
                    [0; 0; 0; 0; 5; 0] [0; 0; 0; 5; 0] [0; 0; 5; 0]
                    [0; 5; 0] [5; 0] [0]
                    [EvReadl DSR 0;
                     EvLog LNotice "Unlocked unit detected" [];
                     EvWritel DCAMR_UNSET DCAMR; EvUdelay 130;
                     EvWritel 0 DCALR; EvUdelay 130]
                    (ErrPtr 5) eq_refl eq_refl eq_refl eq_refl eq_refl));
      reflexivity.
  - apply (proj2 (dryice_rtc_probe_nvmem_gate script_without_nvmem
                    [0; 0; 0; 0; 5; 0] [0; 0; 0; 5; 0] [0; 0; 5; 0]
                    [0; 5; 0] [5; 0] [0]
                    [EvReadl DSR 0;
                     EvLog LNotice "Unlocked unit detected" [];
                     EvWritel DCAMR_UNSET DCAMR; EvUdelay 130;
                     EvWritel 0 DCALR; EvUdelay 130]
                    (ErrPtr 5) eq_refl eq_refl eq_refl eq_refl eq_refl)).
    left. reflexivity.
Defined.

(** * The keypad port *)

Module KppFacts.

Import Kpp.

Local Notation "x <~ m ;; k" := (kbind m (fun x => k))
  (at level 61, m at next level, right associativity).
Local Notation "m ;;~ k" := (kbind m (fun _ => k))
  (at level 61, right associativity).

(** ** Running keypad code *)

Lemma kres_bind : forall (B : Bus) (A C : Type) (m : K B A)
    (f : A -> K B C) h,
  kres (kbind m f) h = kres (f (kres m h)) (kst m h).
Proof.
  intros B A C m f h. unfold kres, kst, kbind.
  destruct (m h) as [[a h1] t1]. cbn [fst snd].
  destruct (f a h1) as [[c h2] t2]. reflexivity.
Qed.

Lemma kst_bind : forall (B : Bus) (A C : Type) (m : K B A)
    (f : A -> K B C) h,
  kst (kbind m f) h = kst (f (kres m h)) (kst m h).
Proof.
  intros B A C m f h. unfold kres, kst, kbind.
  destruct (m h) as [[a h1] t1]. cbn [fst snd].
  destruct (f a h1) as [[c h2] t2]. reflexivity.
Qed.

Lemma ktr_bind : forall (B : Bus) (A C : Type) (m : K B A)
    (f : A -> K B C) h,
  ktr (kbind m f) h = ktr m h ++ ktr (f (kres m h)) (kst m h).
Proof.
  intros B A C m f h. unfold kres, kst, ktr, kbind.
  destruct (m h) as [[a h1] t1]. cbn [fst snd].
  destruct (f a h1) as [[c h2] t2]. reflexivity.
Qed.

Lemma ktr_readw : forall (B : Bus) reg (h : bstate B),
  ktr (readw reg) h = [KReadw reg (kres (readw reg) h)].
Proof.
  intros B reg h. unfold ktr, kres, readw.
  destruct (b_readw B reg h) as [v h1]. reflexivity.
Qed.

Lemma reports_app : forall t1 t2,
  reports (t1 ++ t2) = reports t1 ++ reports t2.
Proof.
  induction t1 as [|e t1 IH]; intros t2; cbn [app reports].
  - reflexivity.
  - destruct e; cbn [app]; rewrite IH; reflexivity.
Qed.

Lemma kwrites_app : forall t1 t2,
  kwrites (t1 ++ t2) = kwrites t1 ++ kwrites t2.
Proof.
  induction t1 as [|e t1 IH]; intros t2; cbn [app kwrites].
  - reflexivity.
  - destruct e; cbn [app]; rewrite IH; reflexivity.
Qed.

(** ** Arrays *)

Lemma aset_nat_length : forall a n v,
  List.length (aset_nat a n v) = List.length a.
Proof.
  induction a as [|x a IH]; intros n v; [reflexivity|].
  destruct n; cbn [aset_nat List.length]; [reflexivity|].
  rewrite IH. reflexivity.
Qed.

Lemma aset_length : forall a i v, List.length (aset a i v) = List.length a.
Proof. intros. apply aset_nat_length. Qed.

Lemma nth_aset_nat_same : forall a n v,
  (n < List.length a)%nat -> nth n (aset_nat a n v) 0 = v.
Proof.
  induction a as [|x a IH]; intros n v H; cbn [List.length] in H; [lia|].
  destruct n; cbn [aset_nat nth]; [reflexivity|]. apply IH. lia.
Qed.

Lemma nth_aset_nat_other : forall a n m v,
  n <> m -> nth m (aset_nat a n v) 0 = nth m a 0.
Proof.
  induction a as [|x a IH]; intros n m v H; [reflexivity|].
  destruct n, m; cbn [aset_nat nth]; try reflexivity; try congruence.
  apply IH. congruence.
Qed.

Lemma aget_aset_same : forall a i v,
  0 <= i -> (Z.to_nat i < List.length a)%nat -> aget (aset a i v) i = v.
Proof. intros. apply nth_aset_nat_same. assumption. Qed.

Lemma aget_aset_other : forall a i j v,
  0 <= i -> 0 <= j -> i <> j -> aget (aset a i v) j = aget a j.
Proof.
  intros a i j v Hi Hj H. apply nth_aset_nat_other. lia.
Qed.

(** ** Scanning the matrix *)

Lemma bit_test : forall x k, 0 <= k ->
  (Z.land x (Z.shiftl 1 k) =? 0) = negb (Z.testbit x k).
Proof.
  intros x k Hk. pose proof (tst_bit x k Hk) as H. unfold tst in H.
  rewrite <- H. rewrite negb_involutive. reflexivity.
Qed.

Lemma In_indices : forall j, In j indices <-> 0 <= j < 8.
Proof.
  intros j. unfold indices. cbn [In]. lia.
Qed.

Lemma NoDup_indices : NoDup indices.
Proof.
  unfold indices.
  repeat (constructor; [cbn [In]; lia|]). constructor.
Qed.

Lemma u16_bits : forall x k, 0 <= k ->
  Z.testbit (u16 x) k = true -> Z.testbit x k = true /\ k < 16.
Proof.
  intros x k Hk H. unfold u16 in H.
  destruct (Z_lt_le_dec k 16) as [Hlt|Hge].
  - rewrite Z.mod_pow2_bits_low in H by lia. auto.
  - rewrite Z.mod_pow2_bits_high in H by lia. discriminate H.
Qed.

(** One enabled column of the scan: the entry of the column becomes
    the complement of a value read, masked by the enabled rows. *)
Lemma scan_columns_step :
  forall (B : Bus) (keypad : imx_keypad) col cols vol (h : bstate B),
    0 <= col ->
    Z.testbit (cols_en_mask keypad) col = true ->
    exists r (h' : bstate B),
      kres (scan_columns keypad (col :: cols) vol) h
        = kres (scan_columns keypad cols
                  (aset vol col
                     (u16 (Z.land (Z.lnot r) (rows_en_mask keypad))))) h'.
Proof.
  intros B keypad col cols vol h Hc Hen. cbn [scan_columns].
  rewrite bit_test, Hen by assumption. cbn [negb].
  repeat rewrite kres_bind. eexists. eexists. reflexivity.
Qed.

Lemma scan_columns_spec :
  forall (B : Bus) (keypad : imx_keypad) cols vol (h : bstate B),
    NoDup cols -> (forall c, In c cols -> 0 <= c) ->
    let vol' := kres (scan_columns keypad cols vol) h in
    List.length vol' = List.length vol
    /\ forall j, 0 <= j ->
         (In j cols -> Z.testbit (cols_en_mask keypad) j = true ->
          (Z.to_nat j < List.length vol)%nat ->
          forall k, 0 <= k -> Z.testbit (aget vol' j) k = true ->
                    Z.testbit (rows_en_mask keypad) k = true /\ k < 16)
         /\ (~ (In j cols /\ Z.testbit (cols_en_mask keypad) j = true) ->
             aget vol' j = aget vol j).
Proof.
  intros B keypad cols. induction cols as [|col cols IH];
    intros vol h Hnd Hpos; cbv zeta.
  - split; [reflexivity|]. intros j Hj. split.
    + intros [].
    + intros _. reflexivity.
  - inversion Hnd as [|? ? Hnotin Hnd']; subst.
    assert (Hc : 0 <= col) by (apply Hpos; left; reflexivity).
    assert (Hpos' : forall c, In c cols -> 0 <= c)
      by (intros c Hin; apply Hpos; right; exact Hin).
    destruct (Z.testbit (cols_en_mask keypad) col) eqn:Hen.
    + destruct (scan_columns_step B keypad col cols vol h Hc Hen)
        as [r [h' Hstep]].
      rewrite Hstep.
      set (x := u16 (Z.land (Z.lnot r) (rows_en_mask keypad))).
      specialize (IH (aset vol col x) h' Hnd' Hpos'). cbv zeta in IH.
      destruct IH as [Hlen IH]. rewrite aset_length in Hlen.
      split; [exact Hlen|]. intros j Hj. specialize (IH j Hj).
      destruct IH as [IHin IHout]. split.
      * intros Hin Henj Hrange k Hk Hbit.
        destruct Hin as [->|Hin].
        -- rewrite IHout in Hbit by (intros [Hin _]; exact (Hnotin Hin)).
           rewrite aget_aset_same in Hbit by assumption.
           subst x. apply u16_bits in Hbit; [|exact Hk].
           destruct Hbit as [Hbit Hlt]. rewrite Z.land_spec in Hbit.
           apply andb_true_iff in Hbit. destruct Hbit as [_ Hbit].
           split; assumption.
        -- apply (IHin Hin Henj); [rewrite aset_length|exact Hk|exact Hbit].
           exact Hrange.
      * intros Hout. rewrite IHout.
        -- apply aget_aset_other; try assumption.
           intros ->. apply Hout. split; [left; reflexivity|exact Hen].
        -- intros [Hin Henj]. apply Hout. split; [right|]; assumption.
    + cbn [scan_columns]. rewrite bit_test, Hen by assumption. cbn [negb].
      specialize (IH vol h Hnd' Hpos'). cbv zeta in IH.
      destruct IH as [Hlen IH]. split; [exact Hlen|].
      intros j Hj. specialize (IH j Hj). destruct IH as [IHin IHout]. split.
      * intros Hin Henj. destruct Hin as [->|Hin].
        -- rewrite Hen in Henj. discriminate Henj.
        -- apply (IHin Hin Henj).
      * intros Hout. apply IHout. intros [Hin Henj]. apply Hout.
        split; [right|]; assumption.
Qed.

Lemma u16_land_low : forall v, u16 (Z.land v 0xff) = Z.land v 0xff.
Proof.
  intros v. unfold u16. rewrite <- Z.land_ones by lia.
  rewrite <- Z.land_assoc. reflexivity.
Qed.

(** X14. [imx_keypad_scan_matrix] keeps the length of the array it
    fills.  The entry of an enabled column holds only bits of enabled
    rows (and none above bit 15); the entry of a column that is not
    enabled is left as it was.  The scan ends by reading the data
    register and writing it back with all column bits at 0. *)
Theorem scan_matrix_result :
  forall (B : Bus) (keypad : imx_keypad) (vol : list Z) (h : bstate B),
    let vol' := kres (imx_keypad_scan_matrix keypad vol) h in
    List.length vol' = List.length vol
    /\ (forall j k,
          0 <= j < 8 -> Z.testbit (cols_en_mask keypad) j = true ->
          (Z.to_nat j < List.length vol)%nat ->
          0 <= k -> Z.testbit (aget vol' j) k = true ->
          Z.testbit (rows_en_mask keypad) k = true /\ k < 16)
    /\ (forall j,
          0 <= j -> 8 <= j \/ Z.testbit (cols_en_mask keypad) j = false ->
          aget vol' j = aget vol j)
    /\ exists t0 v,
         ktr (imx_keypad_scan_matrix keypad vol) h
           = t0 ++ [KReadw KPDR v; KWritew (Z.land v 0xff) KPDR].
Proof.
  intros B keypad vol h. cbv zeta.
  assert (Hres : kres (imx_keypad_scan_matrix keypad vol) h
                 = kres (scan_columns keypad indices vol) h).
  { unfold imx_keypad_scan_matrix. repeat rewrite kres_bind. reflexivity. }
  rewrite Hres.
  destruct (scan_columns_spec B keypad indices vol h NoDup_indices)
    as [Hlen Hspec].
  { intros c Hc. apply In_indices in Hc. lia. }
  split; [exact Hlen|]. split; [|split].
  - intros j k Hj Hen Hrange Hk Hbit.
    destruct (Hspec j (proj1 Hj)) as [Hin _].
    apply (Hin (proj2 (In_indices j) Hj) Hen Hrange k Hk Hbit).
  - intros j Hj Hout. destruct (Hspec j Hj) as [_ Hkeep]. apply Hkeep.
    intros [Hin Hen]. apply In_indices in Hin.
    destruct Hout as [H8|Hdis]; [lia|].
    rewrite Hen in Hdis. discriminate Hdis.
  - unfold imx_keypad_scan_matrix.
    rewrite ktr_bind, ktr_bind, ktr_readw, ktr_bind.
    eexists. eexists.
    unfold ktr at 2, writew, kret. cbn [snd app].
    rewrite u16_land_low. reflexivity.
Qed.

(** ** Firing events *)

Lemma fire_rows_reports :
  forall (B : Bus) SC (keypad : imx_keypad) vol col bc rows (h : bstate B)
         code value,
    In (code, value) (reports (ktr (fire_rows SC keypad vol col bc rows) h))
    <-> exists row,
          In row rows
          /\ Z.land (rows_en_mask keypad) (Z.shiftl 1 row) <> 0
          /\ Z.land bc (Z.shiftl 1 row) <> 0
          /\ code = aget (keycodes keypad) (SC row col MATRIX_ROW_SHIFT)
          /\ value = Z.land (aget vol col) (Z.shiftl 1 row).
Proof.
  intros B SC keypad vol col bc rows. induction rows as [|row rows IH];
    intros h code value.
  - cbn. split; [intros []|intros [row [[] _]]].
  - cbn [fire_rows].
    destruct (Z.eqb_spec (Z.land (rows_en_mask keypad) (Z.shiftl 1 row)) 0)
      as [Hr|Hr].
    { rewrite IH. split.
      - intros [r [Hin H]]. exists r. split; [right; exact Hin|exact H].
      - intros [r [[->|Hin] [H1 H]]]; [contradiction|].
        exists r. split; [exact Hin|]. split; assumption. }
    destruct (Z.eqb_spec (Z.land bc (Z.shiftl 1 row)) 0) as [Hb|Hb].
    { rewrite IH. split.
      - intros [r [Hin H]]. exists r. split; [right; exact Hin|exact H].
      - intros [r [[->|Hin] [H1 [H2 H]]]]; [contradiction|].
        exists r. split; [exact Hin|]. split; [|split]; assumption. }
    cbv zeta. rewrite ktr_bind, ktr_bind, !reports_app.
    unfold ktr at 1 2. unfold input_report_key_event, klog.
    cbn [snd reports app]. cbn [In]. rewrite IH. split.
    + intros [Heq|[r [Hin H]]].
      * inversion Heq; subst. exists row.
        split; [left; reflexivity|]. repeat split; assumption.
      * exists r. split; [right; exact Hin|exact H].
    + intros [r [[->|Hin] [H1 [H2 [-> ->]]]]].
      * left. reflexivity.
      * right. exists r. repeat split; assumption.
Qed.

Lemma fire_columns_reports :
  forall (B : Bus) SC (keypad : imx_keypad) vol cols (h : bstate B)
         code value,
    In (code, value) (reports (ktr (fire_columns SC keypad vol cols) h))
    <-> exists row col,
          In col cols /\ In row indices
          /\ Z.land (cols_en_mask keypad) (Z.shiftl 1 col) <> 0
          /\ Z.land (rows_en_mask keypad) (Z.shiftl 1 row) <> 0
          /\ Z.land (u16 (Z.lxor (aget (matrix_stable_state keypad) col)
                            (aget vol col)))
               (Z.shiftl 1 row) <> 0
          /\ code = aget (keycodes keypad) (SC row col MATRIX_ROW_SHIFT)
          /\ value = Z.land (aget vol col) (Z.shiftl 1 row).
Proof.
  intros B SC keypad vol cols. induction cols as [|col cols IH];
    intros h code value.
  - cbn. split; [intros []|intros [row [col [[] _]]]].
  - cbn [fire_columns].
    assert (Hskip :
      (exists row c,
          In c cols /\ In row indices
          /\ Z.land (cols_en_mask keypad) (Z.shiftl 1 c) <> 0
          /\ Z.land (rows_en_mask keypad) (Z.shiftl 1 row) <> 0
          /\ Z.land (u16 (Z.lxor (aget (matrix_stable_state keypad) c)
                            (aget vol c)))
               (Z.shiftl 1 row) <> 0
          /\ code = aget (keycodes keypad) (SC row c MATRIX_ROW_SHIFT)
          /\ value = Z.land (aget vol c) (Z.shiftl 1 row))
      -> exists row c,
          In c (col :: cols) /\ In row indices
          /\ Z.land (cols_en_mask keypad) (Z.shiftl 1 c) <> 0
          /\ Z.land (rows_en_mask keypad) (Z.shiftl 1 row) <> 0
          /\ Z.land (u16 (Z.lxor (aget (matrix_stable_state keypad) c)
                            (aget vol c)))
               (Z.shiftl 1 row) <> 0
          /\ code = aget (keycodes keypad) (SC row c MATRIX_ROW_SHIFT)
          /\ value = Z.land (aget vol c) (Z.shiftl 1 row)).
    { intros [row [c [Hin H]]]. exists row, c.
      split; [right; exact Hin|exact H]. }
    destruct (Z.eqb_spec (Z.land (cols_en_mask keypad) (Z.shiftl 1 col)) 0)
      as [Hc|Hc].
    { rewrite IH. split; [exact Hskip|].
      intros [row [c [[->|Hin] [Hrow [H1 H]]]]]; [contradiction|].
      exists row, c. split; [exact Hin|]. split; [exact Hrow|].
      split; assumption. }
    cbv zeta.
    destruct (Z.eqb_spec
                (u16 (Z.lxor (aget (matrix_stable_state keypad) col)
                        (aget vol col))) 0) as [Hx|Hx].
    { rewrite IH. split; [exact Hskip|].
      intros [row [c [[->|Hin] [Hrow [H1 [H2 [H3 H]]]]]]].
      - exfalso. apply H3. rewrite Hx. apply Z.land_0_l.
      - exists row, c. split; [exact Hin|]. split; [exact Hrow|].
        split; [|split; [|split]]; assumption. }
    rewrite ktr_bind, reports_app, in_app_iff.
    rewrite fire_rows_reports, IH. split.
    + intros [[row [Hin [H1 [H2 [-> ->]]]]]|H].
      * exists row, col. split; [left; reflexivity|].
        repeat split; assumption.
      * apply Hskip. exact H.
    + intros [row [c [[->|Hin] [Hrow [H1 [H2 [H3 [-> ->]]]]]]]].
      * left. exists row. repeat split; assumption.
      * right. exists row, c. repeat split; assumption.
Qed.

(** The reports as a list: one for each position that changed, in the
    order of the two loops. *)
Lemma filter_none : forall (A : Type) (f : A -> bool) (l : list A),
  (forall x, In x l -> f x = false) -> filter f l = [].
Proof.
  intros A f l. induction l as [|x l IH]; intros H; [reflexivity|].
  cbn [filter]. rewrite (H x) by (left; reflexivity).
  apply IH. intros y Hy. apply H. right. exact Hy.
Qed.

Lemma filter_pairs : forall (A C : Type) (F : Z * Z -> C)
    (G : Z * Z -> bool) (col : Z) (l : list Z),
  map F (filter G (map (fun y => (col, y)) l))
    = map (fun row => F (col, row)) (filter (fun row => G (col, row)) l).
Proof.
  intros A C F G col l. induction l as [|y l IH]; [reflexivity|].
  cbn [map filter]. destruct (G (col, y)); cbn [map]; rewrite IH;
    reflexivity.
Qed.

Lemma fire_rows_list :
  forall (B : Bus) SC (keypad : imx_keypad) vol col bc rows (h : bstate B),
    (forall r, In r rows -> 0 <= r) ->
    reports (ktr (fire_rows SC keypad vol col bc rows) h)
      = map (fun row =>
               (aget (keycodes keypad) (SC row col MATRIX_ROW_SHIFT),
                Z.land (aget vol col) (Z.shiftl 1 row)))
          (filter (fun row =>
                     Z.testbit (rows_en_mask keypad) row
                     && Z.testbit bc row) rows).
Proof.
  intros B SC keypad vol col bc rows. induction rows as [|row rows IH];
    intros h Hpos; [reflexivity|].
  assert (Hrow : 0 <= row) by (apply Hpos; left; reflexivity).
  assert (Hpos' : forall r, In r rows -> 0 <= r)
    by (intros r Hr; apply Hpos; right; exact Hr).
  cbn [fire_rows filter]. rewrite !bit_test by assumption.
  destruct (Z.testbit (rows_en_mask keypad) row); cbn [negb andb];
    [|apply IH; assumption].
  destruct (Z.testbit bc row); cbn [negb]; [|apply IH; assumption].
  cbv zeta. rewrite ktr_bind, ktr_bind, !reports_app.
  unfold ktr at 1 2. unfold input_report_key_event, klog.
  cbn [snd reports app map]. rewrite IH by assumption. reflexivity.
Qed.

Lemma fire_columns_list :
  forall (B : Bus) SC (keypad : imx_keypad) vol cols (h : bstate B),
    (forall c, In c cols -> 0 <= c) ->
    reports (ktr (fire_columns SC keypad vol cols) h)
      = map (fun p =>
               (aget (keycodes keypad)
                  (SC (snd p) (fst p) MATRIX_ROW_SHIFT),
                if Z.testbit (aget vol (fst p)) (snd p)
                then Z.shiftl 1 (snd p) else 0))
          (filter (fun p =>
                     Z.testbit (cols_en_mask keypad) (fst p)
                     && Z.testbit (rows_en_mask keypad) (snd p)
                     && xorb (Z.testbit (aget (matrix_stable_state keypad)
                                           (fst p)) (snd p))
                             (Z.testbit (aget vol (fst p)) (snd p)))
             (list_prod cols indices)).
Proof.
  intros B SC keypad vol cols. induction cols as [|col cols IH];
    intros h Hpos; [reflexivity|].
  assert (Hcol : 0 <= col) by (apply Hpos; left; reflexivity).
  assert (Hpos' : forall c, In c cols -> 0 <= c)
    by (intros c Hc; apply Hpos; right; exact Hc).
  cbn [list_prod]. rewrite filter_app, map_app.
  rewrite (filter_pairs unit). cbn [fst snd].
  assert (Hbc : forall row, In row indices ->
            Z.testbit (u16 (Z.lxor (aget (matrix_stable_state keypad) col)
                              (aget vol col))) row
            = xorb (Z.testbit (aget (matrix_stable_state keypad) col) row)
                   (Z.testbit (aget vol col) row)).
  { intros row Hrow. apply In_indices in Hrow.
    unfold u16. rewrite Z.mod_pow2_bits_low, Z.lxor_spec by lia.
    reflexivity. }
  cbn [fire_columns]. rewrite bit_test by assumption.
  destruct (Z.testbit (cols_en_mask keypad) col) eqn:Hen; cbn [negb andb].
  2:{ rewrite (filter_none _ _ indices) by (intros; reflexivity).
      cbn [map app]. apply IH; assumption. }
  cbv zeta.
  destruct (Z.eqb_spec
              (u16 (Z.lxor (aget (matrix_stable_state keypad) col)
                      (aget vol col))) 0) as [Hx|Hx].
  { rewrite (filter_none _ _ indices).
    - cbn [map app]. apply IH; assumption.
    - intros row Hrow. rewrite <- (Hbc row Hrow), Hx, Z.bits_0.
      apply andb_false_r. }
  rewrite ktr_bind, reports_app.
  rewrite fire_rows_list
    by (intros r Hr; apply In_indices in Hr; lia).
  rewrite IH by assumption. f_equal.
  rewrite (filter_ext_in
             (fun row =>
                Z.testbit (rows_en_mask keypad) row
                && Z.testbit (u16 (Z.lxor (aget (matrix_stable_state keypad)
                                             col) (aget vol col))) row)
             (fun row =>
                Z.testbit (rows_en_mask keypad) row
                && xorb (Z.testbit (aget (matrix_stable_state keypad) col)
                           row)
                        (Z.testbit (aget vol col) row)))
    by (intros row Hrow; rewrite (Hbc row Hrow); reflexivity).
  apply map_ext_in. intros row Hrow. apply filter_In in Hrow.
  destruct Hrow as [Hrow _]. apply In_indices in Hrow.
  rewrite land_bit by lia. reflexivity.
Qed.

(** X15. [imx_keypad_fire_events] makes one report for each position
    (column 0 to 7, row 0 to 7) whose column and row are enabled and in
    which the scanned matrix differs from the stable one, in the order
    of the columns and, within a column, of the rows, and no other
    report: the list of its reports is the list of these positions,
    each turned into the key code of the position and the bit of the
    row in the scanned column (non-zero for a key now pressed, 0 for a
    key released).  So a pair is reported exactly when some such
    position yields it, and when the scan agrees with the stable matrix
    in every enabled column, nothing is reported. *)
Theorem fire_events_reports :
  forall (B : Bus) (SC : Z -> Z -> Z -> Z) (keypad : imx_keypad)
         (vol : list Z) (h : bstate B),
    let t := ktr (imx_keypad_fire_events SC keypad vol) h in
    reports t
      = map (fun p =>
               (aget (keycodes keypad)
                  (SC (snd p) (fst p) MATRIX_ROW_SHIFT),
                if Z.testbit (aget vol (fst p)) (snd p)
                then Z.shiftl 1 (snd p) else 0))
          (filter (fun p =>
                     Z.testbit (cols_en_mask keypad) (fst p)
                     && Z.testbit (rows_en_mask keypad) (snd p)
                     && xorb (Z.testbit (aget (matrix_stable_state keypad)
                                           (fst p)) (snd p))
                             (Z.testbit (aget vol (fst p)) (snd p)))
             (list_prod indices indices))
    /\ (forall code value,
       In (code, value) (reports t)
       <-> exists row col,
             0 <= row < 8 /\ 0 <= col < 8
             /\ Z.testbit (cols_en_mask keypad) col = true
             /\ Z.testbit (rows_en_mask keypad) row = true
             /\ Z.testbit (aget (matrix_stable_state keypad) col) row
                  <> Z.testbit (aget vol col) row
             /\ code = aget (keycodes keypad) (SC row col MATRIX_ROW_SHIFT)
             /\ value = (if Z.testbit (aget vol col) row
                         then Z.shiftl 1 row else 0))
    /\ ((forall col, 0 <= col < 8 ->
           Z.testbit (cols_en_mask keypad) col = true ->
           aget (matrix_stable_state keypad) col = aget vol col) ->
        reports t = []).
Proof.
  intros B SC keypad vol h. cbv zeta.
  assert (Hiff : forall code value,
       In (code, value)
         (reports (ktr (imx_keypad_fire_events SC keypad vol) h))
       <-> exists row col,
             0 <= row < 8 /\ 0 <= col < 8
             /\ Z.testbit (cols_en_mask keypad) col = true
             /\ Z.testbit (rows_en_mask keypad) row = true
             /\ Z.testbit (aget (matrix_stable_state keypad) col) row
                  <> Z.testbit (aget vol col) row
             /\ code = aget (keycodes keypad) (SC row col MATRIX_ROW_SHIFT)
             /\ value = (if Z.testbit (aget vol col) row
                         then Z.shiftl 1 row else 0)).
  { intros code value. unfold imx_keypad_fire_events.
    rewrite fire_columns_reports.
    assert (Hbits : forall x row, 0 <= row < 8 ->
              (Z.land x (Z.shiftl 1 row) <> 0 <-> Z.testbit x row = true)).
    { intros x row Hrow. pose proof (bit_test x row (proj1 Hrow)) as Hb.
      destruct (Z.eqb_spec (Z.land x (Z.shiftl 1 row)) 0) as [H0|H0];
        destruct (Z.testbit x row); cbn [negb] in Hb; try discriminate Hb;
        split; intros H; try assumption; try reflexivity;
        try contradiction; try discriminate H. }
    assert (Hxor : forall a b row, 0 <= row < 8 ->
              (Z.land (u16 (Z.lxor a b)) (Z.shiftl 1 row) <> 0
               <-> Z.testbit a row <> Z.testbit b row)).
    { intros a b row Hrow. rewrite Hbits by assumption.
      unfold u16. rewrite Z.mod_pow2_bits_low, Z.lxor_spec by lia.
      destruct (Z.testbit a row), (Z.testbit b row); cbn [xorb];
        split; intros H; try reflexivity; try discriminate H;
        try congruence. }
    split.
    - intros [row [col [Hc [Hr [H1 [H2 [H3 [-> ->]]]]]]]].
      apply In_indices in Hc. apply In_indices in Hr.
      exists row, col. split; [exact Hr|]. split; [exact Hc|].
      split; [apply Hbits; assumption|].
      split; [apply Hbits; assumption|].
      split; [apply Hxor; assumption|]. split; [reflexivity|].
      apply land_bit. lia.
    - intros [row [col [Hr [Hc [H1 [H2 [H3 [-> ->]]]]]]]].
      exists row, col. split; [apply In_indices; exact Hc|].
      split; [apply In_indices; exact Hr|].
      split; [apply Hbits; assumption|].
      split; [apply Hbits; assumption|].
      split; [apply Hxor; assumption|]. split; [reflexivity|].
      symmetry. apply land_bit. lia. }
  split.
  { unfold imx_keypad_fire_events. apply fire_columns_list.
    intros c Hc. apply In_indices in Hc. lia. }
  split; [exact Hiff|].
  intros Hsame.
  destruct (reports (ktr (imx_keypad_fire_events SC keypad vol) h))
    as [|[code value] l] eqn:Hl; [reflexivity|].
  exfalso.
  assert (Hin : In (code, value) ((code, value) :: l)) by (left; reflexivity).
  apply Hiff in Hin.
  destruct Hin as [row [col [Hr [Hc [H1 [H2 [H3 _]]]]]]].
  apply H3. rewrite (Hsame col Hc H1). reflexivity.
Qed.

(** ** The poll handler *)

Lemma ktr_writew : forall (B : Bus) val reg (h : bstate B),
  ktr (writew val reg) h = [KWritew (u16 val) reg].
Proof. reflexivity. Qed.

Lemma ktr_kudelay : forall (B : Bus) us (h : bstate B),
  ktr (kudelay us) h = [KUdelay us].
Proof. reflexivity. Qed.

Lemma ktr_kret : forall (B : Bus) (A : Type) (a : A) (h : bstate B),
  ktr (kret a) h = [].
Proof. reflexivity. Qed.

Lemma kres_kret : forall (B : Bus) (A : Type) (a : A) (h : bstate B),
  kres (kret a) h = a.
Proof. reflexivity. Qed.

(** The scan reports no key and writes only the data and the control
    register. *)
Lemma scan_columns_quiet :
  forall (B : Bus) (keypad : imx_keypad) cols vol (h : bstate B),
    reports (ktr (scan_columns keypad cols vol) h) = []
    /\ Forall (fun w => snd w = KPDR \/ snd w = KPCR)
         (kwrites (ktr (scan_columns keypad cols vol) h)).
Proof.
  intros B keypad cols. induction cols as [|col cols IH]; intros vol h.
  - split; [reflexivity|constructor].
  - cbn [scan_columns].
    destruct (Z.land (cols_en_mask keypad) (Z.shiftl 1 col) =? 0);
      [apply IH|].
    repeat rewrite ktr_bind.
    repeat rewrite ktr_readw. repeat rewrite ktr_writew.
    repeat rewrite ktr_kudelay.
    cbn [app reports kwrites].
    match goal with
    | |- context [ktr (scan_columns keypad cols ?v) ?st] =>
        destruct (IH v st) as [Hr Hw]
    end.
    split; [exact Hr|].
    repeat (constructor; [cbn [snd]; auto|]). exact Hw.
Qed.

Lemma scan_matrix_quiet :
  forall (B : Bus) (keypad : imx_keypad) vol (h : bstate B),
    reports (ktr (imx_keypad_scan_matrix keypad vol) h) = []
    /\ Forall (fun w => snd w = KPDR \/ snd w = KPCR)
         (kwrites (ktr (imx_keypad_scan_matrix keypad vol) h)).
Proof.
  intros B keypad vol h. unfold imx_keypad_scan_matrix.
  repeat rewrite ktr_bind. rewrite ktr_readw, ktr_writew, ktr_kret.
  rewrite reports_app, kwrites_app.
  destruct (scan_columns_quiet B keypad indices vol h) as [Hr Hw].
  rewrite Hr. split; [reflexivity|].
  apply Forall_app. split; [exact Hw|].
  cbn [app kwrites]. constructor; [cbn [snd]; auto|constructor].
Qed.

(** The reports of [imx_keypad_fire_events] depend on the masks, the
    key codes and the stable matrix only. *)
Lemma fire_rows_ext :
  forall (B : Bus) SC (k1 k2 : imx_keypad) vol col bc rows (h1 h2 : bstate B),
    rows_en_mask k1 = rows_en_mask k2 ->
    keycodes k1 = keycodes k2 ->
    ktr (fire_rows SC k1 vol col bc rows) h1
      = ktr (fire_rows SC k2 vol col bc rows) h2.
Proof.
  intros B SC k1 k2 vol col bc rows h1 h2 Hr Hk. revert h1 h2.
  induction rows as [|row rows IH]; intros h1 h2; [reflexivity|].
  cbn [fire_rows]. rewrite Hr, Hk.
  destruct (Z.land (rows_en_mask k2) (Z.shiftl 1 row) =? 0); [apply IH|].
  destruct (Z.land bc (Z.shiftl 1 row) =? 0); [apply IH|].
  cbv zeta. rewrite !ktr_bind.
  unfold ktr at 1 2 4 5. unfold input_report_key_event, klog. cbn [snd].
  f_equal. f_equal. apply IH.
Qed.

Lemma fire_events_ext :
  forall (B : Bus) SC (k1 k2 : imx_keypad) vol (h1 h2 : bstate B),
    rows_en_mask k1 = rows_en_mask k2 ->
    cols_en_mask k1 = cols_en_mask k2 ->
    keycodes k1 = keycodes k2 ->
    matrix_stable_state k1 = matrix_stable_state k2 ->
    ktr (imx_keypad_fire_events SC k1 vol) h1
      = ktr (imx_keypad_fire_events SC k2 vol) h2.
Proof.
  intros B SC k1 k2 vol h1 h2 Hr Hc Hk Hs.
  unfold imx_keypad_fire_events. revert h1 h2.
  induction indices as [|col cols IH]; intros h1 h2; [reflexivity|].
  cbn [fire_columns]. rewrite Hc, Hs.
  destruct (Z.land (cols_en_mask k2) (Z.shiftl 1 col) =? 0); [apply IH|].
  cbv zeta.
  destruct (u16 (Z.lxor (aget (matrix_stable_state k2) col) (aget vol col))
            =? 0); [apply IH|].
  rewrite !ktr_bind. f_equal; [apply fire_rows_ext; assumption|apply IH].
Qed.

Lemma state_changed_spec :
  forall (keypad : imx_keypad) vol cols,
    (forall c, In c cols -> 0 <= c) ->
    state_changed keypad vol cols = true
    <-> exists col,
          In col cols
          /\ Z.testbit (cols_en_mask keypad) col = true
          /\ aget (matrix_unstable_state keypad) col <> aget vol col.
Proof.
  intros keypad vol cols. induction cols as [|i cols IH]; intros Hpos.
  - cbn. split; [discriminate|intros [col [[] _]]].
  - assert (Hi : 0 <= i) by (apply Hpos; left; reflexivity).
    assert (Hpos' : forall c, In c cols -> 0 <= c)
      by (intros c Hc; apply Hpos; right; exact Hc).
    cbn [state_changed]. rewrite bit_test by assumption.
    destruct (Z.testbit (cols_en_mask keypad) i) eqn:Hen; cbn [negb].
    + destruct (Z.eqb_spec
                  (Z.lxor (aget (matrix_unstable_state keypad) i)
                     (aget vol i)) 0) as [Hx|Hx]; cbn [negb].
      * apply Z.lxor_eq in Hx. rewrite (IH Hpos'). split.
        -- intros [col [Hin H]]. exists col. split; [right|]; assumption.
        -- intros [col [[->|Hin] [H1 H2]]]; [contradiction|].
           exists col. repeat split; assumption.
      * split; [|reflexivity]. intros _. exists i.
        split; [left; reflexivity|]. split; [exact Hen|].
        intros Heq. apply Hx. rewrite Heq. apply Z.lxor_nilpotent.
    + rewrite (IH Hpos'). split.
      * intros [col [Hin H]]. exists col. split; [right|]; assumption.
      * intros [col [[->|Hin] [H1 H2]]].
        -- rewrite Hen in H1. discriminate H1.
        -- exists col. repeat split; assumption.
Qed.

Lemma is_zero_matrix_spec : forall vol cols,
  is_zero_matrix vol cols = true <-> forall i, In i cols -> aget vol i = 0.
Proof.
  intros vol cols. induction cols as [|i cols IH].
  - cbn. split; [intros _ i []|reflexivity].
  - cbn [is_zero_matrix].
    destruct (Z.eqb_spec (aget vol i) 0) as [Hz|Hz]; cbn [negb].
    + rewrite IH. split.
      * intros H j [->|Hj]; [exact Hz|apply H; exact Hj].
      * intros H j Hj. apply H. right. exact Hj.
    + split; [discriminate|]. intros H. exfalso. apply Hz. apply H.
      left. reflexivity.
Qed.

(** The driver state after the debounce bookkeeping of one poll. *)
Lemma check_for_events_run :
  forall (B : Bus) SC (keypad : imx_keypad) (h : bstate B),
    let vol := kres (imx_keypad_scan_matrix keypad [0; 0; 0; 0; 0; 0; 0; 0]) h in
    let k1 := if state_changed keypad vol indices
              then with_unstable keypad vol
              else with_count keypad (int_incr (stable_count keypad)) in
    kres (imx_keypad_check_for_events SC keypad) h
      = (if stable_count k1 <? 3 then k1
         else if stable_count k1 =? 3 then with_stable k1 vol else k1)
    /\ reports (ktr (imx_keypad_check_for_events SC keypad) h)
         = (if stable_count k1 <? 3 then []
            else if stable_count k1 =? 3
                 then reports (ktr (imx_keypad_fire_events SC keypad vol) h)
                 else []).
Proof.
  intros B SC keypad h. cbv zeta. unfold imx_keypad_check_for_events.
  rewrite kres_bind, ktr_bind, reports_app.
  rewrite (proj1 (scan_matrix_quiet B keypad _ h)). cbn [app].
  set (vol := kres (imx_keypad_scan_matrix keypad [0; 0; 0; 0; 0; 0; 0; 0]) h).
  set (h1 := kst (imx_keypad_scan_matrix keypad [0; 0; 0; 0; 0; 0; 0; 0]) h).
  cbv zeta.
  set (k1 := if state_changed keypad vol indices
             then with_unstable keypad vol
             else with_count keypad (int_incr (stable_count keypad))).
  change IMX_KEYPAD_SCANS_FOR_STABILITY with 3.
  destruct (stable_count k1 <? 3); [split; reflexivity|].
  rewrite kres_bind, ktr_bind, kres_bind, ktr_bind, kres_kret, ktr_kret.
  rewrite !reports_app.
  assert (Hpsr : forall st : bstate B,
            reports (ktr (if is_zero_matrix vol indices
               then reg_val <~ readw KPSR ;;
                    writew (Z.lor reg_val (Z.lor KBD_STAT_KPKD KBD_STAT_KDSC))
                      KPSR ;;~
                    reg_val <~ readw KPSR ;;
                    writew (Z.land (Z.lor reg_val KBD_STAT_KDIE)
                              (Z.lnot KBD_STAT_KRIE)) KPSR
               else reg_val <~ readw KPSR ;;
                    writew (Z.lor reg_val (Z.lor KBD_STAT_KPKR KBD_STAT_KRSS))
                      KPSR ;;~
                    reg_val <~ readw KPSR ;;
                    writew (Z.land (Z.lor reg_val KBD_STAT_KRIE)
                              (Z.lnot KBD_STAT_KDIE)) KPSR) st) = []).
  { intros st. destruct (is_zero_matrix vol indices);
      repeat rewrite ktr_bind; repeat rewrite ktr_readw;
      repeat rewrite ktr_writew; reflexivity. }
  rewrite Hpsr. cbn [app]. rewrite app_nil_r.
  destruct (stable_count k1 =? 3).
  - rewrite kres_bind, ktr_bind, kres_kret, ktr_kret, app_nil_r.
    split; [reflexivity|]. f_equal.
    apply fire_events_ext; subst k1;
      destruct (state_changed keypad vol indices); reflexivity.
  - split; reflexivity.
Qed.

(** X16. One poll of [imx_keypad_check_for_events] never changes the
    masks or the key codes.  When the scan differs from the unstable
    matrix in an enabled column, the scan becomes the unstable matrix,
    the count of stable scans restarts at 0 and nothing is reported.
    When it agrees in every enabled column, the count goes up by one;
    keys are reported, and the scan becomes the stable matrix, only
    when the count thereby reaches 3; the reports are then those of
    [imx_keypad_fire_events] for this scan. *)
Theorem check_for_events_debounce :
  forall (B : Bus) (SC : Z -> Z -> Z -> Z) (keypad : imx_keypad)
         (h : bstate B),
    let vol :=
      kres (imx_keypad_scan_matrix keypad [0; 0; 0; 0; 0; 0; 0; 0]) h in
    let keypad' := kres (imx_keypad_check_for_events SC keypad) h in
    let t := ktr (imx_keypad_check_for_events SC keypad) h in
    rows_en_mask keypad' = rows_en_mask keypad
    /\ cols_en_mask keypad' = cols_en_mask keypad
    /\ keycodes keypad' = keycodes keypad
    /\ ((exists col,
           0 <= col < 8
           /\ Z.testbit (cols_en_mask keypad) col = true
           /\ aget (matrix_unstable_state keypad) col <> aget vol col) ->
        stable_count keypad' = 0
        /\ matrix_unstable_state keypad' = vol
        /\ matrix_stable_state keypad' = matrix_stable_state keypad
        /\ reports t = [])
    /\ ((forall col,
           0 <= col < 8 ->
           Z.testbit (cols_en_mask keypad) col = true ->
           aget (matrix_unstable_state keypad) col = aget vol col) ->
        stable_count keypad < 2 ^ 31 - 1 ->
        stable_count keypad' = stable_count keypad + 1
        /\ matrix_unstable_state keypad' = matrix_unstable_state keypad
        /\ (stable_count keypad + 1 = 3 ->
            matrix_stable_state keypad' = vol
            /\ reports t
               = reports (ktr (imx_keypad_fire_events SC keypad vol) h))
        /\ (stable_count keypad + 1 <> 3 ->
            matrix_stable_state keypad' = matrix_stable_state keypad
            /\ reports t = [])).
Proof.
  intros B SC keypad h. cbv zeta.
  destruct (check_for_events_run B SC keypad h) as [Hres Hrep].
  cbv zeta in Hres, Hrep. rewrite Hres, Hrep. clear Hres Hrep.
  set (vol := kres (imx_keypad_scan_matrix keypad [0; 0; 0; 0; 0; 0; 0; 0]) h).
  assert (Hpos : forall c, In c indices -> 0 <= c)
    by (intros c Hc; apply In_indices in Hc; lia).
  pose proof (state_changed_spec keypad vol indices Hpos) as Hsc.
  split; [|split; [|split; [|split]]].
  - destruct (state_changed keypad vol indices); cbn [stable_count];
      repeat match goal with
             | |- context [if ?c then _ else _] => destruct c
             end; reflexivity.
  - destruct (state_changed keypad vol indices); cbn [stable_count];
      repeat match goal with
             | |- context [if ?c then _ else _] => destruct c
             end; reflexivity.
  - destruct (state_changed keypad vol indices); cbn [stable_count];
      repeat match goal with
             | |- context [if ?c then _ else _] => destruct c
             end; reflexivity.
  - intros [col [Hc [Hen Hne]]].
    assert (Hch : state_changed keypad vol indices = true).
    { apply Hsc. exists col. split; [apply In_indices; exact Hc|].
      split; assumption. }
    rewrite Hch. cbn [stable_count with_unstable]. cbn [Z.ltb Z.compare].
    repeat split; reflexivity.
  - intros Hsame Hmax.
    assert (Hch : state_changed keypad vol indices = false).
    { destruct (state_changed keypad vol indices) eqn:E; [|reflexivity].
      exfalso. destruct (proj1 Hsc eq_refl) as [col [Hc [Hen Hne]]].
      apply Hne. apply Hsame; [apply In_indices; exact Hc|exact Hen]. }
    rewrite Hch. cbn [stable_count with_count].
    assert (Hinc : int_incr (stable_count keypad) = stable_count keypad + 1).
    { unfold int_incr.
      destruct (Z.eqb_spec (stable_count keypad) INT_MAX) as [Hmx|_];
        [unfold INT_MAX in Hmx; lia|reflexivity]. }
    rewrite Hinc.
    destruct (Z.ltb_spec (stable_count keypad + 1) 3) as [Hlt|Hge].
    + cbn [stable_count matrix_unstable_state matrix_stable_state].
      split; [reflexivity|]. split; [reflexivity|]. split.
      * intros H3. lia.
      * intros _. split; reflexivity.
    + destruct (Z.eqb_spec (stable_count keypad + 1) 3) as [H3|H3];
        cbn [with_stable stable_count matrix_unstable_state
             matrix_stable_state].
      * split; [reflexivity|]. split; [reflexivity|]. split.
        -- intros _. split; reflexivity.
        -- intros Hn. contradiction.
      * split; [reflexivity|]. split; [reflexivity|]. split.
        -- intros Hn. contradiction.
        -- intros _. split; reflexivity.
Qed.

Lemma kbind_ext : forall (B : Bus) (A C : Type) (m : K B A)
    (f g : A -> K B C) h,
  (forall a h1, f a h1 = g a h1) -> kbind m f h = kbind m g h.
Proof.
  intros B A C m f g h H. unfold kbind.
  destruct (m h) as [[a h1] t1]. rewrite H. reflexivity.
Qed.

(** The scan depends on the masks only. *)
Lemma scan_matrix_ext :
  forall (B : Bus) (k1 k2 : imx_keypad) vol (h : bstate B),
    rows_en_mask k1 = rows_en_mask k2 ->
    cols_en_mask k1 = cols_en_mask k2 ->
    imx_keypad_scan_matrix k1 vol h = imx_keypad_scan_matrix k2 vol h.
Proof.
  intros B k1 k2 vol h Hr Hc. unfold imx_keypad_scan_matrix.
  assert (Hcols : forall cols v (st : bstate B),
            scan_columns k1 cols v st = scan_columns k2 cols v st).
  { induction cols as [|col cols IH]; intros v st; [reflexivity|].
    cbn [scan_columns]. rewrite Hc, Hr.
    destruct (Z.land (cols_en_mask k2) (Z.shiftl 1 col) =? 0); [apply IH|].
    repeat (apply kbind_ext; intros). apply IH. }
  unfold kbind at 1 3. rewrite Hcols. reflexivity.
Qed.

Lemma state_unchanged_self :
  forall (keypad : imx_keypad) cols,
    state_changed keypad (matrix_unstable_state keypad) cols = false.
Proof.
  intros keypad cols. induction cols as [|i cols IH]; [reflexivity|].
  cbn [state_changed]. rewrite Z.lxor_nilpotent. cbn [Z.eqb negb].
  rewrite IH. destruct (Z.land _ _ =? 0); reflexivity.
Qed.

Lemma check_changed :
  forall (B : Bus) SC (keypad : imx_keypad) (h : bstate B) m,
    kres (imx_keypad_scan_matrix keypad [0; 0; 0; 0; 0; 0; 0; 0]) h = m ->
    state_changed keypad m indices = true ->
    kres (imx_keypad_check_for_events SC keypad) h = with_unstable keypad m
    /\ reports (ktr (imx_keypad_check_for_events SC keypad) h) = [].
Proof.
  intros B SC keypad h m Hm Hch.
  destruct (check_for_events_run B SC keypad h) as [Hres Hrep].
  cbv zeta in Hres, Hrep. rewrite Hm, Hch in Hres, Hrep.
  cbn [with_unstable stable_count Z.ltb Z.compare] in Hres, Hrep.
  split; assumption.
Qed.

Lemma check_same :
  forall (B : Bus) SC (keypad : imx_keypad) (h : bstate B),
    kres (imx_keypad_scan_matrix keypad [0; 0; 0; 0; 0; 0; 0; 0]) h
      = matrix_unstable_state keypad ->
    let n := int_incr (stable_count keypad) in
    let m := matrix_unstable_state keypad in
    kres (imx_keypad_check_for_events SC keypad) h
      = (if n <? 3 then with_count keypad n
         else if n =? 3 then with_stable (with_count keypad n) m
              else with_count keypad n)
    /\ reports (ktr (imx_keypad_check_for_events SC keypad) h)
         = (if n <? 3 then []
            else if n =? 3
                 then reports (ktr (imx_keypad_fire_events SC keypad m) h)
                 else []).
Proof.
  intros B SC keypad h Hm. cbv zeta.
  destruct (check_for_events_run B SC keypad h) as [Hres Hrep].
  cbv zeta in Hres, Hrep.
  rewrite Hm, state_unchanged_self in Hres, Hrep.
  cbn [with_count stable_count] in Hres, Hrep.
  split; assumption.
Qed.

(** X17. Debouncing.  Let a scan [m] that differs from the unstable
    matrix in an enabled column be seen by four polls in a row.  The
    first three polls report nothing; the fourth reports exactly what
    [imx_keypad_fire_events] reports for [m] against the stable matrix
    the driver started with, and makes [m] the stable matrix.  A fifth
    poll that sees [m] again reports nothing and keeps it. *)
Theorem debounce_four_scans :
  forall (B : Bus) (SC : Z -> Z -> Z -> Z) (kp0 : imx_keypad)
         (h0 : bstate B) (m : list Z),
    let poll := imx_keypad_check_for_events SC in
    let scan := fun h =>
      kres (imx_keypad_scan_matrix kp0 [0; 0; 0; 0; 0; 0; 0; 0]) h in
    let kp1 := kres (poll kp0) h0 in
    let h1 := kst (poll kp0) h0 in
    let kp2 := kres (poll kp1) h1 in
    let h2 := kst (poll kp1) h1 in
    let kp3 := kres (poll kp2) h2 in
    let h3 := kst (poll kp2) h2 in
    let kp4 := kres (poll kp3) h3 in
    let h4 := kst (poll kp3) h3 in
    scan h0 = m -> scan h1 = m -> scan h2 = m -> scan h3 = m ->
    (exists col,
       0 <= col < 8
       /\ Z.testbit (cols_en_mask kp0) col = true
       /\ aget (matrix_unstable_state kp0) col <> aget m col) ->
    reports (ktr (poll kp0) h0) = []
    /\ reports (ktr (poll kp1) h1) = []
    /\ reports (ktr (poll kp2) h2) = []
    /\ reports (ktr (poll kp3) h3)
       = reports (ktr (imx_keypad_fire_events SC kp0 m) h0)
    /\ matrix_stable_state kp4 = m
    /\ (scan h4 = m ->
        reports (ktr (poll kp4) h4) = []
        /\ matrix_stable_state (kres (poll kp4) h4) = m).
Proof.
  intros B SC kp0 h0 m poll scan kp1 h1 kp2 h2 kp3 h3 kp4 h4
    Hs0 Hs1 Hs2 Hs3 [col [Hc [Hen Hne]]].
  assert (Hch : state_changed kp0 m indices = true).
  { apply state_changed_spec.
    - intros c Hin. apply In_indices in Hin. lia.
    - exists col. split; [apply In_indices; exact Hc|]. split; assumption. }
  destruct (check_changed B SC kp0 h0 m Hs0 Hch) as [E1 R1].
  fold poll in E1, R1. fold kp1 in E1.
  assert (Hscan : forall (k : imx_keypad) h,
            rows_en_mask k = rows_en_mask kp0 ->
            cols_en_mask k = cols_en_mask kp0 ->
            kres (imx_keypad_scan_matrix k [0; 0; 0; 0; 0; 0; 0; 0]) h
              = scan h).
  { intros k h Hr Hcm. unfold scan, kres.
    rewrite (scan_matrix_ext B k kp0 _ h Hr Hcm). reflexivity. }
  destruct (check_same B SC kp1 h1) as [E2 R2].
  { rewrite Hscan by (rewrite E1; reflexivity). rewrite Hs1, E1.
    reflexivity. }
  fold poll in E2, R2. fold kp2 in E2. cbv zeta in E2, R2.
  rewrite E1 in E2, R2.
  cbn [with_unstable stable_count] in E2, R2.
  change (int_incr 0) with 1 in E2, R2.
  cbn [Z.ltb Z.compare Pos.compare Pos.compare_cont] in E2, R2.
  destruct (check_same B SC kp2 h2) as [E3 R3].
  { rewrite Hscan by (rewrite E2; reflexivity). rewrite Hs2, E2.
    reflexivity. }
  fold poll in E3, R3. fold kp3 in E3. cbv zeta in E3, R3.
  rewrite E2 in E3, R3.
  cbn [with_unstable with_count stable_count] in E3, R3.
  change (int_incr 1) with 2 in E3, R3.
  cbn [Z.ltb Z.compare Pos.compare Pos.compare_cont] in E3, R3.
  destruct (check_same B SC kp3 h3) as [E4 R4].
  { rewrite Hscan by (rewrite E3; reflexivity). rewrite Hs3, E3.
    reflexivity. }
  fold poll in E4, R4. fold kp4 in E4. cbv zeta in E4, R4.
  rewrite E3 in E4, R4.
  cbn [with_unstable with_count with_stable stable_count
       matrix_unstable_state] in E4, R4.
  change (int_incr 2) with 3 in E4, R4.
  cbn [Z.eqb Pos.eqb Z.ltb Z.compare Pos.compare Pos.compare_cont]
    in E4, R4.
  split; [exact R1|]. split; [rewrite E1; exact R2|]. split; [rewrite E2; exact R3|].
  split.
  { rewrite E3, R4. f_equal. apply fire_events_ext; reflexivity. }
  split; [rewrite E4; reflexivity|].
  intros Hs4.
  destruct (check_same B SC kp4 h4) as [E5 R5].
  { rewrite Hscan by (rewrite E4; reflexivity). rewrite Hs4, E4.
    reflexivity. }
  fold poll in E5, R5. cbv zeta in E5, R5.
  rewrite E4 in E5, R5.
  cbn [with_unstable with_count with_stable stable_count
       matrix_unstable_state matrix_stable_state] in E5, R5.
  change (int_incr 3) with 4 in E5, R5.
  cbn [Z.eqb Pos.eqb Z.ltb Z.compare Pos.compare Pos.compare_cont]
    in E5, R5.
  split; [rewrite E4; exact R5|]. rewrite E4, E5. reflexivity.
Qed.


(** ** Re-arming the interrupts *)

Lemma u16_testbit : forall x k, 0 <= k ->
  Z.testbit (u16 x) k = (k <? 16) && Z.testbit x k.
Proof.
  intros x k Hk. unfold u16.
  destruct (Z.ltb_spec k 16) as [Hlt|Hge]; cbn [andb].
  - apply Z.mod_pow2_bits_low. lia.
  - apply Z.mod_pow2_bits_high. lia.
Qed.

Lemma kres_readw : forall (B : Bus) reg (h : bstate B),
  kres (readw reg) h = u16 (fst (b_readw B reg h)).
Proof.
  intros B reg h. unfold kres, readw.
  destruct (b_readw B reg h) as [v h1]. reflexivity.
Qed.

Lemma fire_events_no_writes :
  forall (B : Bus) SC (keypad : imx_keypad) vol (h : bstate B),
    kwrites (ktr (imx_keypad_fire_events SC keypad vol) h) = [].
Proof.
  intros B SC keypad vol. unfold imx_keypad_fire_events.
  assert (Hrows : forall col bc rows (h : bstate B),
            kwrites (ktr (fire_rows SC keypad vol col bc rows) h) = []).
  { intros col bc rows. induction rows as [|row rows IH]; intros h;
      [reflexivity|].
    cbn [fire_rows].
    destruct (Z.land (rows_en_mask keypad) (Z.shiftl 1 row) =? 0);
      [apply IH|].
    destruct (Z.land bc (Z.shiftl 1 row) =? 0); [apply IH|].
    cbv zeta. rewrite !ktr_bind, !kwrites_app.
    unfold ktr at 1 2. unfold input_report_key_event, klog.
    cbn [snd kwrites app]. apply IH. }
  induction indices as [|col cols IH]; intros h; [reflexivity|].
  cbn [fire_columns].
  destruct (Z.land (cols_en_mask keypad) (Z.shiftl 1 col) =? 0); [apply IH|].
  cbv zeta.
  destruct (u16 (Z.lxor (aget (matrix_stable_state keypad) col)
                   (aget vol col)) =? 0); [apply IH|].
  rewrite ktr_bind, kwrites_app, Hrows, IH. reflexivity.
Qed.

(** The two register sequences that end a poll, for a matrix that is
    all zero ([z = true]) and for one that is not. *)
Lemma rearm_run :
  forall (B : Bus) (z : bool) (st : bstate B),
  exists v0 v1 a w,
    ktr (if z
         then reg_val <~ readw KPSR ;;
              writew (Z.lor reg_val (Z.lor KBD_STAT_KPKD KBD_STAT_KDSC))
                KPSR ;;~
              reg_val <~ readw KPSR ;;
              writew (Z.land (Z.lor reg_val KBD_STAT_KDIE)
                        (Z.lnot KBD_STAT_KRIE)) KPSR
         else reg_val <~ readw KPSR ;;
              writew (Z.lor reg_val (Z.lor KBD_STAT_KPKR KBD_STAT_KRSS))
                KPSR ;;~
              reg_val <~ readw KPSR ;;
              writew (Z.land (Z.lor reg_val KBD_STAT_KRIE)
                        (Z.lnot KBD_STAT_KDIE)) KPSR) st
      = [KReadw KPSR v0; KWritew a KPSR; KReadw KPSR v1; KWritew w KPSR]
    /\ (forall k, 0 <= k -> Z.testbit v0 k = true -> Z.testbit a k = true)
    /\ (forall k, 0 <= k < 16 -> k <> 8 -> k <> 9 ->
                  Z.testbit w k = Z.testbit v1 k)
    /\ (z = true ->
        Z.testbit a 0 = true /\ Z.testbit a 2 = true
        /\ Z.testbit w 8 = true /\ Z.testbit w 9 = false)
    /\ (z = false ->
        Z.testbit a 1 = true /\ Z.testbit a 3 = true
        /\ Z.testbit w 9 = true /\ Z.testbit w 8 = false).
Proof.
  intros B z st.
  assert (Hlow : forall x c k, 0 <= k ->
            Z.testbit (u16 x) k = true ->
            Z.testbit (u16 (Z.lor (u16 x) c)) k = true).
  { intros x c k Hk Hb. rewrite u16_testbit, Z.lor_spec, Hb by assumption.
    apply u16_bits in Hb; [|assumption].
    destruct (Z.ltb_spec k 16); [reflexivity|lia]. }
  assert (Hkeep : forall x k, 0 <= k < 16 -> k <> 8 -> k <> 9 ->
            (Z.testbit (u16 (Z.land (Z.lor x KBD_STAT_KDIE)
                               (Z.lnot KBD_STAT_KRIE))) k = Z.testbit x k)
            /\ (Z.testbit (u16 (Z.land (Z.lor x KBD_STAT_KRIE)
                                  (Z.lnot KBD_STAT_KDIE))) k
                = Z.testbit x k)).
  { intros x k Hk H8 H9. unfold KBD_STAT_KDIE, KBD_STAT_KRIE.
    rewrite !u16_testbit, !Z.land_spec, !Z.lor_spec, !Z.lnot_spec by lia.
    rewrite !shiftl_1_bits by lia.
    destruct (Z.ltb_spec k 16); [|lia].
    destruct (Z.eqb_spec k 8); [lia|]. destruct (Z.eqb_spec k 9); [lia|].
    cbn [andb orb negb]. rewrite !orb_false_r, !andb_true_r. auto. }
  destruct z; repeat rewrite ktr_bind; repeat rewrite ktr_readw;
    repeat rewrite ktr_writew; repeat rewrite kst_bind;
    repeat rewrite kres_readw; cbn [app];
    do 4 eexists; (split; [reflexivity|]);
    (split; [intros k Hk Hb; apply Hlow; assumption|]);
    (split; [intros k Hk H8 H9; apply Hkeep; assumption|]);
    (split; intros Hz; try discriminate Hz);
    rewrite !u16_testbit, !Z.land_spec, !Z.lor_spec, !Z.lnot_spec by lia;
    repeat split;
    repeat match goal with
           | |- context [Z.testbit (u16 ?x) ?k] => destruct (Z.testbit (u16 x) k)
           end; reflexivity.
Qed.

(** X18. How a poll leaves the keypad interrupts.  While the count of
    stable scans is below 3 after the poll, the status register is not
    written at all.  Otherwise the poll ends with two read-modify-write
    accesses of the status register and writes it nowhere else: the
    first keeps every bit that was read as set and adds the depress
    status and its synchroniser clear when no key is down in the scan,
    the release status and its synchroniser set when one is; the second
    keeps bits 0 to 7 and 10 to 15 as read and enables the depress
    interrupt alone when no key is down, the release interrupt alone
    when one is. *)
Theorem check_for_events_rearm :
  forall (B : Bus) (SC : Z -> Z -> Z -> Z) (keypad : imx_keypad)
         (h : bstate B),
    let vol :=
      kres (imx_keypad_scan_matrix keypad [0; 0; 0; 0; 0; 0; 0; 0]) h in
    let keypad' := kres (imx_keypad_check_for_events SC keypad) h in
    let t := ktr (imx_keypad_check_for_events SC keypad) h in
    (stable_count keypad' < 3 ->
     Forall (fun w => snd w <> KPSR) (kwrites t))
    /\ (3 <= stable_count keypad' ->
        exists t0 v0 v1 a w,
          t = t0 ++ [KReadw KPSR v0; KWritew a KPSR;
                     KReadw KPSR v1; KWritew w KPSR]
          /\ Forall (fun w => snd w <> KPSR) (kwrites t0)
          /\ (forall k, 0 <= k -> Z.testbit v0 k = true ->
                        Z.testbit a k = true)
          /\ (forall k, 0 <= k < 16 -> k <> 8 -> k <> 9 ->
                        Z.testbit w k = Z.testbit v1 k)
          /\ ((forall col, 0 <= col < 8 -> aget vol col = 0) ->
              Z.testbit a 0 = true /\ Z.testbit a 2 = true
              /\ Z.testbit w 8 = true /\ Z.testbit w 9 = false)
          /\ ((exists col, 0 <= col < 8 /\ aget vol col <> 0) ->
              Z.testbit a 1 = true /\ Z.testbit a 3 = true
              /\ Z.testbit w 9 = true /\ Z.testbit w 8 = false)).
Proof.
  intros B SC keypad h. cbv zeta.
  destruct (check_for_events_run B SC keypad h) as [Hres _].
  cbv zeta in Hres. rewrite Hres. clear Hres.
  unfold imx_keypad_check_for_events. rewrite ktr_bind.
  pose proof (proj2 (scan_matrix_quiet B keypad [0; 0; 0; 0; 0; 0; 0; 0] h))
    as Hscan.
  assert (Hq : Forall (fun w => snd w <> KPSR)
                 (kwrites (ktr (imx_keypad_scan_matrix keypad
                                  [0; 0; 0; 0; 0; 0; 0; 0]) h))).
  { eapply Forall_impl; [|exact Hscan].
    intros w [Hw|Hw]; rewrite Hw; discriminate. }
  clear Hscan.
  set (vol := kres (imx_keypad_scan_matrix keypad [0; 0; 0; 0; 0; 0; 0; 0]) h)
    in *.
  set (h1 := kst (imx_keypad_scan_matrix keypad [0; 0; 0; 0; 0; 0; 0; 0]) h).
  cbv zeta.
  set (k1 := if state_changed keypad vol indices
             then with_unstable keypad vol
             else with_count keypad (int_incr (stable_count keypad))).
  change IMX_KEYPAD_SCANS_FOR_STABILITY with 3.
  assert (Hcnt : stable_count
                   (if stable_count k1 <? 3 then k1
                    else if stable_count k1 =? 3 then with_stable k1 vol
                         else k1) = stable_count k1).
  { destruct (stable_count k1 <? 3); [reflexivity|].
    destruct (stable_count k1 =? 3); reflexivity. }
  rewrite Hcnt. clear Hcnt.
  destruct (Z.ltb_spec (stable_count k1) 3) as [Hlt|Hge].
  - split; [|lia]. intros _. rewrite ktr_kret, app_nil_r. exact Hq.
  - split; [lia|]. intros _.
    rewrite ktr_bind, ktr_bind, ktr_kret, app_nil_r, app_assoc.
    match goal with
    | |- context [ktr (if is_zero_matrix vol indices then _ else _) ?st] =>
        destruct (rearm_run B (is_zero_matrix vol indices) st)
          as [v0 [v1 [a [w [Htr [Hlow [Hkeep [Hz Hnz]]]]]]]]
    end.
    rewrite Htr. eexists. exists v0, v1, a, w.
    split; [reflexivity|]. split.
    { rewrite kwrites_app. apply Forall_app. split; [exact Hq|].
      destruct (stable_count k1 =? 3).
      - rewrite ktr_bind, ktr_kret, app_nil_r, fire_events_no_writes.
        constructor.
      - rewrite ktr_kret. constructor. }
    split; [exact Hlow|]. split; [exact Hkeep|]. split.
    + intros Hall. apply Hz. apply is_zero_matrix_spec.
      intros i Hi. apply Hall. apply In_indices. exact Hi.
    + intros [col [Hc Hne]]. apply Hnz.
      destruct (is_zero_matrix vol indices) eqn:E; [|reflexivity].
      exfalso. apply Hne.
      apply (proj1 (is_zero_matrix_spec vol indices) E).
      apply In_indices. exact Hc.
Qed.


(** ** The search for enabled rows and columns *)

Lemma low_bits_bound : forall x,
  (forall k, 0 <= k -> Z.testbit x k = true -> k < 8) -> 0 <= x <= 255.
Proof.
  intros x H.
  assert (Hx : x = x mod 2 ^ 8).
  { apply Z.bits_inj'. intros k Hk.
    destruct (Z_lt_le_dec k 8) as [Hlt|Hge].
    - rewrite Z.mod_pow2_bits_low by lia. reflexivity.
    - rewrite Z.mod_pow2_bits_high by lia.
      destruct (Z.testbit x k) eqn:E; [|reflexivity].
      apply H in E; lia. }
  pose proof (Z.mod_pos_bound x (2 ^ 8) ltac:(lia)). lia.
Qed.

Lemma enable_columns_bits :
  forall SC KR codes row cols masks,
    0 <= row < 8 ->
    (forall c, In c cols -> 0 <= c < 8) ->
    (forall k, 0 <= k -> Z.testbit (fst masks) k = true -> k < 8) ->
    (forall k, 0 <= k -> Z.testbit (snd masks) k = true -> k < 8) ->
    let res := enable_columns SC KR codes row cols masks in
    forall k, 0 <= k ->
      Z.testbit (fst res) k
        = Z.testbit (fst masks) k
          || ((k =? row)
              && existsb (fun c => negb (aget codes (SC row c MATRIX_ROW_SHIFT)
                                         =? KR)) cols)
      /\ Z.testbit (snd res) k
         = Z.testbit (snd masks) k
           || existsb (fun c => (k =? c)
                                && negb (aget codes (SC row c MATRIX_ROW_SHIFT)
                                         =? KR)) cols.
Proof.
  intros SC KR codes row cols. induction cols as [|col cols IH];
    intros masks Hrow Hcols Hf Hs res k Hk; subst res.
  - cbn [enable_columns existsb]. rewrite andb_false_r, !orb_false_r.
    split; reflexivity.
  - cbn [enable_columns existsb].
    assert (Hcol : 0 <= col < 8) by (apply Hcols; left; reflexivity).
    assert (Hcols' : forall c, In c cols -> 0 <= c < 8)
      by (intros c Hc; apply Hcols; right; exact Hc).
    destruct (aget codes (SC row col MATRIX_ROW_SHIFT) =? KR) eqn:E;
      cbn [negb orb andb].
    + rewrite andb_false_r. cbn [orb]. apply IH; assumption.
    + assert (H1 : forall j, 0 <= j ->
                Z.testbit (u16 (Z.lor (fst masks) (Z.shiftl 1 row))) j
                = Z.testbit (fst masks) j || (j =? row)).
      { intros j Hj. rewrite u16_testbit, Z.lor_spec, shiftl_1_bits by lia.
        destruct (Z.ltb_spec j 16) as [Hlt|Hge]; [reflexivity|].
        cbn [andb]. destruct (Z.eqb_spec j row); [lia|].
        destruct (Z.testbit (fst masks) j) eqn:Eb; [|reflexivity].
        apply Hf in Eb; lia. }
      assert (H2 : forall j, 0 <= j ->
                Z.testbit (u16 (Z.lor (snd masks) (Z.shiftl 1 col))) j
                = Z.testbit (snd masks) j || (j =? col)).
      { intros j Hj. rewrite u16_testbit, Z.lor_spec, shiftl_1_bits by lia.
        destruct (Z.ltb_spec j 16) as [Hlt|Hge]; [reflexivity|].
        cbn [andb]. destruct (Z.eqb_spec j col); [lia|].
        destruct (Z.testbit (snd masks) j) eqn:Eb; [|reflexivity].
        apply Hs in Eb; lia. }
      rewrite andb_true_r.
      edestruct (IH (u16 (Z.lor (fst masks) (Z.shiftl 1 row)),
                     u16 (Z.lor (snd masks) (Z.shiftl 1 col))))
        as [Ha Hb]; try eassumption.
      * cbn [fst]. intros j Hj Hb. rewrite H1 in Hb by assumption.
        apply orb_true_iff in Hb. destruct Hb as [Hb|Hb];
          [apply Hf; assumption|]. apply Z.eqb_eq in Hb. lia.
      * cbn [snd]. intros j Hj Hb. rewrite H2 in Hb by assumption.
        apply orb_true_iff in Hb. destruct Hb as [Hb|Hb];
          [apply Hs; assumption|]. apply Z.eqb_eq in Hb. lia.
      * rewrite Ha, Hb. cbn [fst snd]. rewrite H1, H2 by assumption.
        split.
        -- destruct (Z.testbit (fst masks) k), (k =? row); reflexivity.
        -- rewrite ?andb_true_r, orb_assoc. reflexivity.
Qed.

Lemma enable_rows_bits :
  forall SC KR codes rows masks,
    (forall r, In r rows -> 0 <= r < 8) ->
    (forall k, 0 <= k -> Z.testbit (fst masks) k = true -> k < 8) ->
    (forall k, 0 <= k -> Z.testbit (snd masks) k = true -> k < 8) ->
    let res := enable_rows SC KR codes rows masks in
    forall k, 0 <= k ->
      Z.testbit (fst res) k
        = Z.testbit (fst masks) k
          || existsb (fun r =>
               (k =? r)
               && existsb (fun c =>
                    negb (aget codes (SC r c MATRIX_ROW_SHIFT) =? KR))
                    indices) rows
      /\ Z.testbit (snd res) k
         = Z.testbit (snd masks) k
           || existsb (fun r =>
                existsb (fun c =>
                  (k =? c)
                  && negb (aget codes (SC r c MATRIX_ROW_SHIFT) =? KR))
                  indices) rows.
Proof.
  intros SC KR codes rows. induction rows as [|row rows IH];
    intros masks Hrows Hf Hs res k Hk; subst res.
  - cbn [enable_rows existsb]. rewrite !orb_false_r. split; reflexivity.
  - cbn [enable_rows existsb].
    assert (Hrow : 0 <= row < 8) by (apply Hrows; left; reflexivity).
    assert (Hrows' : forall r, In r rows -> 0 <= r < 8)
      by (intros r Hr; apply Hrows; right; exact Hr).
    assert (Hidx : forall c, In c indices -> 0 <= c < 8)
      by (intros c Hc; apply In_indices; exact Hc).
    pose proof (enable_columns_bits SC KR codes row indices masks
                  Hrow Hidx Hf Hs) as Hcol. cbv zeta in Hcol.
    edestruct (IH (enable_columns SC KR codes row indices masks))
      as [Ha Hb]; try eassumption.
    + intros j Hj Hbit. destruct (Hcol j Hj) as [Hc1 _].
      rewrite Hc1 in Hbit. apply orb_true_iff in Hbit.
      destruct Hbit as [Hbit|Hbit]; [apply Hf; assumption|].
      apply andb_true_iff in Hbit. destruct Hbit as [Hbit _].
      apply Z.eqb_eq in Hbit. lia.
    + intros j Hj Hbit. destruct (Hcol j Hj) as [_ Hc2].
      rewrite Hc2 in Hbit. apply orb_true_iff in Hbit.
      destruct Hbit as [Hbit|Hbit]; [apply Hs; assumption|].
      apply existsb_exists in Hbit. destruct Hbit as [c [Hc Hbit]].
      apply andb_true_iff in Hbit. destruct Hbit as [Hbit _].
      apply Z.eqb_eq in Hbit. apply In_indices in Hc. lia.
    + rewrite Ha, Hb. destruct (Hcol k Hk) as [Hc1 Hc2].
      rewrite Hc1, Hc2. rewrite !orb_assoc. split; reflexivity.
Qed.

(** X19. The masks that the probe routine computes.  Bit [r] of the
    row mask is set exactly when [r] is one of the rows 0 to 7 and some
    column 0 to 7 has a key code other than [KEY_RESERVED] at the scan
    code of that row and column; likewise for the column mask.  Both
    masks therefore fit in eight bits. *)
Theorem enabled_masks :
  forall (SC : Z -> Z -> Z -> Z) (KR : Z) (codes : list Z),
    let rows := fst (enable_rows SC KR codes indices (0, 0)) in
    let cols := snd (enable_rows SC KR codes indices (0, 0)) in
    (forall r, 0 <= r ->
       (Z.testbit rows r = true
        <-> r < 8 /\ exists c, 0 <= c < 8
                               /\ aget codes (SC r c MATRIX_ROW_SHIFT) <> KR))
    /\ (forall c, 0 <= c ->
          (Z.testbit cols c = true
           <-> c < 8 /\ exists r, 0 <= r < 8
                                  /\ aget codes (SC r c MATRIX_ROW_SHIFT)
                                     <> KR))
    /\ 0 <= rows <= 255
    /\ 0 <= cols <= 255.
Proof.
  intros SC KR codes. cbv zeta.
  assert (Hidx : forall c, In c indices -> 0 <= c < 8)
    by (intros c Hc; apply In_indices; exact Hc).
  assert (H0 : forall k, 0 <= k -> Z.testbit (fst (0, 0)) k = true -> k < 8)
    by (intros k Hk Hb; cbn [fst] in Hb; rewrite Z.bits_0 in Hb;
        discriminate Hb).
  pose proof (enable_rows_bits SC KR codes indices (0, 0) Hidx H0 H0) as Hb.
  cbv zeta in Hb. cbn [fst snd] in Hb.
  assert (Hrows : forall r, 0 <= r ->
            (Z.testbit (fst (enable_rows SC KR codes indices (0, 0))) r = true
             <-> r < 8 /\ exists c, 0 <= c < 8
                   /\ aget codes (SC r c MATRIX_ROW_SHIFT) <> KR)).
  { intros r Hr. destruct (Hb r Hr) as [Ha _]. rewrite Ha, Z.bits_0.
    cbn [orb]. rewrite existsb_exists. split.
    - intros [r' [Hin H]]. apply andb_true_iff in H. destruct H as [He H].
      apply Z.eqb_eq in He. subst r'. apply In_indices in Hin.
      split; [lia|]. apply existsb_exists in H. destruct H as [c [Hc H]].
      exists c. split; [apply In_indices; exact Hc|].
      apply negb_true_iff in H. apply Z.eqb_neq. exact H.
    - intros [Hlt [c [Hc Hne]]]. exists r.
      split; [apply In_indices; lia|]. rewrite Z.eqb_refl. cbn [andb].
      apply existsb_exists. exists c. split; [apply In_indices; exact Hc|].
      apply negb_true_iff. apply Z.eqb_neq. exact Hne. }
  assert (Hcols : forall c, 0 <= c ->
            (Z.testbit (snd (enable_rows SC KR codes indices (0, 0))) c = true
             <-> c < 8 /\ exists r, 0 <= r < 8
                   /\ aget codes (SC r c MATRIX_ROW_SHIFT) <> KR)).
  { intros c Hc. destruct (Hb c Hc) as [_ Ha]. rewrite Ha, Z.bits_0.
    cbn [orb]. rewrite existsb_exists. split.
    - intros [r [Hin H]]. apply existsb_exists in H.
      destruct H as [c' [Hc' H]]. apply andb_true_iff in H.
      destruct H as [He H]. apply Z.eqb_eq in He. subst c'.
      apply In_indices in Hc'. split; [lia|].
      exists r. split; [apply In_indices; exact Hin|].
      apply negb_true_iff in H. apply Z.eqb_neq. exact H.
    - intros [Hlt [r [Hr Hne]]]. exists r.
      split; [apply In_indices; exact Hr|].
      apply existsb_exists. exists c. split; [apply In_indices; lia|].
      rewrite Z.eqb_refl. cbn [andb].
      apply negb_true_iff. apply Z.eqb_neq. exact Hne. }
  split; [exact Hrows|]. split; [exact Hcols|]. split.
  - apply low_bits_bound. intros k Hk Hbit. apply Hrows in Hbit; tauto.
  - apply low_bits_bound. intros k Hk Hbit. apply Hcols in Hbit; tauto.
Qed.


(** ** Configuration *)

Lemma ff_bits : forall k, 0 <= k -> Z.testbit 0xff k = (k <? 8).
Proof.
  intros k Hk. change 0xff with (Z.ones 8).
  apply Z.testbit_ones_nonneg; lia.
Qed.

Lemma u16_u16 : forall x, u16 (u16 x) = u16 x.
Proof. intros x. unfold u16. apply Z.mod_mod. lia. Qed.

(** X20. [imx_keypad_config] makes eight register accesses, in this
    order: it reads the control register and writes it back with the
    enabled rows added to bits 0 to 7 and the enabled columns to bits 8
    to 15; it reads the data register and writes back its low byte; it
    writes 0xff00 to the direction register; it reads the status
    register, writes it back with bits 0 to 3 set, and writes it once
    more with bit 8 (depress interrupt) set and bit 9 (release
    interrupt) clear in addition. *)
Theorem imx_keypad_config_accesses :
  forall (B : Bus) (keypad : imx_keypad) (h : bstate B),
  exists c0 c d0 s0 s1 s2,
    ktr (imx_keypad_config keypad) h
      = [KReadw KPCR c0; KWritew c KPCR;
         KReadw KPDR d0; KWritew (Z.land d0 0xff) KPDR;
         KWritew 0xff00 KDDR;
         KReadw KPSR s0; KWritew s1 KPSR; KWritew s2 KPSR]
    /\ (forall k, 0 <= k < 16 ->
          Z.testbit c k
          = Z.testbit c0 k
            || ((k <? 8) && Z.testbit (rows_en_mask keypad) k)
            || ((8 <=? k) && Z.testbit (cols_en_mask keypad) (k - 8)))
    /\ (forall k, 0 <= k < 16 ->
          Z.testbit s1 k = Z.testbit s0 k || (k <? 4))
    /\ (forall k, 0 <= k < 16 ->
          Z.testbit s2 k
          = if k =? 8 then true else if k =? 9 then false
            else Z.testbit s1 k).
Proof.
  intros B keypad h. unfold imx_keypad_config.
  repeat (rewrite ?ktr_bind, ?ktr_readw, ?ktr_writew, ?kst_bind; cbv zeta).
  cbn [app]. rewrite !u16_u16, u16_land_low.
  do 6 eexists. split; [reflexivity|]. split; [|split].
  - intros k Hk.
    rewrite !u16_testbit, !Z.lor_spec, u16_testbit, Z.lor_spec by lia.
    rewrite Z.shiftl_spec, !Z.land_spec by lia.
    destruct (Z.ltb_spec k 16) as [_|]; [|lia]. cbn [andb].
    rewrite ff_bits by lia.
    destruct (Z.ltb_spec k 8) as [Hlt|Hge].
    + rewrite (Z.testbit_neg_r _ (k - 8)) by lia.
      destruct (Z.leb_spec 8 k); [lia|].
      rewrite andb_true_r. cbn [andb]. rewrite !orb_false_r.
      reflexivity.
    + rewrite ff_bits by lia.
      destruct (Z.ltb_spec (k - 8) 8); [|lia].
      destruct (Z.leb_spec 8 k); [|lia].
      rewrite andb_false_r, andb_true_r. cbn [andb orb].
      reflexivity.
  - intros k Hk. rewrite u16_testbit, Z.lor_spec by lia.
    destruct (Z.ltb_spec k 16) as [_|]; [|lia]. cbn [andb]. f_equal.
    change (Z.lor KBD_STAT_KPKR
              (Z.lor KBD_STAT_KPKD (Z.lor KBD_STAT_KDSC KBD_STAT_KRSS)))
      with (Z.ones 4).
    apply Z.testbit_ones_nonneg; lia.
  - intros k Hk. unfold KBD_STAT_KDIE, KBD_STAT_KRIE.
    rewrite !u16_testbit, Z.land_spec, Z.lnot_spec, u16_testbit,
      Z.lor_spec, !shiftl_1_bits by lia.
    destruct (Z.ltb_spec k 16) as [_|]; [|lia]. cbn [andb].
    rewrite u16_testbit by lia.
    destruct (Z.ltb_spec k 16) as [_|]; [|lia]. cbn [andb].
    destruct (Z.eqb_spec k 8) as [->|H8];
      [rewrite orb_true_r; reflexivity|].
    destruct (Z.eqb_spec k 9) as [->|H9].
    + cbn [negb]. apply andb_false_r.
    + cbn [negb]. rewrite orb_false_r, andb_true_r. reflexivity.
Qed.

(** X21. [imx_keypad_inhibit] reads the status register, writes it back
    with both interrupt enables (bits 8 and 9) clear and the other bits
    as read, and then writes 0xff00 to the control register: every row
    is taken out of interrupt generation. *)
Theorem imx_keypad_inhibit_accesses :
  forall (B : Bus) (keypad : imx_keypad) (h : bstate B),
  exists s0 s,
    ktr (imx_keypad_inhibit keypad) h
      = [KReadw KPSR s0; KWritew s KPSR; KWritew 0xff00 KPCR]
    /\ Z.testbit s 8 = false
    /\ Z.testbit s 9 = false
    /\ (forall k, 0 <= k < 16 -> k <> 8 -> k <> 9 ->
          Z.testbit s k = Z.testbit s0 k)
    /\ (forall k, 0 <= k < 8 -> Z.testbit 0xff00 k = false).
Proof.
  intros B keypad h. unfold imx_keypad_inhibit.
  repeat (rewrite ?ktr_bind, ?ktr_readw, ?ktr_writew, ?kst_bind).
  cbn [app]. do 2 eexists. split; [reflexivity|].
  unfold KBD_STAT_KDIE, KBD_STAT_KRIE.
  split; [|split; [|split]].
  - rewrite u16_testbit, Z.land_spec, Z.lnot_spec, Z.lor_spec,
      !shiftl_1_bits by lia.
    cbn. apply andb_false_r.
  - rewrite u16_testbit, Z.land_spec, Z.lnot_spec, Z.lor_spec,
      !shiftl_1_bits by lia.
    cbn. apply andb_false_r.
  - intros k Hk H8 H9.
    rewrite u16_testbit, Z.land_spec, Z.lnot_spec, Z.lor_spec,
      !shiftl_1_bits by lia.
    destruct (Z.ltb_spec k 16) as [_|]; [|lia]. cbn [andb].
    destruct (Z.eqb_spec k 8); [lia|]. destruct (Z.eqb_spec k 9); [lia|].
    cbn [orb negb]. apply andb_true_r.
  - intros k Hk. change 0xff00 with (Z.shiftl 0xff 8).
    rewrite Z.shiftl_spec by lia. apply Z.testbit_neg_r. lia.
Qed.


(** ** Probe *)

Lemma enable_rows_fit :
  forall SC KR codes,
    0 <= fst (enable_rows SC KR codes indices (0, 0)) <= 255
    /\ 0 <= snd (enable_rows SC KR codes indices (0, 0)) <= 255.
Proof.
  intros SC KR codes.
  assert (Hidx : forall c, In c indices -> 0 <= c < 8)
    by (intros c Hc; apply In_indices; exact Hc).
  assert (H0 : forall k, 0 <= k -> Z.testbit (fst (0, 0)) k = true -> k < 8)
    by (intros k Hk Hb; cbn [fst] in Hb; rewrite Z.bits_0 in Hb;
        discriminate Hb).
  pose proof (enable_rows_bits SC KR codes indices (0, 0) Hidx H0 H0) as Hb.
  cbv zeta in Hb. cbn [fst snd] in Hb.
  split; apply low_bits_bound; intros k Hk Hbit.
  - destruct (Hb k Hk) as [Ha _]. rewrite Ha, Z.bits_0 in Hbit.
    cbn [orb] in Hbit. apply existsb_exists in Hbit.
    destruct Hbit as [r [Hr H]]. apply andb_true_iff in H.
    destruct H as [He _]. apply Z.eqb_eq in He. apply In_indices in Hr. lia.
  - destruct (Hb k Hk) as [_ Ha]. rewrite Ha, Z.bits_0 in Hbit.
    cbn [orb] in Hbit. apply existsb_exists in Hbit.
    destruct Hbit as [r [_ H]]. apply existsb_exists in H.
    destruct H as [c [Hc H]]. apply andb_true_iff in H.
    destruct H as [He _]. apply Z.eqb_eq in He. apply In_indices in Hc. lia.
Qed.

Lemma config_register_accesses :
  forall (B : Bus) (keypad : imx_keypad) (h : bstate B) e,
    In e (ktr (imx_keypad_config keypad) h) ->
    (exists r v, e = KReadw r v) \/ (exists v r, e = KWritew v r).
Proof.
  intros B keypad h e. unfold imx_keypad_config.
  repeat (rewrite ?ktr_bind, ?ktr_readw, ?ktr_writew, ?kst_bind; cbv zeta).
  cbn [app In]. intros H.
  repeat (destruct H as [H|H];
          [subst e; (left; eexists; eexists; reflexivity)
                    || (right; eexists; eexists; reflexivity)|]).
  contradiction.
Qed.

Lemma inhibit_trace :
  forall (B : Bus) (keypad : imx_keypad) (h : bstate B),
  exists s0 s,
    ktr (imx_keypad_inhibit keypad) h
      = [KReadw KPSR s0; KWritew s KPSR; KWritew 0xff00 KPCR]
    /\ Z.testbit s 8 = false /\ Z.testbit s 9 = false.
Proof.
  intros B keypad h. unfold imx_keypad_inhibit.
  repeat (rewrite ?ktr_bind, ?ktr_readw, ?ktr_writew, ?kst_bind).
  cbn [app]. do 2 eexists. split; [reflexivity|].
  unfold KBD_STAT_KDIE, KBD_STAT_KRIE.
  split; rewrite u16_testbit, Z.land_spec, Z.lnot_spec, Z.lor_spec,
           !shiftl_1_bits by lia; cbn; apply andb_false_r.
Qed.

(** X22. [imx_keypad_probe].  The error about too many rows or columns
    is never logged.  A step that fails ends the probe with its code:
    an error pointer from the memory request before anything else is
    done, a code of the key-map builder before any register is
    touched, a code of the poller registration before the input device
    is registered.  The poller is registered only directly after the
    keypad was made dormant: the two register writes before it clear
    both interrupt enables in the status register and put 0xff00 in the
    control register.  The input device is registered only after the
    poller was registered with code 0, and its code is the result.  The
    driver state starts with count 0, all-zero matrices and masks that
    fit in eight bits. *)
Theorem imx_keypad_probe_outcome :
  forall (B : Bus) (SC : Z -> Z -> Z -> Z) (KR : Z) (h : bstate B),
    let r := kres (imx_keypad_probe SC KR) h in
    let t := ktr (imx_keypad_probe SC KR) h in
    ~ In (KLog LErr "invalid key data (too many rows or colums)" []) t
    /\ (forall e, In (KRequestMem (ErrPtr e)) t ->
          fst r = e /\ t = [KRequestMem (ErrPtr e)])
    /\ (forall rc, In (KBuildKeymap rc) t -> rc <> 0 ->
          fst r = rc /\ t = [KRequestMem Ptr; KBuildKeymap rc])
    /\ (forall rc, In (KPollerRegister rc) t ->
          (exists t0 s t1,
             t = t0 ++ [KWritew s KPSR; KWritew 0xff00 KPCR;
                        KPollerRegister rc] ++ t1
             /\ Z.testbit s 8 = false /\ Z.testbit s 9 = false)
          /\ (rc <> 0 ->
              fst r = rc /\ forall rc', ~ In (KInputRegister rc') t))
    /\ (forall rc, In (KInputRegister rc) t ->
          fst r = rc /\ In (KPollerRegister 0) t)
    /\ (forall keypad, snd r = Some keypad ->
          stable_count keypad = 0
          /\ matrix_stable_state keypad = [0; 0; 0; 0; 0; 0; 0; 0]
          /\ matrix_unstable_state keypad = [0; 0; 0; 0; 0; 0; 0; 0]
          /\ 0 <= rows_en_mask keypad <= 255
          /\ 0 <= cols_en_mask keypad <= 255).
Proof.
  intros B SC KR h. cbv zeta. unfold imx_keypad_probe.
  rewrite ktr_bind, kres_bind.
  set (req := fun h0 : bstate B =>
                let (r, h') := b_request_mem B h0 in
                (r, h', [KRequestMem r])).
  assert (Hreq : ktr req h = [KRequestMem (kres req h)]).
  { unfold ktr, kres, req. destruct (b_request_mem B h). reflexivity. }
  rewrite Hreq. clear Hreq. set (h1 := kst req h). clearbody h1.
  destruct (kres req h) as [|e]; cbn [IS_ERR PTR_ERR].
  2:{ rewrite ktr_kret, kres_kret. cbn [app fst snd].
      split; [|split; [|split; [|split; [|split]]]].
      - intros [H|[]]. discriminate H.
      - intros e' [H|[]]. inversion H. split; reflexivity.
      - intros rc [H|[]]. discriminate H.
      - intros rc [H|[]]. discriminate H.
      - intros rc [H|[]]. discriminate H.
      - intros kp H. discriminate H. }
  rewrite ktr_bind, kres_bind.
  set (bld := fun h0 : bstate B =>
                let '(rc, codes, h') := b_build_keymap B h0 in
                (rc, codes, h', [KBuildKeymap rc])).
  assert (Hbld : ktr bld h1 = [KBuildKeymap (fst (kres bld h1))]).
  { unfold ktr, kres, bld. destruct (b_build_keymap B h1) as [[rc codes] h'].
    reflexivity. }
  rewrite Hbld. clear Hbld. set (h2 := kst bld h1). clearbody h2.
  destruct (kres bld h1) as [rc codes]. cbn [fst].
  destruct (Z.eqb_spec rc 0) as [->|Hrc]; cbn [negb].
  2:{ rewrite ktr_kret, kres_kret. cbn [app fst snd].
      split; [|split; [|split; [|split; [|split]]]].
      - intros [H|[H|[]]]; discriminate H.
      - intros e' [H|[H|[]]]; discriminate H.
      - intros rc' [H|[H|[]]] Hne; [discriminate H|].
        inversion H. split; reflexivity.
      - intros rc' [H|[H|[]]]; discriminate H.
      - intros rc' [H|[H|[]]]; discriminate H.
      - intros kp H. discriminate H. }
  pose proof (enable_rows_fit SC KR codes) as [Hrows Hcols].
  destruct (enable_rows SC KR codes indices (0, 0)) as [rows cols].
  cbn [fst snd] in Hrows, Hcols.
  assert (Hfit : (Z.shiftl 1 MAX_MATRIX_KEY_ROWS - 1 <? rows)
                 || (Z.shiftl 1 MAX_MATRIX_KEY_COLS - 1 <? cols) = false).
  { change (Z.shiftl 1 MAX_MATRIX_KEY_ROWS - 1) with 255.
    change (Z.shiftl 1 MAX_MATRIX_KEY_COLS - 1) with 255.
    destruct (Z.ltb_spec 255 rows); [lia|].
    destruct (Z.ltb_spec 255 cols); [lia|]. reflexivity. }
  rewrite Hfit. clear Hfit.
  set (keypad := {| stable_count := 0; rows_en_mask := rows;
                    cols_en_mask := cols; keycodes := codes;
                    matrix_stable_state := [0; 0; 0; 0; 0; 0; 0; 0];
                    matrix_unstable_state := [0; 0; 0; 0; 0; 0; 0; 0] |}).
  repeat rewrite ktr_bind. repeat rewrite kres_bind.
  repeat rewrite kst_bind.
  change (ktr (klog LDbg "enabled rows mask: %x" [rows]) h2)
    with [KLog LDbg "enabled rows mask: %x" [rows]].
  change (kst (klog LDbg "enabled rows mask: %x" [rows]) h2) with h2.
  change (ktr (klog LDbg "enabled cols mask: %x" [cols]) h2)
    with [KLog LDbg "enabled cols mask: %x" [cols]].
  change (kst (klog LDbg "enabled cols mask: %x" [cols]) h2) with h2.
  pose proof (config_register_accesses B keypad h2) as Hcfg.
  set (tc := ktr (imx_keypad_config keypad) h2) in *. clearbody tc.
  set (h3 := kst (imx_keypad_config keypad) h2). clearbody h3.
  destruct (inhibit_trace B keypad h3) as [s0 [s [Hi [H8 H9]]]].
  rewrite Hi. clear Hi.
  set (h4 := kst (imx_keypad_inhibit keypad) h3). clearbody h4.
  set (pol := fun h0 : bstate B =>
                let (r, h') := b_poller_register B h0 in
                (r, h', [KPollerRegister r])).
  assert (Hpol : ktr pol h4 = [KPollerRegister (kres pol h4)]).
  { unfold ktr, kres, pol. destruct (b_poller_register B h4). reflexivity. }
  rewrite Hpol. clear Hpol. set (h5 := kst pol h4). clearbody h5.
  set (rc1 := kres pol h4). clearbody rc1.
  assert (Hnc : forall e, In e tc ->
            forall P : Prop,
              match e with KReadw _ _ | KWritew _ _ => P | _ => True end ->
              P).
  { intros e He P. destruct (Hcfg e He) as [[r [v ->]]|[v [r ->]]]; auto. }
  assert (Hdec : forall t1,
            [KRequestMem Ptr] ++ [KBuildKeymap 0]
              ++ [KLog LDbg "enabled rows mask: %x" [rows]]
              ++ [KLog LDbg "enabled cols mask: %x" [cols]]
              ++ tc ++ [KReadw KPSR s0; KWritew s KPSR; KWritew 65280 KPCR]
              ++ [KPollerRegister rc1] ++ t1
            = ([KRequestMem Ptr; KBuildKeymap 0;
                KLog LDbg "enabled rows mask: %x" [rows];
                KLog LDbg "enabled cols mask: %x" [cols]]
                 ++ tc ++ [KReadw KPSR s0])
                ++ [KWritew s KPSR; KWritew 65280 KPCR; KPollerRegister rc1]
                ++ t1).
  { intros t1. cbn [app]. rewrite <- !app_assoc. reflexivity. }
  destruct (Z.eqb_spec rc1 0) as [->|Hrc1]; cbn [negb].
  - rewrite ktr_bind, kres_bind.
    set (inp := fun h0 : bstate B =>
                  let (r, h') := b_input_device_register B h0 in
                  (r, h', [KInputRegister r])).
    assert (Hinp : ktr inp h5 = [KInputRegister (kres inp h5)]).
    { unfold ktr, kres, inp. destruct (b_input_device_register B h5).
      reflexivity. }
    rewrite Hinp. clear Hinp. set (h6 := kst inp h5). clearbody h6.
    set (rc2 := kres inp h5). clearbody rc2.
    assert (Hres : fst (kres (if negb (rc2 =? 0)
                              then kret (rc2, Some keypad)
                              else kret (0, Some keypad)) h6) = rc2
                   /\ snd (kres (if negb (rc2 =? 0)
                                 then kret (B := B) (rc2, Some keypad)
                                 else kret (0, Some keypad)) h6)
                      = Some keypad
                   /\ ktr (if negb (rc2 =? 0)
                           then kret (B := B) (rc2, Some keypad)
                           else kret (0, Some keypad)) h6 = []).
    { destruct (Z.eqb_spec rc2 0) as [->|]; cbn [negb];
        repeat split; reflexivity. }
    destruct Hres as [Hr1 [Hr2 Hr3]]. rewrite Hr1, Hr2, Hr3. clear Hr1 Hr2 Hr3.
    rewrite Hdec.
    split; [|split; [|split; [|split; [|split]]]].
    + rewrite !in_app_iff. cbn [In].
      intros H. decompose [or] H; try discriminate; try contradiction.
      eapply (Hnc _ H0 False). exact I.
    + intros e. rewrite !in_app_iff. cbn [In].
      intros H. decompose [or] H; try discriminate; try contradiction.
      eapply (Hnc _ H0). exact I.
    + intros rc. rewrite !in_app_iff. cbn [In].
      intros H Hne. decompose [or] H; try discriminate; try contradiction.
      * inversion H1. congruence.
      * eapply (Hnc _ H0). exact I.
    + intros rc. rewrite !in_app_iff. cbn [In].
      intros H. decompose [or] H; try discriminate; try contradiction.
      * eapply (Hnc _ H0). exact I.
      * inversion H0. subst rc. split; [|intros Hne; congruence].
        eexists. exists s. eexists. split; [reflexivity|]. split; assumption.
    + intros rc. rewrite !in_app_iff. cbn [In].
      intros H. decompose [or] H; try discriminate; try contradiction.
      * eapply (Hnc _ H0). exact I.
      * inversion H1. subst rc. split; [reflexivity|].
        right. left. right. right. left. reflexivity.
    + intros kp Hkp. inversion Hkp. subst kp. cbn.
      repeat split; try reflexivity; lia.
  - rewrite ktr_kret, kres_kret. cbn [fst snd]. rewrite Hdec.
    split; [|split; [|split; [|split; [|split]]]].
    + rewrite !in_app_iff. cbn [In].
      intros H. decompose [or] H; try discriminate; try contradiction.
      eapply (Hnc _ H0 False). exact I.
    + intros e. rewrite !in_app_iff. cbn [In].
      intros H. decompose [or] H; try discriminate; try contradiction.
      eapply (Hnc _ H0). exact I.
    + intros rc. rewrite !in_app_iff. cbn [In].
      intros H Hne. decompose [or] H; try discriminate; try contradiction.
      * inversion H1. congruence.
      * eapply (Hnc _ H0). exact I.
    + intros rc. rewrite !in_app_iff. cbn [In].
      intros H. decompose [or] H; try discriminate; try contradiction.
      * eapply (Hnc _ H0). exact I.
      * inversion H0. subst rc. split.
        -- eexists. exists s. eexists. split; [reflexivity|].
           split; assumption.
        -- intros _. split; [reflexivity|]. intros rc'.
           rewrite !in_app_iff. cbn [In].
           intros H'. decompose [or] H'; try discriminate;
             try contradiction.
           eapply (Hnc _ H1 False). exact I.
    + intros rc. rewrite !in_app_iff. cbn [In].
      intros H. decompose [or] H; try discriminate; try contradiction.
      eapply (Hnc _ H0). exact I.
    + intros kp Hkp. inversion Hkp. subst kp. cbn.
      repeat split; try reflexivity; lia.
Qed.


(** ** The properties at work on a scripted bus

    One key (code 30) at row 0, column 0; every register read answers
    0, which the active-low data register turns into "key down". *)

Lemma check_for_events_debounce_witness :
  let kp := {| stable_count := 2; rows_en_mask := 1; cols_en_mask := 1;
               keycodes := [30];
               matrix_stable_state := [0; 0; 0; 0; 0; 0; 0; 0];
               matrix_unstable_state := [1; 0; 0; 0; 0; 0; 0; 0] |} in
  let poll := imx_keypad_check_for_events (B := script_bus [30]) scan_code in
  stable_count (kres (poll kp) []) = 3
  /\ matrix_stable_state (kres (poll kp) []) = [1; 0; 0; 0; 0; 0; 0; 0]
  /\ reports (ktr (poll kp) []) = [(30, 1)].
Proof.
  cbv zeta.
  destruct (check_for_events_debounce (script_bus [30]) scan_code
              {| stable_count := 2; rows_en_mask := 1; cols_en_mask := 1;
                 keycodes := [30];
                 matrix_stable_state := [0; 0; 0; 0; 0; 0; 0; 0];
                 matrix_unstable_state := [1; 0; 0; 0; 0; 0; 0; 0] |}
              (@nil Z : bstate (script_bus [30])))
    as [_ [_ [_ [_ H]]]].
  destruct H as [Hc [_ [H3 _]]].
  - intros col _ _. reflexivity.
  - reflexivity.
  - destruct (H3 eq_refl) as [Hs Hr].
    split; [exact Hc|]. split; [exact Hs|exact Hr].
Defined.

Lemma debounce_four_scans_witness :
  let kp0 := {| stable_count := 0; rows_en_mask := 1; cols_en_mask := 1;
                keycodes := [30];
                matrix_stable_state := [0; 0; 0; 0; 0; 0; 0; 0];
                matrix_unstable_state := [0; 0; 0; 0; 0; 0; 0; 0] |} in
  let poll := imx_keypad_check_for_events (B := script_bus [30]) scan_code in
  let kp1 := kres (poll kp0) [] in
  let h1 := kst (poll kp0) [] in
  let kp2 := kres (poll kp1) h1 in
  let h2 := kst (poll kp1) h1 in
  let kp3 := kres (poll kp2) h2 in
  let h3 := kst (poll kp2) h2 in
  reports (ktr (poll kp0) []) = []
  /\ reports (ktr (poll kp1) h1) = []
  /\ reports (ktr (poll kp2) h2) = []
  /\ reports (ktr (poll kp3) h3) = [(30, 1)]
  /\ matrix_stable_state (kres (poll kp3) h3) = [1; 0; 0; 0; 0; 0; 0; 0].
Proof.
  cbv zeta.
  destruct (debounce_four_scans (script_bus [30]) scan_code
              {| stable_count := 0; rows_en_mask := 1; cols_en_mask := 1;
                 keycodes := [30];
                 matrix_stable_state := [0; 0; 0; 0; 0; 0; 0; 0];
                 matrix_unstable_state := [0; 0; 0; 0; 0; 0; 0; 0] |}
              (@nil Z : bstate (script_bus [30]))
              [1; 0; 0; 0; 0; 0; 0; 0])
    as [H1 [H2 [H3 [H4 [H5 _]]]]].
  - reflexivity.
  - reflexivity.
  - reflexivity.
  - reflexivity.
  - exists 0. split; [lia|]. split; [reflexivity|].
    intros H. discriminate H.
  - split; [exact H1|]. split; [exact H2|]. split; [exact H3|].
    split; [exact H4|exact H5].
Defined.

Lemma check_for_events_rearm_witness :
  let kp := {| stable_count := 2; rows_en_mask := 1; cols_en_mask := 1;
               keycodes := [30];
               matrix_stable_state := [0; 0; 0; 0; 0; 0; 0; 0];
               matrix_unstable_state := [1; 0; 0; 0; 0; 0; 0; 0] |} in
  let poll := imx_keypad_check_for_events (B := script_bus [30]) scan_code in
  exists t0 v0 v1 a w,
    ktr (poll kp) [] = t0 ++ [KReadw KPSR v0; KWritew a KPSR;
                              KReadw KPSR v1; KWritew w KPSR]
    /\ Z.testbit w 9 = true /\ Z.testbit w 8 = false.
Proof.
  cbv zeta.
  destruct (check_for_events_rearm (script_bus [30]) scan_code
              {| stable_count := 2; rows_en_mask := 1; cols_en_mask := 1;
                 keycodes := [30];
                 matrix_stable_state := [0; 0; 0; 0; 0; 0; 0; 0];
                 matrix_unstable_state := [1; 0; 0; 0; 0; 0; 0; 0] |}
              (@nil Z : bstate (script_bus [30])))
    as [_ H].
  destruct H as [t0 [v0 [v1 [a [w [Ht [_ [_ [_ [_ Hnz]]]]]]]]]].
  - intros H. discriminate H.
  - exists t0, v0, v1, a, w. split; [exact Ht|].
    destruct Hnz as [_ [_ [H9 H8]]].
    + exists 0. split; [lia|]. intros H. discriminate H.
    + split; [exact H9|exact H8].
Defined.

End KppFacts.
